(** * FOUNDprint: the entropy resolution and aggregation engine

    A shallow embedding of the reasoning core of [foundprint.js]: the
    reference tables, the market-share lookup, the entropy arithmetic, the
    pixel-ratio analysis, the fingerprint serialisation and the sequential
    test runner, then the helpers around them (time zone and user agent
    display, the hash function, bold markers and the typewriter),
    followed by the properties established about them.

    Conventions of the embedding.
    - The numbers the runner adds up and displays (entropies, 1 in X
      figures, the total) are real numbers extended with NaN: NaN is
      absorbing in the arithmetic and every comparison with it is
      false. The rounding and the overflow of IEEE doubles are not
      represented there. The three entropy conversions are given a
      second time over binary64 floats, in [Binary64], with the host
      functions [Math.log2] and [Math.pow] as variables.
    - [analyzePixelRatio] only adds, multiplies, rounds and compares, so it
      is embedded over binary64 floats, bit for bit; so are the numbers
      among the values to hash, printed by [Number::toString].
    - A JavaScript string is a [string] of 8-bit code units.
    - The whole numbers of [md5] and of the time zone offset are
      integers, with the conversions to 32 bits of the bitwise operators
      written out.
    - What [typewriterReveal] does to the page is the list of the values
      it gives to [element.innerHTML].
    - An object literal used as a map is the list of its property
      definitions in source order; [get] reads an own property and
      [Object_keys] enumerates the keys. A read of [dataSource.data]
      with a key computed from a value follows the prototype chain:
      [read] finds the own property or else the member of
      [Object.prototype] of that name. The objects [tests] and
      [BASELINE_ENTROPY] are read with the names of [testOrder] only,
      none of which is inherited, so [get] is used for them.
    - A result of a test carries a [message] string, as the results of
      the sixteen tests do; the text of the message is left out. *)

From Stdlib Require Import Reals Lra Lia ZArith NArith List String Ascii Bool.
From Stdlib Require Import Floats Uint63 DecimalString DecimalPos.
From Stdlib Require Import QArith Qround.
Import ListNotations.

#[local] Set Warnings "-inexact-float,-register-all".

Local Open Scope string_scope.
Local Open Scope R_scope.

(* ------------------------------------------------------------------ *)
(** ** Strings: [trim] and [includes] *)

Module JSString.

(** WhiteSpace and LineTerminator code units below 256: TAB, LF, VT, FF,
    CR, SPACE and NO-BREAK SPACE. *)
Definition isWhiteSpace (c : ascii) : bool :=
  let n := nat_of_ascii c in
  ((9 <=? n) && (n <=? 13) || (n =? 32) || (n =? 160))%nat.

Fixpoint trimStart (s : string) : string :=
  match s with
  | EmptyString => EmptyString
  | String c s' => if isWhiteSpace c then trimStart s' else s
  end.

Fixpoint trimEnd (s : string) : string :=
  match s with
  | EmptyString => EmptyString
  | String c s' =>
      match trimEnd s' with
      | EmptyString => if isWhiteSpace c then EmptyString else String c EmptyString
      | r => String c r
      end
  end.

(** [s.trim()] *)
Definition trim (s : string) : string := trimEnd (trimStart s).

(** [s.includes(sub)] *)
Fixpoint includes (s sub : string) : bool :=
  String.prefix sub s ||
  match s with
  | EmptyString => false
  | String _ s' => includes s' sub
  end.

End JSString.

(* ------------------------------------------------------------------ *)
(** ** Object literals used as maps *)

Module JSObject.

(** The property definitions of a literal [{ k1: v1, k2: v2, ... }], in
    source order. No key is [__proto__], which a literal takes as its
    prototype and not as a property. *)
Definition object (A : Type) : Type := list (string * A).

Section Reads.
Context {A : Type}.

(** [o[k]] on the own properties of [o]; a later definition of a key
    overrides an earlier one. [None]: [o] has no own property [k]. *)
Fixpoint get (o : object A) (k : string) : option A :=
  match o with
  | [] => None
  | (k', v) :: o' =>
      match get o' k with
      | Some v' => Some v'
      | None => if String.eqb k' k then Some v else None
      end
  end.

(** The own keys in order of first definition. *)
Fixpoint definedKeys (seen : list string) (o : object A) : list string :=
  match o with
  | [] => []
  | (k, _) :: o' =>
      if existsb (String.eqb k) seen then definedKeys seen o'
      else k :: definedKeys (k :: seen) o'
  end.
End Reads.

Definition isDigit (c : ascii) : bool :=
  let n := nat_of_ascii c in ((48 <=? n) && (n <=? 57))%nat.

Fixpoint digitsValue (s : string) (acc : N) : option N :=
  match s with
  | EmptyString => Some acc
  | String c s' =>
      if isDigit c
      then digitsValue s' (10 * acc + (N_of_ascii c - 48))%N
      else None
  end.

(** A key is an array index when it is the canonical decimal form of an
    integer in [0, 2^32 - 2]. *)
Definition arrayIndex (k : string) : option N :=
  match k with
  | EmptyString => None
  | String c rest =>
      if Ascii.eqb c "0"
      then (if String.eqb rest "" then Some 0%N else None)
      else match digitsValue k 0 with
           | Some n => if (n <=? 4294967294)%N then Some n else None
           | None => None
           end
  end.

Definition isArrayIndex (k : string) : bool :=
  match arrayIndex k with Some _ => true | None => false end.

Definition indexOf (k : string) : N :=
  match arrayIndex k with Some n => n | None => 0%N end.

Fixpoint insertIndex (k : string) (ks : list string) : list string :=
  match ks with
  | [] => [k]
  | k' :: ks' =>
      if (indexOf k <=? indexOf k')%N then k :: ks else k' :: insertIndex k ks'
  end.

Definition sortIndices (ks : list string) : list string :=
  fold_right insertIndex [] ks.

(** [Object.keys(o)]: the array-index keys in ascending numeric order,
    then the other string keys in order of first definition
    (OrdinaryOwnPropertyKeys). *)
Definition Object_keys {A : Type} (o : object A) : list string :=
  let ks := definedKeys [] o in
  (sortIndices (filter isArrayIndex ks)
    ++ filter (fun k => negb (isArrayIndex k)) ks)%list.

(** The names an object literal inherits from [Object.prototype]: a read
    of one of them on an object that does not define it finds the
    inherited member, a function or, for [__proto__], the prototype
    object. *)
Definition Object_prototype : list string :=
  [ "constructor"; "__defineGetter__"; "__defineSetter__"; "hasOwnProperty";
    "__lookupGetter__"; "__lookupSetter__"; "isPrototypeOf";
    "propertyIsEnumerable"; "toString"; "valueOf"; "__proto__";
    "toLocaleString" ].

Definition inherited (k : string) : bool :=
  existsb (String.eqb k) Object_prototype.

End JSObject.

Import JSString JSObject.

(* ------------------------------------------------------------------ *)
(** ** Numbers of the entropy arithmetic

    The numbers the runner adds up, compares and displays: a real
    number, or NaN. The rounding and the overflow of doubles are not
    represented; the entropy conversions are embedded a second time
    over binary64 floats, in [Binary64]. *)

(** The binary logarithm. *)
Definition log2 (x : R) : R := ln x / ln 2.

Inductive number : Type :=
| Num (x : R)
| NaN.

Coercion Num : R >-> number.

Module Number.

Definition add (a b : number) : number :=
  match a, b with
  | Num x, Num y => Num (x + y)
  | _, _ => NaN
  end.

Definition sub (a b : number) : number :=
  match a, b with
  | Num x, Num y => Num (x - y)
  | _, _ => NaN
  end.

Definition mul (a b : number) : number :=
  match a, b with
  | Num x, Num y => Num (x * y)
  | _, _ => NaN
  end.

(** [a / b] for a divisor that is not zero: the runner divides by the
    constants of [formatNumber] and by a percent that it has found
    positive. *)
Definition div (a b : number) : number :=
  match a, b with
  | Num x, Num y => Num (x / y)
  | _, _ => NaN
  end.

(** [a >= b] and [a <= b]: false when an operand is NaN. *)
Definition ge (a b : number) : bool :=
  match a, b with
  | Num x, Num y => if Rge_dec x y then true else false
  | _, _ => false
  end.

Definition le (a b : number) : bool :=
  match a, b with
  | Num x, Num y => if Rle_dec x y then true else false
  | _, _ => false
  end.

(** Truthiness: zero and NaN are falsy. *)
Definition truthy (a : number) : bool :=
  match a with
  | Num x => if Req_dec_T x 0 then false else true
  | NaN => false
  end.

(** [a || b] *)
Definition or (a b : number) : number := if truthy a then a else b.

(** [Math.log2(a)] for an argument that is not zero: NaN on a negative
    number and on NaN. The runner takes the logarithm of a quotient
    [100 / percent] with a positive percent only. *)
Definition Math_log2 (a : number) : number :=
  match a with
  | Num x => if Rle_dec x 0 then NaN else Num (log2 x)
  | NaN => NaN
  end.

(** [Math.pow(2, a)] *)
Definition Math_pow2 (a : number) : number :=
  match a with
  | Num x => Num (Rpower 2 x)
  | NaN => NaN
  end.

(** [Math.min(a, b)] *)
Definition Math_min (a b : number) : number :=
  match a, b with
  | Num x, Num y => Num (Rmin x y)
  | _, _ => NaN
  end.

End Number.

(* ------------------------------------------------------------------ *)
(** ** Configuration and market-share tables *)

Definition WORLD_POPULATION : R := 8.3e9.

Record marketTable : Type := mkTable {
  source : string;
  sourceLabel : string;
  data : object R;
  defaultPercent : option R   (* [None]: the literal has no such property *)
}.

Definition panopticlick_entropy_ts : string :=
  "https://github.com/panopticlick/Panopticlick/blob/main/packages/valuation-engine/src/entropy.ts".
Definition panopticlick_comparison_ts : string :=
  "https://github.com/panopticlick/Panopticlick/blob/main/packages/valuation-engine/src/comparison.ts".

Definition SCREEN_RESOLUTION_DATA : marketTable :=
  mkTable panopticlick_entropy_ts
    "Panopticlick POPULATION_STATS.screenResolutions"
    [ ("1920x1080", 23); ("1366x768", 19); ("1536x864", 8);
      ("1440x900", 5); ("1280x720", 4); ("2560x1440", 4);
      ("1600x900", 3); ("1280x800", 3); ("3840x2160", 2) ]
    (Some 1.0).

Definition BROWSER_DATA : marketTable :=
  mkTable panopticlick_comparison_ts
    "Panopticlick POPULATION_DATA.browsers"
    [ ("Chrome", 65); ("Safari", 18); ("Edge", 5); ("Firefox", 3);
      ("Opera", 2) ]
    (Some 1.0).

Definition GPU_DATA : marketTable :=
  mkTable "https://store.steampowered.com/hwsurvey/directx/"
    "Steam Hardware Survey (fallback)"
    [ ("NVIDIA GeForce RTX 3060", 8.32); ("NVIDIA GeForce RTX 4060", 7.92);
      ("NVIDIA GeForce RTX 3050", 5.92); ("NVIDIA GeForce GTX 1650", 5.60);
      ("NVIDIA GeForce RTX 4060 Ti", 5.26);
      ("NVIDIA GeForce RTX 3060 Ti", 4.78);
      ("NVIDIA GeForce RTX 3070", 4.48); ("AMD Radeon Graphics", 4.24);
      ("NVIDIA GeForce RTX 4070", 4.14); ("NVIDIA GeForce RTX 2060", 3.92);
      ("NVIDIA GeForce GTX 1060", 3.60); ("Intel Iris Xe", 3.52);
      ("Intel UHD Graphics", 2.0); ("AMD Radeon RX", 2.0);
      ("Apple M1", 1.5); ("Apple M2", 1.0); ("Apple M3", 0.8) ]
    (Some 0.5).

Definition GPU_DATA_note : string :=
  "Panopticlick lacks GPU data; Steam data is gamer-skewed".

Definition PIXEL_RATIO_DATA : marketTable :=
  mkTable panopticlick_entropy_ts
    "Panopticlick POPULATION_STATS.pixelRatios"
    [ ("1", 45); ("2", 30); ("1.25", 10); ("1.5", 8); ("3", 3); ("2.5", 2) ]
    (Some 2.0).

Definition DNT_DATA : marketTable :=
  mkTable panopticlick_comparison_ts
    "Panopticlick POPULATION_DATA.privacyTools"
    [ ("1", 20); ("0", 3); ("null", 77) ]
    (Some 77).

Definition CPU_CORES_DATA : marketTable :=
  mkTable panopticlick_entropy_ts
    "Panopticlick POPULATION_STATS.cpuCores"
    [ ("1", 1); ("2", 15); ("4", 35); ("6", 15); ("8", 20); ("12", 5);
      ("16", 5) ]
    (Some 4.0).

Definition DEVICE_MEMORY_DATA : marketTable :=
  mkTable panopticlick_entropy_ts
    "Panopticlick POPULATION_STATS.deviceMemory"
    [ ("2", 5); ("4", 25); ("8", 45); ("16", 15); ("32", 5) ]
    (Some 5.0).

Definition AD_BLOCKER_DATA : marketTable :=
  mkTable panopticlick_comparison_ts
    "Panopticlick POPULATION_DATA.privacyTools"
    [ ("true", 42); ("false", 58) ]
    None.

Definition TIMEZONE_DATA : marketTable :=
  mkTable panopticlick_entropy_ts
    "Panopticlick POPULATION_STATS.timezones"
    [ ("America/New_York", 12); ("America/Los_Angeles", 10);
      ("America/Chicago", 8); ("Asia/Shanghai", 6); ("Europe/London", 5);
      ("Asia/Tokyo", 4); ("Europe/Paris", 3); ("Europe/Berlin", 3) ]
    (Some 1.0).

Definition LANGUAGE_DATA : marketTable :=
  mkTable panopticlick_entropy_ts
    "Panopticlick POPULATION_STATS.languages"
    [ ("en-US", 35); ("zh-CN", 10); ("en-GB", 5); ("es", 5); ("de", 3);
      ("fr", 3); ("ja", 3) ]
    (Some 1.0).

Definition PLATFORM_DATA : marketTable :=
  mkTable panopticlick_entropy_ts
    "Panopticlick POPULATION_STATS.platforms"
    [ ("Win32", 70); ("MacIntel", 15); ("iPhone", 5); ("Android", 4);
      ("Linux x86_64", 3); ("iPad", 2) ]
    (Some 1.0).

(* ------------------------------------------------------------------ *)
(** ** Baseline entropy records *)

Record baselineRecord : Type := mkBaseline {
  bits : R;
  baselineSource : option string;      (* [None]: the source is [null] *)
  baselineLabel : string;
  note : string
}.

Definition panopticlick_2010 : string :=
  "https://coveryourtracks.eff.org/static/browser-uniqueness.pdf".
Definition amiunique_2016 : string :=
  "https://hal.inria.fr/hal-01285470/document".
Definition hitc_2018 : string :=
  "https://hal.inria.fr/hal-01718234v2/document".

Definition BASELINE_ENTROPY : object baselineRecord :=
  [ ("canvas",
     mkBaseline 8.04 (Some hitc_2018) "Hiding in the Crowd 2018 (Table 3)"
       "Conservative estimate; AmIUnique found 8.28 bits");
    ("audio",
     mkBaseline 10 (Some panopticlick_entropy_ts)
       "Panopticlick entropy.ts (code comment)"
       "Based on Panopticlick implementation; no academic baseline available");
    ("webglRenderer",
     mkBaseline 3.41 (Some amiunique_2016) "AmIUnique 2016 (Table 2)"
       "Conservative estimate; HitC 2018 found 5.28 bits");
    ("webglVendor",
     mkBaseline 1.82 (Some hitc_2018) "Hiding in the Crowd 2018 (Table 3)"
       "Conservative estimate; AmIUnique found 2.14 bits");
    ("fonts",
     mkBaseline 6.97 (Some hitc_2018) "Hiding in the Crowd 2018 (Table 3)"
       "Conservative estimate; Panopticlick found 13.9 bits");
    ("userAgent",
     mkBaseline 6.32 (Some hitc_2018) "Hiding in the Crowd 2018 (Table 3)"
       "Conservative estimate; Panopticlick found 10.0 bits");
    ("timezone",
     mkBaseline 3.04 (Some panopticlick_2010) "Panopticlick 2010"
       "HitC 2018 (0.10 bits) excluded due to French geographic bias");
    ("language",
     mkBaseline 2.56 (Some hitc_2018) "Hiding in the Crowd 2018 (Table 3)"
       "Conservative estimate; AmIUnique found 5.92 bits");
    ("touchSupport",
     mkBaseline 1 (Some panopticlick_entropy_ts)
       "Panopticlick entropy.ts (calculateTouchPointsEntropy)"
       "Desktop (0 touch) = 1 bit; touch devices = 2-3 bits");
    ("connectionType",
     mkBaseline 1.5 None "No public dataset"
       "Estimated; no academic baseline available");
    ("plugins",
     mkBaseline 0.21 (Some hitc_2018)
       "Hiding in the Crowd 2018 Mobile (Table 3)"
       "Plugins largely deprecated; desktop was 10.28 bits");
    ("doNotTrack",
     mkBaseline 0.94 (Some amiunique_2016) "AmIUnique 2016 (Table 2)"
       "Conservative estimate; HitC 2018 found 1.92 bits");
    ("cookiesEnabled",
     mkBaseline 0.00 (Some hitc_2018) "Hiding in the Crowd 2018 (Table 3)"
       "Nearly universal; provides no distinguishing information");
    ("localStorage",
     mkBaseline 0.04 (Some hitc_2018) "Hiding in the Crowd 2018 (Table 3)"
       "Nearly universal; provides minimal distinguishing information");
    ("screenResolution",
     mkBaseline 4.83 (Some panopticlick_2010) "Panopticlick 2010"
       "Used when resolution not in Panopticlick POPULATION_STATS lookup table");
    ("pixelRatio",
     mkBaseline 2.0 (Some panopticlick_entropy_ts)
       "Panopticlick POPULATION_STATS (estimated for unlisted)"
       "For pixel ratios not in the lookup table");
    ("platform",
     mkBaseline 0.56 (Some panopticlick_2010) "Panopticlick 2010"
       "Used when platform not in Panopticlick POPULATION_STATS lookup table");
    ("cpuCores",
     mkBaseline 3.0 (Some panopticlick_entropy_ts)
       "Panopticlick POPULATION_STATS (estimated for unlisted)"
       "For core counts not in the lookup table");
    ("deviceMemory",
     mkBaseline 3.0 (Some panopticlick_entropy_ts)
       "Panopticlick POPULATION_STATS (estimated for unlisted)"
       "For memory sizes not in the lookup table") ].

(** [BASELINE_ENTROPY.key] for a key the literal defines. *)
Definition baseline (key : string) : baselineRecord :=
  match get BASELINE_ENTROPY key with
  | Some r => r
  | None => mkBaseline 0 None "" ""
  end.

(** The study figures the source documents for each record, transcribed
    from the comment above it and from its [note]: the study, the bits
    it reported, and whether the comment marks the figure as excluded.
    A record whose comment says that no study covers the attribute has
    no figure; the comment of [pixelRatio] derives one figure, about
    5.64 bits, from the share that Panopticlick gives to the other
    ratios. *)
Record candidate : Type := mkCandidate {
  study : string;
  reported : R;
  excluded : bool
}.








(* ------------------------------------------------------------------ *)
(** ** Lookup utilities *)

(** What a read of [dataSource.data[key]] finds: the percent stored under
    an own key, or the member inherited from [Object.prototype] under
    that name. *)
Inductive property : Type :=
| Stored (p : R)
| Inherited (name : string).

Coercion Stored : R >-> property.

(** [o[k]] along the prototype chain; [None] is [undefined]. *)
Definition read (o : object R) (k : string) : option property :=
  match get o k with
  | Some p => Some (Stored p)
  | None => if inherited k then Some (Inherited k) else None
  end.

(** The conversion to a number that the arithmetic operators apply: a
    function or an object converts to NaN. *)
Definition ToNumber (v : property) : number :=
  match v with
  | Stored p => Num p
  | Inherited _ => NaN
  end.

Record shareResult : Type := mkShare {
  percent : property;
  shareSource : string;
  estimated : bool
}.

(** [x || 1.0] for an optional number: [undefined] and [0] are falsy. *)
Definition orOne (x : option R) : R :=
  match x with
  | Some d => if Req_dec_T d 0 then 1.0 else d
  | None => 1.0
  end.

(** The test of the partial-match tier. *)
Definition partialMatch (normalizedValue key : string) : bool :=
  includes normalizedValue key || includes key normalizedValue.

(** [dataSource.data[key]] for a key produced by [Object.keys]. *)
Definition valueAt (o : object R) (key : string) : R :=
  match get o key with Some p => p | None => 0 end.

(** [lookupMarketShare(dataSource, value)], for a [value] that is a
    string. The exact tier tests [dataSource.data[normalizedValue] !==
    undefined], which an inherited member passes. No table object has a
    property [estimated], so [dataSource.estimated || false] is
    [false]. *)
Definition lookupMarketShare (dataSource : marketTable) (value : string)
  : shareResult :=
  let normalizedValue := trim value in
  match read (data dataSource) normalizedValue with
  | Some p => mkShare p (source dataSource) false
  | None =>
      match find (partialMatch normalizedValue) (Object_keys (data dataSource)) with
      | Some key =>
          mkShare (valueAt (data dataSource) key) (source dataSource) false
      | None =>
          mkShare (orOne (defaultPercent dataSource)) (source dataSource) true
      end
  end.

(** [percentToEntropy], [percentToOneInX], [entropyToUniqueness]. The
    argument [percent] is what the lookup found; the comparison and the
    division convert it to a number. *)

Definition percentToEntropy (percent : property) : number :=
  if Number.le (ToNumber percent) 0 then 10
  else Number.Math_log2 (Number.div 100 (ToNumber percent)).

Definition percentToOneInX (percent : property) : number :=
  if Number.le (ToNumber percent) 0 then 1000
  else Number.div 100 (ToNumber percent).

Definition entropyToUniqueness (bits : number) : number :=
  Number.Math_pow2 bits.

(* ------------------------------------------------------------------ *)
(** ** The three tiers, as a specification

    [tiers keysOrder dflt t v r] reads: [r] is what a three-tier lookup of
    [v] in [t] returns when the partial tier scans the keys in the order
    [keysOrder] and the default tier returns a percent accepted by [dflt]. *)

Definition tiers (keysOrder : object R -> list string)
    (dflt : marketTable -> property -> Prop)
    (t : marketTable) (v : string) (r : shareResult) : Prop :=
  let n := trim v in
  (forall p, get (data t) n = Some p ->
     percent r = p /\ estimated r = false)
  /\ (get (data t) n = None ->
      forall pre key post,
        keysOrder (data t) = (pre ++ key :: post)%list ->
        (forall k, In k pre -> partialMatch n k = false) ->
        partialMatch n key = true ->
        percent r = valueAt (data t) key /\ estimated r = false)
  /\ (get (data t) n = None ->
      (forall k, In k (keysOrder (data t)) -> partialMatch n k = false) ->
      dflt t (percent r) /\ estimated r = true).

(** The order and the default as the specification words them: keys in
    insertion order, and the table's own [defaultPercent]. *)
Definition insertionOrder (o : object R) : list string := definedKeys [] o.

Definition tableDefault (t : marketTable) (p : property) : Prop :=
  exists d, defaultPercent t = Some d /\ p = Stored d.

(** The order and the default of the code: [Object.keys], and
    [defaultPercent || 1.0]. *)
Definition defaultOrOne (t : marketTable) (p : property) : Prop :=
  p = Stored (orOne (defaultPercent t)).

(** The empty-value case, as a specification: the percent of the first key
    in the order [keysOrder], never an estimate. *)
Definition emptyValueHitsFirstKey (keysOrder : object R -> list string)
    (t : marketTable) (v : string) : Prop :=
  forall first rest,
    keysOrder (data t) = first :: rest ->
    trim v = "" ->
    percent (lookupMarketShare t v) = valueAt (data t) first
    /\ estimated (lookupMarketShare t v) = false.

(* ------------------------------------------------------------------ *)
(** ** Numbers as binary64 floats: rounding and printing *)

Module JSNumber.

Local Open Scope float_scope.

(** [Math.round(x)]: the integer nearest to [x], ties towards +infinity,
    computed exactly on the mantissa and exponent of [x]. *)
Definition Math_round (x : float) : float :=
  match Prim2SF x with
  | S754_finite s m e =>
      if (0 <=? e)%Z then x
      else
        let d := (2 ^ (- e))%Z in
        let h := (2 ^ (- e - 1))%Z in
        let v := if s then (- Z.pos m)%Z else Z.pos m in
        let z := ((v + h) / d)%Z in
        if (z =? 0)%Z then (if s then neg_zero else zero)
        else if (z <? 0)%Z then - of_uint63 (Uint63.of_Z (- z))
        else of_uint63 (Uint63.of_Z z)
  | _ => x
  end.

(** [String(x)] for a number that is a multiple of 1/100 given exactly,
    as the known pixel ratios, the device-memory steps and
    integers are: the integer part, then the
    fractional digits without trailing zeros. *)
Definition String_number (x : float) : string :=
  match Prim2SF (x * 100) with
  | S754_finite false m e =>
      let n := Z.to_N (if (0 <=? e)%Z then Z.pos m * 2 ^ e
                       else Z.pos m / 2 ^ (- e))%Z in
      let int := NilEmpty.string_of_uint (N.to_uint (n / 100)) in
      let tens := N.to_uint ((n mod 100) / 10) in
      let units := N.to_uint (n mod 10) in
      if (n mod 100 =? 0)%N then int
      else if (n mod 10 =? 0)%N
           then (int ++ "." ++ NilEmpty.string_of_uint tens)%string
           else (int ++ "." ++ NilEmpty.string_of_uint tens
                     ++ NilEmpty.string_of_uint units)%string
  | _ => "0"%string
  end.

(** [x || d] for an optional number: [undefined], zeros and NaN are
    falsy. *)
Definition orElse (x : option float) (d : float) : float :=
  match x with
  | Some v => if (v =? 0) || negb (v =? v) then d else v
  | None => d
  end.

(** [!x] for an optional number. *)
Definition falsy (x : option float) : bool :=
  match x with
  | Some v => (v =? 0) || negb (v =? v)
  | None => true
  end.

(** *** [Number::toString], radix 10

    The digits of a finite number are the shortest decimal digits that
    denote it: the least [k] and the integers [s] of [k] digits and [n]
    such that [s * 10^(n-k)] rounds to the number. Where several [s] of
    that length do, the language leaves the choice open and recommends
    the one closest to the number, the even one of two as close; the
    engines follow the recommendation and so does the embedding. The
    arithmetic is exact, on rationals. *)

Definition pow2 (e : Z) : Q := Qpower (inject_Z 2) e.
Definition pow10 (p : Z) : Q := Qpower (inject_Z 10) p.

(** The value of the finite number of mantissa [m] and exponent [e]. *)
Definition valueOf (m : positive) (e : Z) : Q :=
  (inject_Z (Z.pos m) * pow2 e)%Q.

(** The rationals that round to [m * 2^e]: the interval bounded by the
    midpoints to its two neighbours, closed when [m] is even (round to
    nearest, ties to even). Below a power of two the neighbour is half
    as far. *)
Record interval : Type := mkInterval {
  lower : Q;
  upper : Q;
  closed : bool
}.

Definition roundsFrom (m : positive) (e : Z) : interval :=
  let v := valueOf m e in
  let below :=
    if ((Z.pos m =? 2 ^ 52) && (-1074 <? e))%Z then pow2 (e - 2)
    else pow2 (e - 1) in
  mkInterval (v - below)%Q (v + pow2 (e - 1))%Q (Z.even (Z.pos m)).

Definition Qleb (a b : Q) : bool :=
  match Qcompare a b with Gt => false | _ => true end.

Definition Qltb (a b : Q) : bool :=
  match Qcompare a b with Lt => true | _ => false end.

Definition within (i : interval) (q : Q) : bool :=
  if closed i then Qleb (lower i) q && Qleb q (upper i)
  else Qltb (lower i) q && Qltb q (upper i).

(** The least [n] from a start on with [v < 10^n]. *)
Fixpoint decade (fuel : nat) (n : Z) (v : Q) : Z :=
  match fuel with
  | O => n
  | S fuel' => if Qltb v (pow10 n) then n else decade fuel' (n + 1) v
  end.

(** The decimal exponent [n] of [m * 2^e]: [10^(n-1) <= v < 10^n]. The
    search starts below it, at an estimate from the binary exponent. *)
Definition decimalExponent (m : positive) (e : Z) : Z :=
  let start := ((e + Z.log2 (Z.pos m)) * 30103 / 100000 - 1)%Z in
  decade 8 start (valueOf m e).

(** The digits [s] of length [k], if any, with [s * 10^(n-k)] in the
    interval, and their decimal exponent: of the two integers around
    [v / 10^(n-k)], the one closest to it, the even one when they are
    as close. Rounding up to [10^k] gives the digit 1 followed by zeros
    in the next decade. *)
Definition digitsOfLength (v : Q) (i : interval) (n k : Z)
  : option (Z * Z) :=
  let scale := pow10 (n - k) in
  let lo := Qfloor (v / scale)%Q in
  let hi := (lo + 1)%Z in
  let okLo := within i (inject_Z lo * scale)%Q in
  let okHi := within i (inject_Z hi * scale)%Q in
  let roundUp := if (hi =? 10 ^ k)%Z then ((10 ^ (k - 1))%Z, (n + 1)%Z)
                 else (hi, n) in
  match okLo, okHi with
  | false, false => None
  | true, false => Some (lo, n)
  | false, true => Some roundUp
  | true, true =>
      match Qcompare (v - inject_Z lo * scale)%Q
                     (inject_Z hi * scale - v)%Q with
      | Lt => Some (lo, n)
      | Gt => Some roundUp
      | Eq => if Z.even lo then Some (lo, n) else Some roundUp
      end
  end.

(** The shortest digits: seventeen digits always suffice. *)
Fixpoint shortest (fuel : nat) (v : Q) (i : interval) (n k : Z) : Z * Z :=
  match fuel with
  | O => (1%Z, n)
  | S fuel' =>
      match digitsOfLength v i n k with
      | Some r => r
      | None => shortest fuel' v i n (k + 1)
      end
  end.

Definition decimal (z : Z) : string :=
  NilEmpty.string_of_uint (N.to_uint (Z.to_N z)).

Fixpoint zeros (n : nat) : string :=
  match n with
  | O => ""
  | S n' => String "0" (zeros n')
  end.

(** The text of a positive finite number from its digits [s] and its
    decimal exponent [n]: plain digits up to 21 places, a decimal
    point inside or after at most six leading zeros, the exponent form
    otherwise. *)
Definition layout (s n : Z) : string :=
  let digits := decimal s in
  let k := Z.of_nat (String.length digits) in
  if ((k <=? n) && (n <=? 21))%Z then
    digits ++ zeros (Z.to_nat (n - k))
  else if ((0 <? n) && (n <=? 21))%Z then
    substring 0 (Z.to_nat n) digits ++ "."
      ++ substring (Z.to_nat n) (Z.to_nat (k - n)) digits
  else if ((-6 <? n) && (n <=? 0))%Z then
    "0." ++ zeros (Z.to_nat (- n)) ++ digits
  else
    let e := (n - 1)%Z in
    let exponent := (if (e <? 0)%Z then "-" else "+") ++ decimal (Z.abs e) in
    if (k =? 1)%Z then digits ++ "e" ++ exponent
    else substring 0 1 digits ++ "."
           ++ substring 1 (Z.to_nat (k - 1)) digits ++ "e" ++ exponent.

Definition positive_toString (m : positive) (e : Z) : string :=
  let v := valueOf m e in
  let (s, n) := shortest 17 v (roundsFrom m e) (decimalExponent m e) 1 in
  layout s n.

Definition Number_toString (x : float) : string :=
  match Prim2SF x with
  | S754_nan => "NaN"
  | S754_zero _ => "0"
  | S754_infinity false => "Infinity"
  | S754_infinity true => "-Infinity"
  | S754_finite false m e => positive_toString m e
  | S754_finite true m e => "-" ++ positive_toString m e
  end.

End JSNumber.

(* ------------------------------------------------------------------ *)
(** ** The entropy conversions, over binary64 floats

    The three conversions as the engine computes them. [Math.log2] and
    [Math.pow] are functions of the host: the language leaves their
    results to the implementation, so they are variables here. *)

Module Binary64.

Local Open Scope float_scope.

Section Host.
Variable Math_log2 : float -> float.
Variable Math_pow : float -> float -> float.

Definition percentToEntropy (percent : float) : float :=
  if percent <=? 0 then 10 else Math_log2 (100 / percent).

Definition percentToOneInX (percent : float) : float :=
  if percent <=? 0 then 1000 else 100 / percent.

Definition entropyToUniqueness (bits : float) : float := Math_pow 2 bits.
End Host.




End Binary64.

(* ------------------------------------------------------------------ *)
(** ** Pixel-ratio analysis, over binary64 floats *)

Module PixelRatio.

Import JSNumber.
Local Open Scope float_scope.

Inductive confidenceTier : Set := high | medium | low.

Record analysis : Set := mkAnalysis {
  displayRatio : float;
  trueDPR : float;
  zoomPercent : float;
  isZoomed : bool;
  confidence : confidenceTier;
  matchedBucket : string
}.

(** An element of [allMatches]: the result to return and its [diff]. *)
Record candidate : Set := mkCandidate {
  found : analysis;
  diff : float
}.

Definition knownDPRs : list float := [1; 1.25; 1.5; 2; 2.5; 3].

(** [{ zoom, percent }] *)
Definition commonZoomLevels : list (float * float) :=
  [ (1.0, 100); (1.1, 110); (1.2, 120); (1.25, 125); (1.33, 133);
    (1.5, 150); (1.75, 175); (2.0, 200); (0.9, 90); (0.8, 80);
    (0.75, 75); (0.67, 67); (0.5, 50); (0.33, 33); (0.3, 30) ].

Definition tolerance : float := 0.015.

(** The comparator of [allMatches.sort]. *)
Definition compareMatches (a b : candidate) : float :=
  if negb (trueDPR (found a) =? trueDPR (found b))
  then trueDPR (found a) - trueDPR (found b)
  else diff a - diff b.

(** [Array.prototype.sort] is stable: an element moves in front of
    another only when the comparator is positive the other way round. *)
Fixpoint insertMatch (a : candidate) (l : list candidate) : list candidate :=
  match l with
  | [] => [a]
  | b :: l' =>
      if 0 <? compareMatches a b then b :: insertMatch a l' else a :: l
  end.

Definition sortMatches (l : list candidate) : list candidate :=
  fold_right insertMatch [] l.

(** The doubly nested loop that fills [allMatches]. *)
Definition collectMatches (displayRatio : float) : list candidate :=
  flat_map (fun baseDPR =>
    flat_map (fun zp : float * float =>
      let (zoom, percent) := zp in
      if percent =? 100 then []
      else
        let expectedRatio := baseDPR * zoom in
        let diff := abs (displayRatio - expectedRatio) in
        if diff <? tolerance
        then [mkCandidate
                (mkAnalysis displayRatio baseDPR percent true medium
                   (String_number baseDPR))
                diff]
        else [])
      commonZoomLevels)
    knownDPRs.

Definition analyzePixelRatio (ratio : float) : analysis :=
  let displayRatio := Math_round (ratio * 1000) / 1000 in
  match find (fun baseDPR => abs (displayRatio - baseDPR) <? tolerance)
             knownDPRs with
  | Some baseDPR =>
      mkAnalysis displayRatio baseDPR 100 false high (String_number baseDPR)
  | None =>
      match sortMatches (collectMatches displayRatio) with
      | best :: _ => found best
      | [] =>
          let inferredZoom := Math_round (displayRatio * 100) in
          mkAnalysis displayRatio 1 inferredZoom true low "1"
      end
  end.

End PixelRatio.

(* ------------------------------------------------------------------ *)
(** ** Fingerprint serialisation *)

Module Fingerprint.

(** The raw values the tests hand over: [undefined], [null], booleans,
    numbers (binary64 floats), strings, arrays, and objects given by
    their own enumerable properties in enumeration order. *)
Inductive value : Set :=
| VUndefined
| VNull
| VBool (b : bool)
| VNumber (x : float)
| VString (s : string)
| VArray (elements : list value)
| VObject (properties : list (string * value)).

(** The code unit 34, the double quote. *)
Definition dquote : ascii := ascii_of_nat 34.

Definition hexDigit (n : nat) : ascii :=
  ascii_of_nat (if (n <? 10)%nat then 48 + n else 87 + n).

(** One code unit of a string inside QuoteJSONString. *)
Definition quoteChar (c : ascii) : string :=
  let n := nat_of_ascii c in
  if (n =? 8)%nat then "\b"
  else if (n =? 9)%nat then "\t"
  else if (n =? 10)%nat then "\n"
  else if (n =? 12)%nat then "\f"
  else if (n =? 13)%nat then "\r"
  else if (n =? 34)%nat then String "\" (String dquote "")
  else if (n =? 92)%nat then "\\"
  else if (n <? 32)%nat
       then "\u00" ++ String (hexDigit (n / 16)) (String (hexDigit (n mod 16)) "")
       else String c "".

Fixpoint quoteChars (s : string) : string :=
  match s with
  | EmptyString => EmptyString
  | String c s' => quoteChar c ++ quoteChars s'
  end.

Definition QuoteJSONString (s : string) : string :=
  String dquote (quoteChars s ++ String dquote "").

(** [Array.prototype.join] on strings. *)
Fixpoint join (sep : string) (l : list string) : string :=
  match l with
  | [] => ""
  | [x] => x
  | x :: l' => x ++ sep ++ join sep l'
  end.

(** A number in [JSON.stringify]: its text when it is finite, null
    otherwise. *)
Definition numberToJSON (x : float) : string :=
  match Prim2SF x with
  | S754_nan | S754_infinity _ => "null"
  | _ => JSNumber.Number_toString x
  end.

(** [JSON.stringify(v)]; [None] is the result [undefined]. *)
Fixpoint JSON_stringify (v : value) : option string :=
  match v with
  | VUndefined => None
  | VNull => Some "null"
  | VBool b => Some (if b then "true" else "false")
  | VNumber x => Some (numberToJSON x)
  | VString s => Some (QuoteJSONString s)
  | VArray elements =>
      Some ("[" ++ join ","
              (map (fun e => match JSON_stringify e with
                             | Some s => s
                             | None => "null"
                             end) elements)
            ++ "]")
  | VObject properties =>
      Some ("{" ++ join ","
              (flat_map (fun kv : string * value =>
                           let (k, e) := kv in
                           match JSON_stringify e with
                           | Some s => [QuoteJSONString k ++ ":" ++ s]
                           | None => []
                           end) properties)
            ++ "}")
  end.

(** What [join] makes of an element of the mapped array: [undefined]
    becomes the empty string. *)
Definition joinElement (x : option string) : string :=
  match x with Some s => s | None => "" end.

(** The string handed to [md5]:
    [values.map(v => JSON.stringify(v)).join('|')]. *)
Definition fingerprintInput (values : list value) : string :=
  join "|" (map joinElement (map JSON_stringify values)).

Section Hash.
(** The hash function of the source, an implementation of MD5. *)
Variable md5 : string -> string.

Definition generateFingerprintHash (values : list value) : string :=
  let str := fingerprintInput values in
  md5 str.
End Hash.

(** The separator occurs in a string. *)
Definition hasSeparator (s : string) : bool :=
  existsb (Ascii.eqb "|") (list_ascii_of_string s).

(** A value that [JSON.stringify] serialises to a string. *)
Definition defined (v : value) : bool :=
  match JSON_stringify v with
  | Some _ => true
  | None => false
  end.

(** The text of a value where one is required: an array element that is
    [undefined] is written null. *)
Definition elementText (v : value) : string :=
  match JSON_stringify v with Some s => s | None => "null" end.

(** *** Reading a joined string back

    The joined string is cut at every separator that is outside a string
    literal. [scan inString escaped acc s] reads [s]; [acc] holds, in
    reverse, the code units of the piece being read. *)

Definition backslash : ascii := ascii_of_nat 92.
Definition separator : ascii := ascii_of_nat 124.

Definition pieceOf (acc : list ascii) : string :=
  string_of_list_ascii (rev acc).

Fixpoint scan (inString escaped : bool) (acc : list ascii) (s : string)
  : list string :=
  match s with
  | EmptyString => [pieceOf acc]
  | String c s' =>
      if inString then
        if escaped then scan true false (c :: acc) s'
        else if Ascii.eqb c backslash then scan true true (c :: acc) s'
        else if Ascii.eqb c dquote then scan false false (c :: acc) s'
        else scan true false (c :: acc) s'
      else if Ascii.eqb c dquote then scan true false (c :: acc) s'
      else if Ascii.eqb c separator then pieceOf acc :: scan false false [] s'
      else scan false false (c :: acc) s'
  end.

Definition splitTopLevel (s : string) : list string := scan false false [] s.

(** The code units of [t] pushed on an accumulator. *)
Fixpoint push (t : string) (acc : list ascii) : list ascii :=
  match t with
  | EmptyString => acc
  | String c t' => push t' (c :: acc)
  end.

(** A text is read as part of one piece: reading it outside a string
    literal ends outside a string literal, without a cut. *)
Definition onePiece (t : string) : Prop :=
  forall acc rest,
    scan false false acc (t ++ rest) = scan false false (push t acc) rest.

(** A text without quote and without separator. *)
Definition plainText (t : string) : bool :=
  forallb (fun c => negb (Ascii.eqb c dquote) && negb (Ascii.eqb c separator))
    (list_ascii_of_string t).

End Fingerprint.

(* ------------------------------------------------------------------ *)
(** ** Number formatting *)

(** The text [formatNumber] builds, by its shape; the argument is the
    number handed to [toFixed(1)] or to [Math.round]. *)
Inductive numberText : Type :=
| Trillion (x : number)      (* (num / 1e12).toFixed(1) + ' trillion' *)
| Billion (x : number)       (* (num / 1e9).toFixed(1) + ' billion' *)
| Million (x : number)       (* (num / 1e6).toFixed(1) + ' million' *)
| Grouped (x : number)       (* Math.round(num).toLocaleString() *)
| Plain (x : number).        (* Math.round(num).toString() *)

Record formatted : Type := mkFormatted {
  text : numberText;
  isUnique : bool;
  raw : number
}.

(** On NaN every comparison is false: the text is that of
    [Math.round(NaN).toString()] and the number is not flagged unique. *)
Definition formatNumber (num : number) : formatted :=
  let text :=
    if Number.ge num 1e12 then Trillion (Number.div num 1e12)
    else if Number.ge num 1e9 then Billion (Number.div num 1e9)
    else if Number.ge num 1e6 then Million (Number.div num 1e6)
    else if Number.ge num 1e3 then Grouped num
    else Plain num in
  if Number.ge num WORLD_POPULATION
  then mkFormatted text true num
  else mkFormatted text false num.

(** The quantity a text stands for, before it is rounded to the digits
    printed. *)
Definition denoted (t : numberText) : number :=
  match t with
  | Trillion x => Number.mul x 1e12
  | Billion x => Number.mul x 1e9
  | Million x => Number.mul x 1e6
  | Grouped x => x
  | Plain x => x
  end.

(* ------------------------------------------------------------------ *)
(** ** Test results *)

(** The [lookup] object of a test result. *)
Module Lookup.
Record t : Type := make {
  percent : option property;   (* [None]: [null] *)
  source : option string;      (* [None]: [null] *)
  sourceLabel : string;
  estimated : bool;
  entropy : option number;     (* [None]: [undefined] *)
  oneInX : option number;      (* [None]: [undefined] *)
  note : option string
}.
End Lookup.

(** What a test's [run] resolves to: an object that carries a [message]
    string, like the result of each of the sixteen tests. The message is
    presentation only and is left out; [addResultLine] types it with
    [typewriterReveal] before it computes anything. *)
Module Result.
Record t (V : Type) : Type := make {
  value : V;
  lookup : option Lookup.t;    (* [None]: no [lookup] property *)
  entropy : option number      (* [None]: no [entropy] property *)
}.
Arguments make {V} _ _ _.
Arguments value {V} _.
Arguments lookup {V} _.
Arguments entropy {V} _.
End Result.

(** The outcome of [await test.run()]: an exception, or a returned value
    where [None] stands for [null] and [undefined]. *)
Inductive outcome (V : Type) : Type :=
| Threw
| Returned (result : option (Result.t V)).
Arguments Threw {V}.
Arguments Returned {V} _.

Inductive difficultyTier : Set := easy | medium | hard.

Record test (V : Type) : Type := mkTest {
  name : string;
  difficulty : difficultyTier;
  changeRequires : string;
  run : outcome V
}.
Arguments mkTest {V} _ _ _ _.
Arguments name {V} _.
Arguments difficulty {V} _.
Arguments changeRequires {V} _.
Arguments run {V} _.

(* ------------------------------------------------------------------ *)
(** ** The fingerprinting tests

    Each test is embedded from the point where its readings of the
    browser are available; the readings are the fields of [browser]. *)

Module Tests.

Import JSNumber.

(** Raw values as the tests hand them over. *)
Inductive datum : Type :=
| DUndefined
| DNull
| DBool (b : bool)
| DNumber (x : float)
| DCount (n : N)
| DString (s : string)
| DStrings (l : list string)
| DObject (properties : list (string * datum)).

Record webglReading : Type := mkWebgl {
  (** [gl.getParameter(gl.RENDERER)] *)
  basicRenderer : datum;
  (** [None]: [gl.getExtension('WEBGL_debug_renderer_info')] is null.
      Otherwise the unmasked vendor and renderer; a renderer that is not
      a string is [None]. *)
  debugInfo : option (datum * option string)
}.

Record browser : Type := mkBrowser {
  devicePixelRatio : option float;
  screenWidth : float;
  screenHeight : float;
  timeZone : string;
  language : string;
  platform : string;
  userAgent : string;
  doNotTrack : datum;
  hardwareConcurrency : option N;
  deviceMemory : option float;
  maxTouchPoints : option N;
  effectiveType : option string;
  (** [None]: no 2d context, or an exception inside the test. *)
  canvasDataUrl : option string;
  (** [None]: no WebGL context. *)
  webglContext : option webglReading;
  (** The sum of the rendered samples; [None]: no offline audio context,
      or an exception inside the test. *)
  audioSum : option float;
  detectedFonts : list string;
  adBlocked : bool
}.

(** The [lookup] object built from a baseline record. *)
Definition baselineLookup (b : baselineRecord) : Lookup.t :=
  Lookup.make None (baselineSource b) (baselineLabel b) true
    (Some (Num (bits b))) (Some (Num (Rpower 2 (bits b)))) (Some (note b)).

(** The [lookup] object built from a market-share hit. *)
Definition shareLookup (table : marketTable) (hit : shareResult)
    (note : option string) : Lookup.t :=
  Lookup.make (Some (percent hit)) (Some (shareSource hit))
    (sourceLabel table) false
    (Some (percentToEntropy (percent hit)))
    (Some (percentToOneInX (percent hit))) note.

(** The shape shared by the tests that look a value up and fall back to
    their baseline record when the lookup is estimated. *)
Definition lookupOrBaseline (table : marketTable) (key : string)
    (fallback : baselineRecord) : Lookup.t :=
  let lookup := lookupMarketShare table key in
  if estimated lookup then baselineLookup fallback
  else shareLookup table lookup None.

Definition succeed (value : datum) (lookup : Lookup.t) : outcome datum :=
  Returned (Some (Result.make value (Some lookup) None)).

Definition run_screenResolution (b : browser) : outcome datum :=
  let dpr := orElse (devicePixelRatio b) 1%float in
  let width := Math_round (screenWidth b * dpr)%float in
  let height := Math_round (screenHeight b * dpr)%float in
  let resolution := String_number width ++ "x" ++ String_number height in
  succeed (DString resolution)
    (lookupOrBaseline SCREEN_RESOLUTION_DATA resolution
       (baseline "screenResolution")).

Definition run_pixelRatio (b : browser) : outcome datum :=
  let rawRatio := orElse (devicePixelRatio b) 1%float in
  let analysis := PixelRatio.analyzePixelRatio rawRatio in
  let bucket := PixelRatio.matchedBucket analysis in
  let value := DNumber (PixelRatio.displayRatio analysis) in
  if String.eqb bucket "" then succeed value (baselineLookup (baseline "pixelRatio"))
  else
    let lookup := lookupMarketShare PIXEL_RATIO_DATA bucket in
    if negb (estimated lookup)
    then succeed value (shareLookup PIXEL_RATIO_DATA lookup None)
    else succeed value (baselineLookup (baseline "pixelRatio")).

Definition run_timezone (b : browser) : outcome datum :=
  succeed (DString (timeZone b))
    (lookupOrBaseline TIMEZONE_DATA (timeZone b) (baseline "timezone")).

Definition run_language (b : browser) : outcome datum :=
  succeed (DString (language b))
    (lookupOrBaseline LANGUAGE_DATA (language b) (baseline "language")).

Definition run_platform (b : browser) : outcome datum :=
  succeed (DString (platform b))
    (lookupOrBaseline PLATFORM_DATA (platform b) (baseline "platform")).

(** [parseUserAgent(ua).browser.split(' ')[0]]: the browser family. *)
Definition browserName (ua : string) : string :=
  if includes ua "Firefox/" then "Firefox"
  else if includes ua "Edg/" then "Edge"
  else if includes ua "Chrome/" then "Chrome"
  else if includes ua "Safari/" && negb (includes ua "Chrome") then "Safari"
  else "Unknown".

Definition run_userAgent (b : browser) : outcome datum :=
  succeed (DString (userAgent b))
    (lookupOrBaseline BROWSER_DATA (browserName (userAgent b))
       (baseline "userAgent")).

Definition dntKey (dnt : datum) : string :=
  match dnt with
  | DString "1" => "1"
  | DString "0" => "0"
  | _ => "null"
  end.

Definition run_doNotTrack (b : browser) : outcome datum :=
  let lookup := lookupMarketShare DNT_DATA (dntKey (doNotTrack b)) in
  succeed (doNotTrack b)
    (Lookup.make (Some (percent lookup)) (Some (shareSource lookup))
       (sourceLabel DNT_DATA) (estimated lookup)
       (Some (percentToEntropy (percent lookup)))
       (Some (percentToOneInX (percent lookup))) None).

Definition String_count (n : N) : string :=
  NilEmpty.string_of_uint (N.to_uint n).

Definition run_cpuCores (b : browser) : outcome datum :=
  match hardwareConcurrency b with
  | None | Some 0%N => Returned None
  | Some cores =>
      succeed (DCount cores)
        (lookupOrBaseline CPU_CORES_DATA (String_count cores)
           (baseline "cpuCores"))
  end.

Definition run_deviceMemory (b : browser) : outcome datum :=
  if falsy (deviceMemory b) then Returned None
  else
    let mem := orElse (deviceMemory b) 0%float in
    succeed (DNumber mem)
      (lookupOrBaseline DEVICE_MEMORY_DATA (String_number mem)
         (baseline "deviceMemory")).

Definition run_touchSupport (b : browser) : outcome datum :=
  let points := match maxTouchPoints b with Some n => n | None => 0%N end in
  succeed (DCount points) (baselineLookup (baseline "touchSupport")).

Definition run_connectionType (b : browser) : outcome datum :=
  match effectiveType b with
  | None | Some "" => Returned None
  | Some type =>
      succeed (DString type) (baselineLookup (baseline "connectionType"))
  end.

Definition run_canvas (b : browser) : outcome datum :=
  match canvasDataUrl b with
  | None => Returned None
  | Some dataUrl =>
      succeed (DString dataUrl) (baselineLookup (baseline "canvas"))
  end.

Definition run_webgl (b : browser) : outcome datum :=
  match webglContext b with
  | None => Returned None
  | Some gl =>
      let rendererBaseline := baseline "webglRenderer" in
      let vendorBaseline := baseline "webglVendor" in
      match debugInfo gl with
      | None =>
          succeed (basicRenderer gl)
            (Lookup.make None (baselineSource rendererBaseline)
               (baselineLabel rendererBaseline) true
               (Some (Num (bits rendererBaseline * 0.5)))
               (Some (Num (Rpower 2 (bits rendererBaseline * 0.5))))
               (Some "Reduced entropy - WebGL debug info not available"))
      | Some (vendor, None) => Returned None    (* TypeError, caught *)
      | Some (vendor, Some renderer) =>
          let value :=
            DObject [("vendor", vendor); ("renderer", DString renderer)] in
          let lookup := lookupMarketShare GPU_DATA renderer in
          if negb (estimated lookup)
          then succeed value (shareLookup GPU_DATA lookup (Some GPU_DATA_note))
          else
            let combinedEntropy :=
              bits rendererBaseline + bits vendorBaseline in
            succeed value
              (Lookup.make None (baselineSource rendererBaseline)
                 (baselineLabel rendererBaseline) true
                 (Some (Num combinedEntropy))
                 (Some (Num (Rpower 2 combinedEntropy)))
                 (Some (note rendererBaseline)))
      end
  end.

Definition run_audio (b : browser) : outcome datum :=
  match audioSum b with
  | None => Returned None
  | Some sum =>
      let signature := (Math_round (sum * 10000) / 10000)%float in
      succeed (DNumber signature) (baselineLookup (baseline "audio"))
  end.

Definition run_fonts (b : browser) : outcome datum :=
  match detectedFonts b with
  | [] => Returned None
  | detected => succeed (DStrings detected) (baselineLookup (baseline "fonts"))
  end.

Definition run_adBlocker (b : browser) : outcome datum :=
  let blocked := adBlocked b in
  let lookupKey := if blocked then "true" else "false" in
  let lookup := lookupMarketShare AD_BLOCKER_DATA lookupKey in
  succeed (DBool blocked)
    (Lookup.make (Some (percent lookup)) (Some (source AD_BLOCKER_DATA))
       (sourceLabel AD_BLOCKER_DATA) false
       (Some (percentToEntropy (percent lookup)))
       (Some (percentToOneInX (percent lookup))) None).

(** The [tests] object, for a browser [b]. *)
Definition tests (b : browser) : object (test datum) :=
  [ ("screenResolution",
     mkTest "Screen Resolution" hard "Different monitor"
       (run_screenResolution b));
    ("pixelRatio",
     mkTest "Pixel Ratio" hard "Different display" (run_pixelRatio b));
    ("timezone", mkTest "Timezone" easy "OS settings" (run_timezone b));
    ("language", mkTest "Language" easy "Browser settings" (run_language b));
    ("platform",
     mkTest "Platform" medium "Browser extension" (run_platform b));
    ("userAgent",
     mkTest "Browser/OS" medium "Browser extension" (run_userAgent b));
    ("doNotTrack",
     mkTest "Do Not Track" easy "Browser settings" (run_doNotTrack b));
    ("cpuCores", mkTest "CPU Cores" hard "Different device" (run_cpuCores b));
    ("deviceMemory",
     mkTest "Device Memory" hard "Different device" (run_deviceMemory b));
    ("touchSupport",
     mkTest "Touch Support" hard "Different device" (run_touchSupport b));
    ("connectionType",
     mkTest "Connection Type" medium "Different network"
       (run_connectionType b));
    ("canvas",
     mkTest "Canvas Fingerprint" hard
       "Different browser/GPU, or disable via extension" (run_canvas b));
    ("webgl",
     mkTest "WebGL" hard "Different GPU, or disable in browser settings"
       (run_webgl b));
    ("audio",
     mkTest "Audio Fingerprint" hard
       "Different browser/audio hardware, or disable via extension"
       (run_audio b));
    ("fonts",
     mkTest "Installed Fonts" medium "Install/remove fonts" (run_fonts b));
    ("adBlocker",
     mkTest "Ad Blocker" easy "Install/remove extension" (run_adBlocker b)) ].

End Tests.

(* ------------------------------------------------------------------ *)
(** ** The experiment runner *)

(** An entry of [completedTests]. *)
Module Completed.
Record t : Type := make {
  name : string;
  difficulty : difficultyTier;
  changeRequires : string;
  entropy : number
}.
End Completed.

(** How a result line cites its source. *)
Inductive citation : Type :=
| Linked (sourceUrl : string)            (* verified source *)
| EstimatedLinked (sourceUrl : string)   (* source, value estimated *)
| Estimated.                             (* no source *)

(** The cumulative sentence of a result line. *)
Inductive cumulativeText : Type :=
| NowStatisticallyUnique (t : numberText)   (* first crossing *)
| StillUnique (t : numberText)              (* unique since an earlier test *)
| CurrentlyOneIn (t : numberText)           (* first test *)
| NowOneIn (t : numberText).

(** What [addResultLine] appends to the results container. *)
Record resultLine : Type := mkLine {
  testFormatted : formatted;
  bitsText : number;
  cited : citation;
  count : cumulativeText
}.

Definition testOrder : list string :=
  [ "screenResolution"; "pixelRatio"; "timezone"; "language"; "userAgent";
    "platform"; "doNotTrack"; "cpuCores"; "deviceMemory"; "touchSupport";
    "adBlocker"; "connectionType"; "webgl"; "fonts"; "canvas"; "audio" ].

(** [addResultLine]: the line shown, and whether the user is now
    statistically unique. A [sourceUrl] that is [null] or the empty
    string is falsy. *)
Definition addResultLine (testEntropy oneInX : number)
    (sourceUrl : option string)
    (isEstimated : bool) (totalEntropy : number)
    (isFirstTest wasAlreadyUnique : bool) : resultLine * bool :=
  let testFormatted := formatNumber oneInX in
  let cited :=
    match sourceUrl with
    | None | Some "" => Estimated
    | Some url => if isEstimated then EstimatedLinked url else Linked url
    end in
  let totalUniqueness := entropyToUniqueness totalEntropy in
  let totalFormatted := formatNumber totalUniqueness in
  let count :=
    if isUnique totalFormatted && negb wasAlreadyUnique
    then NowStatisticallyUnique (text totalFormatted)
    else if isUnique totalFormatted then StillUnique (text totalFormatted)
    else if isFirstTest then CurrentlyOneIn (text totalFormatted)
    else NowOneIn (text totalFormatted) in
  (mkLine testFormatted testEntropy cited count, isUnique totalFormatted).

(** [showFinalReveal] *)
Record finalReveal : Type := mkReveal {
  revealCount : nat;
  revealBits : number;
  (** [None]: "You are unique."; otherwise the text after "1 in". *)
  revealOneIn : option numberText;
  revealHash : string
}.

Definition showFinalReveal (successfulTests : nat) (totalEntropy : number)
    (fingerprintHash : string) : finalReveal :=
  let uniqueness := entropyToUniqueness totalEntropy in
  let formatted := formatNumber uniqueness in
  mkReveal successfulTests totalEntropy
    (if isUnique formatted then None else Some (text formatted))
    fingerprintHash.

(** [showEndState] *)
Record endState : Type := mkEnd {
  unableToDetect : list string;
  easyTests : list Completed.t;
  mediumTests : list Completed.t;
  hardTests : list Completed.t;
  easyEntropy : number;
  mediumEntropy : number;
  hardEntropy : number;
  easyPotential : formatted;
  easyMediumPotential : formatted;
  hardOnlyFormatted : formatted
}.

Definition hasDifficulty (d : difficultyTier) (t : Completed.t) : bool :=
  match d, Completed.difficulty t with
  | easy, easy | medium, medium | hard, hard => true
  | _, _ => false
  end.

(** [tests.reduce((sum, t) => sum + (t.entropy || 0), 0)] *)
Definition sumEntropy (tests : list Completed.t) : number :=
  fold_left (fun sum t => Number.add sum (Number.or (Completed.entropy t) 0))
    tests (Num 0).

Definition showEndState (successfulTests : nat) (failedTests : list string)
    (completedTests : list Completed.t) : endState :=
  let easyTests := filter (hasDifficulty easy) completedTests in
  let mediumTests := filter (hasDifficulty medium) completedTests in
  let hardTests := filter (hasDifficulty hard) completedTests in
  let totalEntropy := sumEntropy completedTests in
  let easyEntropy := sumEntropy easyTests in
  let mediumEntropy := sumEntropy mediumTests in
  let hardEntropy := sumEntropy hardTests in
  let calcPotentialOneInX := fun removedEntropy =>
    let remainingEntropy := Number.sub totalEntropy removedEntropy in
    let uniqueness := Number.Math_pow2 remainingEntropy in
    formatNumber (Number.Math_min uniqueness WORLD_POPULATION) in
  let hardOnlyUniqueness := Number.Math_pow2 hardEntropy in
  mkEnd failedTests easyTests mediumTests hardTests
    easyEntropy mediumEntropy hardEntropy
    (calcPotentialOneInX easyEntropy)
    (calcPotentialOneInX (Number.add easyEntropy mediumEntropy))
    (formatNumber (Number.Math_min hardOnlyUniqueness WORLD_POPULATION)).

Module Runner.

Section Run.
(** The type of raw values, and the hash applied to their list. *)
Variable V : Type.
Variable generateFingerprintHash : list V -> string.

(** The accumulators of [runExperiment], and the lines shown so far. *)
Record state : Type := mkState {
  totalEntropy : number;
  successfulTests : nat;
  failedTests : list string;
  fingerprintValues : list V;
  alreadyUnique : bool;
  completedTests : list Completed.t;
  resultLines : list resultLine
}.

Definition initial : state := mkState (Num 0) 0 [] [] false [] [].

(** The priority chain: [entropyBits], [sourceUrl], [isEstimated]. An
    entropy that is NaN is not [undefined] and is taken. [testName]
    ranges over [testOrder], whose names are not inherited ones, so the
    read of [BASELINE_ENTROPY] is an own-property read. *)
Definition entropyConfig (testName : string) (result : Result.t V)
  : number * option string * bool :=
  let fromLookup :=
    match Result.lookup result with
    | Some lookup =>
        match Lookup.entropy lookup with
        | Some e => Some (e, Lookup.source lookup, Lookup.estimated lookup)
        | None => None
        end
    | None => None
    end in
  match fromLookup with
  | Some c => c
  | None =>
      match Result.entropy result with
      | Some e => (e, None, false)
      | None =>
          if String.eqb testName "webgl"
          then (Num (bits (baseline "webglRenderer")
                     + bits (baseline "webglVendor")),
                baselineSource (baseline "webglRenderer"), true)
          else match get BASELINE_ENTROPY testName with
               | Some entropyConfig =>
                   (Num (bits entropyConfig), baselineSource entropyConfig,
                    true)
               | None => (Num 1.0, None, true)
               end
      end
  end.

(** [(result.lookup && result.lookup.oneInX) ? ... : ...] *)
Definition oneInXOf (result : Result.t V) (entropyBits : number) : number :=
  match Result.lookup result with
  | Some lookup =>
      match Lookup.oneInX lookup with
      | Some x =>
          if Number.truthy x then x else entropyToUniqueness entropyBits
      | None => entropyToUniqueness entropyBits
      end
  | None => entropyToUniqueness entropyBits
  end.

Definition recordFailure (st : state) (t : test V) : state :=
  mkState (totalEntropy st) (successfulTests st)
    (failedTests st ++ [name t]) (fingerprintValues st)
    (alreadyUnique st) (completedTests st) (resultLines st).

Definition recordSuccess (st : state) (testName : string) (t : test V)
    (result : Result.t V) : state :=
  let '(entropyBits, sourceUrl, isEstimated) := entropyConfig testName result in
  let totalEntropy' := Number.add (totalEntropy st) entropyBits in
  let successfulTests' := S (successfulTests st) in
  let oneInX := oneInXOf result entropyBits in
  let '(line, isUnique) :=
    addResultLine entropyBits oneInX sourceUrl isEstimated totalEntropy'
      (Nat.eqb successfulTests' 1) (alreadyUnique st) in
  mkState totalEntropy' successfulTests' (failedTests st)
    (fingerprintValues st ++ [Result.value result])
    (if isUnique && negb (alreadyUnique st) then true else alreadyUnique st)
    (completedTests st
       ++ [Completed.make (name t) (difficulty t) (changeRequires t)
             entropyBits])
    (resultLines st ++ [line]).

(** One iteration of the loop over [testOrder]. *)
Definition step (tests : object (test V)) (st : state) (testName : string)
  : state :=
  match get tests testName with
  | None => st
  | Some t =>
      match run t with
      | Threw => recordFailure st t
      | Returned None => recordFailure st t
      | Returned (Some result) => recordSuccess st testName t result
      end
  end.

Definition loop (tests : object (test V)) (names : list string)
    (st : state) : state :=
  fold_left (step tests) names st.

Record report : Type := mkReport {
  shown : list resultLine;
  reveal : finalReveal;
  ending : endState
}.

Definition finish (st : state) : report :=
  let fingerprintHash := generateFingerprintHash (fingerprintValues st) in
  mkReport (resultLines st)
    (showFinalReveal (successfulTests st) (totalEntropy st) fingerprintHash)
    (showEndState (successfulTests st) (failedTests st) (completedTests st)).

Definition runExperiment (tests : object (test V)) : report :=
  finish (loop tests testOrder initial).

End Run.

Arguments totalEntropy {V} _.
Arguments successfulTests {V} _.
Arguments failedTests {V} _.
Arguments fingerprintValues {V} _.
Arguments alreadyUnique {V} _.
Arguments completedTests {V} _.
Arguments resultLines {V} _.
Arguments initial {V}.
Arguments entropyConfig {V} _ _.
Arguments oneInXOf {V} _ _.
Arguments recordFailure {V} _ _.
Arguments recordSuccess {V} _ _ _ _.
Arguments step {V} _ _ _.
Arguments loop {V} _ _ _.
Arguments finish {V} _ _.
Arguments runExperiment {V} _ _.

End Runner.

(* ------------------------------------------------------------------ *)
(** ** Derived notions used in the statements *)

(** The entropy a test adds to the total: the first component of the
    priority chain on a result, nothing on a failure. *)
Definition contribution {V : Type} (testName : string) (o : outcome V)
  : number :=
  match o with
  | Returned (Some result) => fst (fst (Runner.entropyConfig testName result))
  | _ => Num 0
  end.

(** A test fails when [run] throws or returns [null] or [undefined]. *)
Definition fails {V : Type} (t : test V) : bool :=
  match run t with
  | Threw | Returned None => true
  | Returned (Some _) => false
  end.

(** The display names of the tests of [names] that satisfy [keep], in
    the order of [names]. *)
Definition namesWhere {V : Type} (keep : test V -> bool)
    (tests : object (test V)) (names : list string) : list string :=
  flat_map (fun testName =>
              match get tests testName with
              | Some t => if keep t then [name t] else []
              | None => []
              end) names.

(** Whether the runner marks a test's entropy as estimated. *)
Definition markedEstimated {V : Type} (testName : string) (o : outcome V)
  : bool :=
  match o with
  | Returned (Some result) => snd (Runner.entropyConfig testName result)
  | _ => false
  end.

(** The number text inside the cumulative sentence of a result line. *)
Definition countText (c : cumulativeText) : numberText :=
  match c with
  | NowStatisticallyUnique t | StillUnique t | CurrentlyOneIn t | NowOneIn t => t
  end.

(** The anonymity-set size a result line shows. *)
Definition shownSize (line : resultLine) : number :=
  denoted (countText (count line)).

(** The display rule as the specification words it: beyond the world
    population, every result line shows the capped size. *)
Definition displayCapped (totalEntropy : number) : Prop :=
  Number.ge (entropyToUniqueness totalEntropy) WORLD_POPULATION = true ->
  forall testEntropy oneInX sourceUrl isEstimated isFirstTest wasAlreadyUnique,
    shownSize (fst (addResultLine testEntropy oneInX sourceUrl isEstimated
                      totalEntropy isFirstTest wasAlreadyUnique))
    = Number.Math_min (entropyToUniqueness totalEntropy) WORLD_POPULATION.

(** A number that is not NaN and is at least zero. *)
Definition nonNegative (n : number) : Prop :=
  exists x, n = Num x /\ 0 <= x.

(** The test of a name adds a number that is not negative. *)
Definition addsNonNegative {V : Type} (tests : object (test V))
    (testName : string) : Prop :=
  forall t,
    get tests testName = Some t -> nonNegative (contribution testName (run t)).

(** All percents of a table, and its default, lie in (0, 100]. *)
Definition inRange (p : R) : Prop := 0 < p <= 100.

Definition tableInRange (t : marketTable) : Prop :=
  Forall (fun kv : string * R => inRange (snd kv)) (data t)
  /\ inRange (orOne (defaultPercent t)).

(** Sample readings: a desktop browser without the WebGL debug
    extension and without a reported core count. *)
Definition sampleBrowser : Tests.browser :=
  Tests.mkBrowser (Some 1%float) 1920%float 1080%float
    "Europe/Paris" "fr" "Win32"
    "Mozilla/5.0 (Windows NT 10.0; Win64; x64) Gecko/20100101 Firefox/121.0"
    Tests.DNull None (Some 8%float) (Some 0%N) (Some "4g")
    (Some "data:image/png;base64,AAAA")
    (Some (Tests.mkWebgl (Tests.DString "WebKit WebGL") None))
    (Some 35.7%float) ["Arial"; "Verdana"] false.

(** The sample readings behind a platform override that reports the
    text [constructor]. *)
Definition overriddenBrowser : Tests.browser :=
  Tests.mkBrowser (Some 1%float) 1920%float 1080%float
    "Europe/Paris" "fr" "constructor"
    "Mozilla/5.0 (Windows NT 10.0; Win64; x64) Gecko/20100101 Firefox/121.0"
    Tests.DNull None (Some 8%float) (Some 0%N) (Some "4g")
    (Some "data:image/png;base64,AAAA")
    (Some (Tests.mkWebgl (Tests.DString "WebKit WebGL") None))
    (Some 35.7%float) ["Arial"; "Verdana"] false.

(** Readings of rare values, behind a WebGL override that reports the
    text [constructor] as the unmasked renderer: a screen of 3840 by
    2160 device pixels at ratio 2.5, one core, 32 GB. *)
Definition rareBrowser : Tests.browser :=
  Tests.mkBrowser (Some 2.5%float) 1536%float 864%float
    "Europe/Paris" "fr" "iPad"
    "Mozilla/5.0 (Windows NT 10.0; Win64; x64) Gecko/20100101 Firefox/121.0"
    (Tests.DString "0") (Some 1%N) (Some 32%float) (Some 0%N) (Some "4g")
    (Some "data:image/png;base64,AAAA")
    (Some (Tests.mkWebgl (Tests.DString "WebKit WebGL")
             (Some (Tests.DString "WebKit", Some "constructor"))))
    (Some 35.7%float) ["Arial"; "Verdana"] true.

(** The entropy each name of a list adds, in order. *)
Definition contributions {V : Type} (tests : object (test V))
    (names : list string) : list number :=
  map (fun testName =>
         match get tests testName with
         | Some t => contribution testName (run t)
         | None => Num 0
         end) names.

(* ------------------------------------------------------------------ *)
(** ** Time zone display *)

(** [getTimezoneInfo], as a function of the two readings it takes from
    the browser: the zone identifier and [getTimezoneOffset()], a whole
    number of minutes. *)
Module Timezone.

Record info : Type := mkInfo {
  timezone : string;
  offset : string;
  raw : string
}.

(** [s.replace(/_/g, ' ')] *)
Fixpoint replaceUnderscores (s : string) : string :=
  match s with
  | EmptyString => EmptyString
  | String c s' =>
      String (if Ascii.eqb c "_" then " "%char else c) (replaceUnderscores s')
  end.

(** [s.split(sep)] for a one-character separator: never empty. *)
Fixpoint split (sep : ascii) (s : string) : list string :=
  match s with
  | EmptyString => [EmptyString]
  | String c s' =>
      if Ascii.eqb c sep then EmptyString :: split sep s'
      else match split sep s' with
           | piece :: pieces => String c piece :: pieces
           | [] => [String c EmptyString]
           end
  end.

(** [pieces.pop()]: the last element. *)
Definition pop (pieces : list string) : string := last pieces EmptyString.

(** [String(n)] for a whole number that is not negative. *)
Definition String_minutes (n : Z) : string :=
  NilEmpty.string_of_uint (N.to_uint (Z.to_N n)).

(** [s.padStart(2, '0')] *)
Definition padStart2 (s : string) : string :=
  match String.length s with
  | 0%nat => "00"
  | 1%nat => String "0" s
  | _ => s
  end.

(** [Math.abs(Math.floor(offset / 60))] *)
Definition offsetHours (minutes : Z) : Z := Z.abs (minutes / 60).

(** [Math.abs(offset % 60)]: the remainder has the sign of [offset]. *)
Definition offsetMins (minutes : Z) : Z := Z.abs (Z.rem minutes 60).

Definition offsetStr (minutes : Z) : string :=
  let sign := if (minutes <=? 0)%Z then "+" else "-" in
  "UTC" ++ sign ++ String_minutes (offsetHours minutes)
  ++ (if (offsetMins minutes =? 0)%Z then ""
      else ":" ++ padStart2 (String_minutes (offsetMins minutes))).

Definition getTimezoneInfo (tz : string) (minutes : Z) : info :=
  let readableTz := pop (split "/" (replaceUnderscores tz)) in
  mkInfo readableTz (offsetStr minutes) tz.

End Timezone.

(* ------------------------------------------------------------------ *)
(** ** The hash function *)

(** [md5]. The numbers it handles are whole, so they are integers here;
    the bitwise operators of the language convert their operands to 32
    bits, which is written out. An array element that was never written
    reads [undefined], which the bitwise operators take as 0: the arrays
    hold 0 there. *)
Module MD5.

Local Open Scope Z_scope.

Definition ToInt32 (x : Z) : Z := (x + 2 ^ 31) mod 2 ^ 32 - 2 ^ 31.
Definition ToUint32 (x : Z) : Z := x mod 2 ^ 32.

(** The shift count of [<<], [>>] and [>>>]: the low five bits. *)
Definition shiftCount (n : Z) : Z := Z.land (ToUint32 n) 31.

(** [x & y], [x | y], [x ^ y], [~x], [x << n], [x >> n], [x >>> n] *)
Definition band (x y : Z) : Z := Z.land (ToInt32 x) (ToInt32 y).
Definition bor (x y : Z) : Z := Z.lor (ToInt32 x) (ToInt32 y).
Definition bxor (x y : Z) : Z := Z.lxor (ToInt32 x) (ToInt32 y).
Definition bnot (x : Z) : Z := Z.lnot (ToInt32 x).
Definition shl (x n : Z) : Z :=
  ToInt32 (Z.shiftl (ToInt32 x) (shiftCount n)).
Definition sar (x n : Z) : Z := Z.shiftr (ToInt32 x) (shiftCount n).
Definition shr (x n : Z) : Z := Z.shiftr (ToUint32 x) (shiftCount n).

Definition safeAdd (x y : Z) : Z :=
  let lsw := band x 0xFFFF + band y 0xFFFF in
  let msw := sar x 16 + sar y 16 + sar lsw 16 in
  bor (shl msw 16) (band lsw 0xFFFF).

Definition bitRotateLeft (num cnt : Z) : Z :=
  bor (shl num cnt) (shr num (32 - cnt)).

Definition md5cmn (q a b x s t : Z) : Z :=
  safeAdd (bitRotateLeft (safeAdd (safeAdd a q) (safeAdd x t)) s) b.

Definition md5ff (a b c d x s t : Z) : Z :=
  md5cmn (bor (band b c) (band (bnot b) d)) a b x s t.

Definition md5gg (a b c d x s t : Z) : Z :=
  md5cmn (bor (band b d) (band c (bnot d))) a b x s t.

Definition md5hh (a b c d x s t : Z) : Z :=
  md5cmn (bxor (bxor b c) d) a b x s t.

Definition md5ii (a b c d x s t : Z) : Z :=
  md5cmn (bxor c (bor b (bnot d))) a b x s t.

(** [x[i]] *)
Definition read (x : list Z) (i : Z) : Z :=
  if i <? 0 then 0 else nth (Z.to_nat i) x 0.

(** [x[i] = v]: a write past the end extends the array. *)
Fixpoint storeAt (i : nat) (v : Z) (x : list Z) : list Z :=
  match i, x with
  | O, [] => [v]
  | O, _ :: x' => v :: x'
  | S i', [] => 0 :: storeAt i' v []
  | S i', y :: x' => y :: storeAt i' v x'
  end.

Definition store (x : list Z) (i v : Z) : list Z := storeAt (Z.to_nat i) v x.

(** The body of the loop of [binlMD5] for the block at [i]. *)
Definition block (x : list Z) (state : Z * Z * Z * Z) (i : Z)
  : Z * Z * Z * Z :=
  let '(a, b, c, d) := state in
  let olda := a in
  let oldb := b in
  let oldc := c in
  let oldd := d in
  let a := md5ff a b c d (read x i) 7 (-680876936) in
  let d := md5ff d a b c (read x (i + 1)) 12 (-389564586) in
  let c := md5ff c d a b (read x (i + 2)) 17 606105819 in
  let b := md5ff b c d a (read x (i + 3)) 22 (-1044525330) in
  let a := md5ff a b c d (read x (i + 4)) 7 (-176418897) in
  let d := md5ff d a b c (read x (i + 5)) 12 1200080426 in
  let c := md5ff c d a b (read x (i + 6)) 17 (-1473231341) in
  let b := md5ff b c d a (read x (i + 7)) 22 (-45705983) in
  let a := md5ff a b c d (read x (i + 8)) 7 1770035416 in
  let d := md5ff d a b c (read x (i + 9)) 12 (-1958414417) in
  let c := md5ff c d a b (read x (i + 10)) 17 (-42063) in
  let b := md5ff b c d a (read x (i + 11)) 22 (-1990404162) in
  let a := md5ff a b c d (read x (i + 12)) 7 1804603682 in
  let d := md5ff d a b c (read x (i + 13)) 12 (-40341101) in
  let c := md5ff c d a b (read x (i + 14)) 17 (-1502002290) in
  let b := md5ff b c d a (read x (i + 15)) 22 1236535329 in
  let a := md5gg a b c d (read x (i + 1)) 5 (-165796510) in
  let d := md5gg d a b c (read x (i + 6)) 9 (-1069501632) in
  let c := md5gg c d a b (read x (i + 11)) 14 643717713 in
  let b := md5gg b c d a (read x i) 20 (-373897302) in
  let a := md5gg a b c d (read x (i + 5)) 5 (-701558691) in
  let d := md5gg d a b c (read x (i + 10)) 9 38016083 in
  let c := md5gg c d a b (read x (i + 15)) 14 (-660478335) in
  let b := md5gg b c d a (read x (i + 4)) 20 (-405537848) in
  let a := md5gg a b c d (read x (i + 9)) 5 568446438 in
  let d := md5gg d a b c (read x (i + 14)) 9 (-1019803690) in
  let c := md5gg c d a b (read x (i + 3)) 14 (-187363961) in
  let b := md5gg b c d a (read x (i + 8)) 20 1163531501 in
  let a := md5gg a b c d (read x (i + 13)) 5 (-1444681467) in
  let d := md5gg d a b c (read x (i + 2)) 9 (-51403784) in
  let c := md5gg c d a b (read x (i + 7)) 14 1735328473 in
  let b := md5gg b c d a (read x (i + 12)) 20 (-1926607734) in
  let a := md5hh a b c d (read x (i + 5)) 4 (-378558) in
  let d := md5hh d a b c (read x (i + 8)) 11 (-2022574463) in
  let c := md5hh c d a b (read x (i + 11)) 16 1839030562 in
  let b := md5hh b c d a (read x (i + 14)) 23 (-35309556) in
  let a := md5hh a b c d (read x (i + 1)) 4 (-1530992060) in
  let d := md5hh d a b c (read x (i + 4)) 11 1272893353 in
  let c := md5hh c d a b (read x (i + 7)) 16 (-155497632) in
  let b := md5hh b c d a (read x (i + 10)) 23 (-1094730640) in
  let a := md5hh a b c d (read x (i + 13)) 4 681279174 in
  let d := md5hh d a b c (read x i) 11 (-358537222) in
  let c := md5hh c d a b (read x (i + 3)) 16 (-722521979) in
  let b := md5hh b c d a (read x (i + 6)) 23 76029189 in
  let a := md5hh a b c d (read x (i + 9)) 4 (-640364487) in
  let d := md5hh d a b c (read x (i + 12)) 11 (-421815835) in
  let c := md5hh c d a b (read x (i + 15)) 16 530742520 in
  let b := md5hh b c d a (read x (i + 2)) 23 (-995338651) in
  let a := md5ii a b c d (read x i) 6 (-198630844) in
  let d := md5ii d a b c (read x (i + 7)) 10 1126891415 in
  let c := md5ii c d a b (read x (i + 14)) 15 (-1416354905) in
  let b := md5ii b c d a (read x (i + 5)) 21 (-57434055) in
  let a := md5ii a b c d (read x (i + 12)) 6 1700485571 in
  let d := md5ii d a b c (read x (i + 3)) 10 (-1894986606) in
  let c := md5ii c d a b (read x (i + 10)) 15 (-1051523) in
  let b := md5ii b c d a (read x (i + 1)) 21 (-2054922799) in
  let a := md5ii a b c d (read x (i + 8)) 6 1873313359 in
  let d := md5ii d a b c (read x (i + 15)) 10 (-30611744) in
  let c := md5ii c d a b (read x (i + 6)) 15 (-1560198380) in
  let b := md5ii b c d a (read x (i + 13)) 21 1309151649 in
  let a := md5ii a b c d (read x (i + 4)) 6 (-145523070) in
  let d := md5ii d a b c (read x (i + 11)) 10 (-1120210379) in
  let c := md5ii c d a b (read x (i + 2)) 15 718787259 in
  let b := md5ii b c d a (read x (i + 9)) 21 (-343485551) in
  let a := safeAdd a olda in
  let b := safeAdd b oldb in
  let c := safeAdd c oldc in
  let d := safeAdd d oldd in
  (a, b, c, d).

(** The values [i] takes in [for (i = 0; i < length; i += 16)]. *)
Definition blockStarts (length : nat) : list Z :=
  map Z.of_nat (filter (fun i => Nat.eqb (i mod 16) 0) (seq 0 length)).

Definition binlMD5 (x : list Z) (len : Z) : list Z :=
  let x := store x (sar len 5)
             (bor (read x (sar len 5)) (shl 0x80 (Z.rem len 32))) in
  let x := store x (shl (shr (len + 64) 9) 4 + 14) len in
  let '(a, b, c, d) :=
    fold_left (block x) (blockStarts (List.length x))
      (1732584193, -271733879, -1732584194, 271733878) in
  [a; b; c; d].

(** [s.charAt(n)] *)
Definition charAt (s : string) (n : Z) : string :=
  if n <? 0 then EmptyString
  else match String.get (Z.to_nat n) s with
       | Some c => String c EmptyString
       | None => EmptyString
       end.

Definition hexTab : string := "0123456789abcdef".

Definition binl2hex (binarray : list Z) : string :=
  fold_left
    (fun str i =>
       (str ++ (charAt hexTab
                  (band (sar (read binarray (sar i 2))
                           (Z.rem i 4 * 8 + 4)) 0xF)
                ++ charAt hexTab
                     (band (sar (read binarray (sar i 2)) (Z.rem i 4 * 8))
                        0xF)))%string)
    (map Z.of_nat (seq 0 (List.length binarray * 4)))
    EmptyString.

(** [s.charCodeAt(i)] of the character [c] at [i]. *)
Definition charCode (c : ascii) : Z := Z.of_N (N_of_ascii c).

Definition str2binl (str : string) : list Z :=
  snd (fold_left
         (fun (st : Z * list Z) (c : ascii) =>
            let '(i, bin) := st in
            (i + 8,
             store bin (sar i 5)
               (bor (read bin (sar i 5))
                  (shl (band (charCode c) 0xFF) (Z.rem i 32)))))
         (list_ascii_of_string str) (0, [])).

Definition fromCharCode (n : Z) : ascii := ascii_of_N (Z.to_N n).

(** [unescape(encodeURIComponent(str))] on a string of code units below
    256: the bytes of the UTF-8 form of [str], one character each. A
    code unit below 128 is one byte, one from 128 to 255 two. Code units
    from 256 on are outside the embedding; among them a surrogate
    without its pair makes [encodeURIComponent] throw. *)
Fixpoint utf8Encode (str : string) : string :=
  match str with
  | EmptyString => EmptyString
  | String c str' =>
      let code := charCode c in
      if code <? 128 then String c (utf8Encode str')
      else String (fromCharCode (Z.lor 0xC0 (Z.shiftr code 6)))
             (String (fromCharCode (Z.lor 0x80 (Z.land code 0x3F)))
                (utf8Encode str'))
  end.

(** [s.toUpperCase()], on the letters a to z. *)
Fixpoint toUpperCase (s : string) : string :=
  match s with
  | EmptyString => EmptyString
  | String c s' =>
      let code := charCode c in
      String (if (97 <=? code) && (code <=? 122)
              then fromCharCode (code - 32) else c)
        (toUpperCase s')
  end.

Definition md5 (str : string) : string :=
  let utf8 := utf8Encode str in
  toUpperCase
    (binl2hex (binlMD5 (str2binl utf8) (Z.of_nat (String.length utf8) * 8))).

End MD5.

(* ------------------------------------------------------------------ *)
(** ** User agent *)

Module UserAgent.

Record parsed : Type := mkParsed {
  browser : string;
  os : string
}.

(** The longest run of digits at the start of [s], and what follows. *)
Fixpoint takeDigits (s : string) : string :=
  match s with
  | EmptyString => EmptyString
  | String c s' => if isDigit c then String c (takeDigits s') else EmptyString
  end.

Fixpoint dropDigits (s : string) : string :=
  match s with
  | EmptyString => EmptyString
  | String c s' => if isDigit c then dropDigits s' else s
  end.

(** [s] without its prefix [p], when it starts with [p]. *)
Fixpoint dropPrefix (p s : string) : option string :=
  match p, s with
  | EmptyString, _ => Some s
  | String a p', String b s' => if Ascii.eqb a b then dropPrefix p' s' else None
  | String _ _, EmptyString => None
  end.

(** The first position of [s], from the left, at which [matchHere]
    matches, and what it captures there. *)
Fixpoint firstMatch (matchHere : string -> option string) (s : string)
  : option string :=
  match matchHere s with
  | Some captured => Some captured
  | None =>
      match s with
      | EmptyString => None
      | String _ s' => firstMatch matchHere s'
      end
  end.

(** [/P(\d+)/] at one position, for the literal text [P]. *)
Definition versionHere (p s : string) : option string :=
  match dropPrefix p s with
  | Some rest =>
      match takeDigits rest with
      | EmptyString => None
      | digits => Some digits
      end
  | None => None
  end.

(** [(ua.match(/P(\d+)/) ? match[1] : '')] *)
Definition versionAfter (p ua : string) : string :=
  match firstMatch (versionHere p) ua with
  | Some captured => captured
  | None => EmptyString
  end.

(** [/Mac OS X (\d+[._]\d+)/] at one position. The first run of digits
    is the longest one: a shorter one is followed by a digit, which is
    neither a dot nor an underscore. *)
Definition macVersionHere (s : string) : option string :=
  match dropPrefix "Mac OS X " s with
  | Some rest =>
      match takeDigits rest, dropDigits rest with
      | String _ _ as major, String c rest' =>
          if Ascii.eqb c "." || Ascii.eqb c "_"
          then match takeDigits rest' with
               | EmptyString => None
               | minor => Some (major ++ String c minor)
               end
          else None
      | _, _ => None
      end
  | None => None
  end.

(** [s.replace('_', '.')]: the first underscore only. *)
Fixpoint replaceFirstUnderscore (s : string) : string :=
  match s with
  | EmptyString => EmptyString
  | String c s' =>
      if Ascii.eqb c "_" then String "." s'
      else String c (replaceFirstUnderscore s')
  end.

Definition parseUserAgent (ua : string) : parsed :=
  let browser :=
    if includes ua "Firefox/" then "Firefox " ++ versionAfter "Firefox/" ua
    else if includes ua "Edg/" then "Edge " ++ versionAfter "Edg/" ua
    else if includes ua "Chrome/" then "Chrome " ++ versionAfter "Chrome/" ua
    else if includes ua "Safari/" && negb (includes ua "Chrome")
    then "Safari " ++ versionAfter "Version/" ua
    else "Unknown Browser" in
  let os :=
    if includes ua "iPhone" || includes ua "iPad" then "iOS"
    else if includes ua "Windows NT 10.0"
    then (if includes ua "Windows NT 10.0; Win64" then "Windows 10/11"
          else "Windows 10")
    else if includes ua "Windows NT" then "Windows"
    else if includes ua "Mac OS X"
    then "macOS" ++ match firstMatch macVersionHere ua with
                    | Some captured => " " ++ replaceFirstUnderscore captured
                    | None => ""
                    end
    else if includes ua "Linux"
    then (if includes ua "Android" then "Android" else "Linux")
    else "Unknown OS" in
  mkParsed browser os.

(** [s.split(' ')[0]] *)
Definition firstWord (s : string) : string :=
  hd EmptyString (Timezone.split " " s).

End UserAgent.

(* ------------------------------------------------------------------ *)
(** ** Bold markers and the typewriter *)

Module Typewriter.

Definition notStar (c : ascii) : bool := negb (Ascii.eqb c "*").

(** The longest run of characters other than an asterisk at the start
    of [s], and what follows it. *)
Fixpoint takeRun (s : string) : string :=
  match s with
  | EmptyString => EmptyString
  | String c s' => if notStar c then String c (takeRun s') else EmptyString
  end.

Fixpoint dropRun (s : string) : string :=
  match s with
  | EmptyString => EmptyString
  | String c s' => if notStar c then dropRun s' else s
  end.

(** The pattern of [formatBold] at one position: two asterisks, one or
    more characters other than an asterisk, two asterisks; the result is
    the text between them. The run is the longest one, since a shorter
    one is followed by a character that is not an asterisk. *)
Definition boldHere (s : string) : option string :=
  match UserAgent.dropPrefix "**" s with
  | Some rest =>
      match takeRun rest, UserAgent.dropPrefix "**" (dropRun rest) with
      | String _ _ as run, Some _ => Some run
      | _, _ => None
      end
  | None => None
  end.

(** [formatBold]: every match of the pattern, scanning from the left,
    is replaced by its text inside a strong element; [skip] counts the
    characters of a match still to be passed over. *)
Fixpoint formatBoldFrom (s : string) (skip : nat) : string :=
  match s with
  | EmptyString => EmptyString
  | String c s' =>
      match skip with
      | S skip' => formatBoldFrom s' skip'
      | O =>
          match boldHere s with
          | Some run =>
              "<strong>" ++ run ++ "</strong>"
              ++ formatBoldFrom s' (String.length run + 3)
          | None => String c (formatBoldFrom s' 0)
          end
      end
  end.

Definition formatBold (text : string) : string := formatBoldFrom text 0.

(** [html.split] on the same pattern, captured as a whole: the texts
    between the matches, and the matches themselves; [current] is the
    text since the last match. *)
Fixpoint splitFrom (s : string) (skip : nat) (current : string)
  : list string :=
  match s with
  | EmptyString => [current]
  | String c s' =>
      match skip with
      | S skip' => splitFrom s' skip' current
      | O =>
          match boldHere s with
          | Some run =>
              current :: ("**" ++ run ++ "**")
              :: splitFrom s' (String.length run + 3) EmptyString
          | None => splitFrom s' 0 (current ++ String c EmptyString)
          end
      end
  end.

Definition split (html : string) : list string :=
  splitFrom html 0 EmptyString.

(** [part.startsWith], [part.endsWith] for two asterisks, and
    [part.slice(2, -2)] *)
Definition startsWith (part : string) : bool := String.prefix "**" part.

Definition endsWith (part : string) : bool :=
  (2 <=? String.length part)%nat
  && String.eqb (String.substring (String.length part - 2) 2 part) "**".

Definition slice (part : string) : string :=
  let size := String.length part in
  let from := Nat.min 2 size in
  let to := (size - 2)%nat in
  String.substring from (to - from) part.

(** The characters a part adds to the text typed so far. *)
Definition typed (part : string) : string :=
  if startsWith part && endsWith part then slice part else part.

(** [typewriterReveal]: the successive values given to
    [element.innerHTML]. *)
Definition typewriterReveal (html : string) (speed : Z) : list string :=
  if (speed =? 0)%Z then [html]
  else
    let parts := split html in
    snd (fold_left
           (fun (st : string * list string) (part : string) =>
              fold_left
                (fun (st : string * list string) (char : ascii) =>
                   let fullText := fst st ++ String char EmptyString in
                   (fullText, (snd st ++ [formatBold fullText])%list))
                (list_ascii_of_string (typed part)) st)
           parts (EmptyString, [])).

(** What the element holds in the end, from an empty element. *)
Definition revealed (html : string) (speed : Z) : string :=
  last (typewriterReveal html speed) EmptyString.

End Typewriter.

(* ------------------------------------------------------------------ *)
(** ** Derived notions used in the further statements *)

(** A reading built from a known ratio and a zoom level is recognised
    when the analysis is confident and proposes no larger base ratio. *)
Definition recognised (baseDPR zoom : float) : bool :=
  let a := PixelRatio.analyzePixelRatio (baseDPR * zoom)%float in
  match PixelRatio.confidence a with
  | PixelRatio.high => true
  | PixelRatio.medium => (PixelRatio.trueDPR a <=? baseDPR)%float
  | PixelRatio.low => false
  end.

(** The cumulative sentence of a line announces the first crossing of
    the world population, repeats that the user is still unique, or is
    the sentence of the first test. *)
Definition announcesUniqueness (line : resultLine) : bool :=
  match count line with NowStatisticallyUnique _ => true | _ => false end.

Definition staysUnique (line : resultLine) : bool :=
  match count line with StillUnique _ => true | _ => false end.

Definition saysCurrently (line : resultLine) : bool :=
  match count line with CurrentlyOneIn _ => true | _ => false end.

(** Texts made of digits, and texts without an asterisk. *)
Definition allDigits (s : string) : bool :=
  forallb isDigit (list_ascii_of_string s).

Definition starFree (s : string) : bool :=
  forallb Typewriter.notStar (list_ascii_of_string s).

(** A message written as the tests write theirs: plain texts and bold
    texts in turn, the bold ones between double asterisks. *)
Fixpoint written (segments : list (string * string)) (tail : string)
  : string :=
  match segments with
  | [] => tail
  | (plain, bold) :: segments' =>
      plain ++ "**" ++ bold ++ "**" ++ written segments' tail
  end.

Fixpoint markedUp (segments : list (string * string)) (tail : string)
  : string :=
  match segments with
  | [] => tail
  | (plain, bold) :: segments' =>
      plain ++ "<strong>" ++ bold ++ "</strong>" ++ markedUp segments' tail
  end.

Fixpoint unmarked (segments : list (string * string)) (tail : string)
  : string :=
  match segments with
  | [] => tail
  | (plain, bold) :: segments' => plain ++ bold ++ unmarked segments' tail
  end.

Definition wellFormed (segments : list (string * string)) (tail : string)
  : bool :=
  forallb (fun segment : string * string =>
             starFree (fst segment) && starFree (snd segment)
             && negb (String.eqb (snd segment) ""))
    segments
  && starFree tail.

(** The parts of a message, and what each adds to the text typed. *)
Fixpoint parts (segments : list (string * string)) (tail : string)
  : list string :=
  match segments with
  | [] => [tail]
  | (plain, bold) :: segments' =>
      plain :: ("**" ++ bold ++ "**") :: parts segments' tail
  end.

(** Where the entropy of a result comes from: a row of one of the
    reference tables, or a baseline record, taken alone, halved, or two
    of them added. *)
Definition referenceTables : list marketTable :=
  [ SCREEN_RESOLUTION_DATA; BROWSER_DATA; GPU_DATA; PIXEL_RATIO_DATA;
    DNT_DATA; CPU_CORES_DATA; DEVICE_MEMORY_DATA; AD_BLOCKER_DATA;
    TIMEZONE_DATA; LANGUAGE_DATA; PLATFORM_DATA ].




(** The four texts a run looks up as they come from the browser: the
    time zone, the language, the platform and the unmasked WebGL
    renderer. *)
Definition lookedUpTexts (b : Tests.browser) : list string :=
  [ Tests.timeZone b; Tests.language b; Tests.platform b ]
  ++ match Tests.webglContext b with
     | Some gl =>
         match Tests.debugInfo gl with
         | Some (_, Some renderer) => [renderer]
         | _ => []
         end
     | None => []
     end.

(** No looked-up text is, once trimmed, the name of a member of
    [Object.prototype]. *)
Definition noInheritedName (b : Tests.browser) : bool :=
  forallb (fun text => negb (inherited (trim text))) (lookedUpTexts b).

(* ------------------------------------------------------------------ *)
(** * Properties *)

(** ** Lookup *)

Lemma includes_empty (s : string) : includes s "" = true.
Proof. destruct s; reflexivity. Qed.

Lemma find_first {A : Type} (f : A -> bool) (pre : list A) (x : A) (post : list A) :
  (forall y, In y pre -> f y = false) ->
  f x = true ->
  find f (pre ++ x :: post)%list = Some x.
Proof.
  induction pre as [|y pre IH]; intros Hpre Hx; simpl.
  - now rewrite Hx.
  - rewrite (Hpre y (or_introl eq_refl)).
    apply IH; [|exact Hx].
    intros z Hz. apply Hpre. now right.
Qed.

Lemma find_all_false {A : Type} (f : A -> bool) (l : list A) :
  (forall y, In y l -> f y = false) -> find f l = None.
Proof.
  induction l as [|y l IH]; intros H; simpl; [reflexivity|].
  rewrite (H y (or_introl eq_refl)). apply IH.
  intros z Hz. apply H. now right.
Qed.

(** What [trim] leaves of a string. *)

Lemma trimStart_head (s : string) :
  match trimStart s with
  | EmptyString => True
  | String c _ => isWhiteSpace c = false
  end.
Proof.
  induction s as [|c s IH]; simpl; [exact I|].
  destruct (isWhiteSpace c) eqn:Hc; [exact IH | exact Hc].
Qed.

Lemma trimEnd_idempotent (s : string) : trimEnd (trimEnd s) = trimEnd s.
Proof.
  induction s as [|c s IH]; simpl; [reflexivity|].
  destruct (trimEnd s) as [|d r] eqn:Hs.
  - destruct (isWhiteSpace c) eqn:Hc; simpl; [reflexivity|].
    now rewrite Hc.
  - simpl. simpl in IH. rewrite IH. reflexivity.
Qed.

Lemma trimEnd_keeps_head (c : ascii) (s : string) :
  isWhiteSpace c = false -> exists r, trimEnd (String c s) = String c r.
Proof.
  intros Hc. simpl.
  destruct (trimEnd s) as [|d r]; [rewrite Hc|]; eexists; reflexivity.
Qed.

Lemma trimStart_trimEnd (s : string) :
  trimStart (trimEnd (trimStart s)) = trimEnd (trimStart s).
Proof.
  pose proof (trimStart_head s) as H.
  destruct (trimStart s) as [|c r]; [reflexivity|].
  destruct (trimEnd_keeps_head c r H) as [r' ->].
  simpl. now rewrite H.
Qed.

Lemma trim_idempotent (s : string) : trim (trim s) = trim s.
Proof.
  unfold trim. now rewrite trimStart_trimEnd, trimEnd_idempotent.
Qed.

Lemma trimStart_whitespace (c : ascii) (s : string) :
  isWhiteSpace c = true -> trim (String c s) = trim s.
Proof. intros Hc. unfold trim. simpl. now rewrite Hc. Qed.

Lemma trim_keeps_head (c : ascii) (s : string) :
  isWhiteSpace c = false -> exists r, trim (String c s) = String c r.
Proof.
  intros Hc. unfold trim. cbn [trimStart]. rewrite Hc.
  now apply trimEnd_keeps_head.
Qed.

(** A read of a key the object defines finds the stored percent; a read
    of any other name that is not an inherited one finds nothing. *)
Lemma read_stored (o : object R) (k : string) (p : R) :
  get o k = Some p -> read o k = Some (Stored p).
Proof. intros H. unfold read. now rewrite H. Qed.

Lemma read_undefined (o : object R) (k : string) :
  get o k = None -> inherited k = false -> read o k = None.
Proof. intros H Hk. unfold read. now rewrite H, Hk. Qed.

(** C4 (as amended). For a value whose trimmed form is not the name of a
    member of [Object.prototype], [lookupMarketShare] resolves in three
    tiers, first match wins: an exact key of the table gives that key's
    percent, not estimated; otherwise the first key in [Object.keys]
    order (array-index keys ascending, then the others in insertion
    order) that contains or is contained in the trimmed value gives its
    percent, not estimated; otherwise [defaultPercent || 1.0] is returned,
    estimated. *)
Theorem lookupMarketShare_tiers (t : marketTable) (v : string) :
  inherited (trim v) = false ->
  tiers Object_keys defaultOrOne t v (lookupMarketShare t v).
Proof.
  intros Hown. unfold tiers, lookupMarketShare; cbv zeta.
  split; [|split].
  - intros p Hexact. rewrite (read_stored _ _ _ Hexact). now split.
  - intros Hmiss pre key post Hkeys Hpre Hkey.
    rewrite (read_undefined _ _ Hmiss Hown), Hkeys,
      (find_first _ _ _ _ Hpre Hkey).
    now split.
  - intros Hmiss Hnone.
    rewrite (read_undefined _ _ Hmiss Hown), (find_all_false _ _ Hnone).
    now split.
Qed.

(** The three tiers exercised on tables of the program: an exact hit, a
    partial hit behind a non-matching key, and a miss on the table that
    has no [defaultPercent]. *)
Lemma lookupMarketShare_tiers_witness :
  (percent (lookupMarketShare PLATFORM_DATA " MacIntel ") = 15
   /\ estimated (lookupMarketShare PLATFORM_DATA " MacIntel ") = false)
  /\ (percent (lookupMarketShare DNT_DATA "10") = valueAt (data DNT_DATA) "0"
      /\ estimated (lookupMarketShare DNT_DATA "10") = false)
  /\ (defaultOrOne AD_BLOCKER_DATA (percent (lookupMarketShare AD_BLOCKER_DATA "maybe"))
      /\ estimated (lookupMarketShare AD_BLOCKER_DATA "maybe") = true).
Proof.
  split; [|split].
  - apply (proj1 (lookupMarketShare_tiers PLATFORM_DATA " MacIntel " eq_refl)).
    reflexivity.
  - apply (proj1 (proj2 (lookupMarketShare_tiers DNT_DATA "10" eq_refl))
             eq_refl [] "0" ["1"; "null"]).
    + reflexivity.
    + intros k [].
    + reflexivity.
  - apply (proj2 (proj2 (lookupMarketShare_tiers AD_BLOCKER_DATA "maybe"
                           eq_refl)) eq_refl).
    intros k [<-|[<-|[]]]; reflexivity.
Defined.

(** C4 fails as worded. On [DNT_DATA] the keys were written '1', '0',
    'null' but are enumerated '0', '1', 'null', so the value "10" resolves
    to the percent of '0' (3) and not of the first inserted key '1' (20);
    and [AD_BLOCKER_DATA] has no [defaultPercent] to return. *)
Lemma lookupMarketShare_tiers_as_worded_fail :
  ~ tiers insertionOrder tableDefault DNT_DATA "10"
      (lookupMarketShare DNT_DATA "10")
  /\ ~ tiers insertionOrder tableDefault AD_BLOCKER_DATA "maybe"
      (lookupMarketShare AD_BLOCKER_DATA "maybe").
Proof.
  split.
  - intros (_ & H & _).
    destruct (H eq_refl [] "1" ["0"; "null"] eq_refl) as [Hp _].
    + intros k [].
    + reflexivity.
    + change (Stored 3 = Stored 20) in Hp. injection Hp as Hp. lra.
  - intros (_ & _ & H).
    destruct (H eq_refl) as [Hd _].
    + intros k [<-|[<-|[]]]; reflexivity.
    + destruct Hd as (d & Hd & _). discriminate Hd.
Qed.

Example Object_keys_DNT_DATA :
  Object_keys (data DNT_DATA) = ["0"; "1"; "null"]
  /\ insertionOrder (data DNT_DATA) = ["1"; "0"; "null"].
Proof. split; reflexivity. Qed.

Example Object_keys_PIXEL_RATIO_DATA :
  Object_keys (data PIXEL_RATIO_DATA) = ["1"; "2"; "3"; "1.25"; "1.5"; "2.5"].
Proof. reflexivity. Qed.

(** C9 (as amended). For a table with at least one key and no
    empty-string key, a value whose trimmed form is empty resolves in the
    partial tier to the first key of [Object.keys] (array-index keys
    ascending, then the others in insertion order), because every key
    contains the empty string; the result is never the estimated
    default. *)
Theorem lookupMarketShare_empty_value (t : marketTable) (v : string) :
  get (data t) "" = None ->
  emptyValueHitsFirstKey Object_keys t v.
Proof.
  intros Hnokey first rest Hkeys Hv.
  unfold lookupMarketShare; cbv zeta.
  assert (Hfirst : partialMatch "" first = true).
  { unfold partialMatch. now rewrite (includes_empty first), orb_true_r. }
  rewrite Hv, (read_undefined _ _ Hnokey eq_refl), Hkeys.
  rewrite (find_first _ [] first rest); [now split | intros k [] | exact Hfirst].
Qed.

Lemma lookupMarketShare_empty_value_witness :
  percent (lookupMarketShare DNT_DATA "  ") = valueAt (data DNT_DATA) "0"
  /\ estimated (lookupMarketShare DNT_DATA "  ") = false.
Proof.
  apply (lookupMarketShare_empty_value DNT_DATA "  " eq_refl "0" ["1"; "null"]);
    reflexivity.
Defined.

(** C9 fails as worded. The first key of [DNT_DATA] in insertion order is
    '1' (20 percent), but the empty value resolves to '0' (3 percent); and
    on a table that has the empty string as a later key the exact tier
    answers before any scan. *)
Lemma lookupMarketShare_empty_value_as_worded_fails :
  ~ emptyValueHitsFirstKey insertionOrder DNT_DATA ""
  /\ ~ emptyValueHitsFirstKey insertionOrder
         (mkTable "" "" [("a", 1); ("", 2)] None) " ".
Proof.
  split; intros H.
  - destruct (H "1" ["0"; "null"] eq_refl eq_refl) as [Hp _].
    change (Stored 3 = Stored 20) in Hp. injection Hp as Hp. lra.
  - destruct (H "a" [""] eq_refl eq_refl) as [Hp _].
    change (Stored 2 = Stored 1) in Hp. injection Hp as Hp. lra.
Qed.

(** ** Entropy arithmetic *)

Lemma ln_2_pos : 0 < ln 2.
Proof. rewrite <- ln_1. apply ln_increasing; lra. Qed.

Lemma log2_1 : log2 1 = 0.
Proof. unfold log2. rewrite ln_1. field. pose proof ln_2_pos; lra. Qed.

Lemma log2_pow2 (n : nat) : log2 (2 ^ n) = INR n.
Proof.
  unfold log2. rewrite ln_pow by lra.
  field. pose proof ln_2_pos; lra.
Qed.

Lemma log2_nonneg (x : R) : 1 <= x -> 0 <= log2 x.
Proof.
  intros Hx. unfold log2.
  apply Rmult_le_pos.
  - destruct Hx as [Hx|<-].
    + rewrite <- ln_1. left. apply ln_increasing; lra.
    + rewrite ln_1. lra.
  - left. apply Rinv_0_lt_compat, ln_2_pos.
Qed.

(** The conversion on a stored percent and on an inherited member. *)
Lemma percentToEntropy_positive (p : R) :
  0 < p -> percentToEntropy p = Num (log2 (100 / p)).
Proof.
  intros Hp. unfold percentToEntropy, Number.le, Number.div, ToNumber.
  destruct (Rle_dec p 0) as [H|_]; [lra|].
  unfold Number.Math_log2.
  destruct (Rle_dec (100 / p) 0) as [H|_]; [|reflexivity].
  assert (0 < 100 / p) by (apply Rdiv_lt_0_compat; lra). lra.
Qed.

Lemma percentToEntropy_inherited (name : string) :
  percentToEntropy (Inherited name) = NaN
  /\ percentToOneInX (Inherited name) = NaN.
Proof. split; reflexivity. Qed.

Module Binary64Facts.

Import Binary64.
Local Open Scope float_scope.



Section Host.
Variable Math_log2 : float -> float.
Hypothesis Math_log2_of_1 : Math_log2 1 = 0.
Hypothesis Math_log2_of_4 : Math_log2 4 = 2.


End Host.



End Binary64Facts.

(** ** Pixel-ratio analysis *)

Module PixelRatioFacts.
Import JSNumber PixelRatio.
Local Open Scope float_scope.

Example String_number_knownDPRs :
  map String_number knownDPRs
  = ["1"; "1.25"; "1.5"; "2"; "2.5"; "3"]%string.
Proof. vm_compute. reflexivity. Qed.

Example collectMatches_037 :
  collectMatches 0.37
  = [mkCandidate (mkAnalysis 0.37 1.25 30 true medium "1.25")
       (abs (0.37 - 1.25 * 0.3))].
Proof. vm_compute. reflexivity. Qed.

Example collectMatches_02 : collectMatches 0.2 = [].
Proof. vm_compute. reflexivity. Qed.

(** C2 (as amended). [analyzePixelRatio 2.0] is base 2, scale 100,
    confidence high, not scaled; [analyzePixelRatio 1.1] is base 1, scale
    110, confidence medium, scaled; [analyzePixelRatio 0.37] is matched
    by the pair 1.25 x 30 percent (0.375, within 0.015 of 0.37) and is
    base 1.25, scale 30, confidence medium, scaled; an input that no pair
    matches, such as 0.2, takes the default: base 1, the smallest known
    ratio, scale [round (0.2 * 100)] = 20, confidence low, scaled. *)
Theorem analyzePixelRatio_examples :
  analyzePixelRatio 2.0 = mkAnalysis 2 2 100 false high "2"
  /\ analyzePixelRatio 1.1 = mkAnalysis 1.1 1 110 true medium "1"
  /\ analyzePixelRatio 0.37 = mkAnalysis 0.37 1.25 30 true medium "1.25"
  /\ analyzePixelRatio 0.2 = mkAnalysis 0.2 1 20 true low "1"
  /\ hd_error knownDPRs = Some 1.
Proof. repeat split; vm_compute; reflexivity. Qed.

(** C2 fails as worded: 0.37 does not fall through to the default tier. *)
Lemma analyzePixelRatio_037_is_not_default :
  ~ (trueDPR (analyzePixelRatio 0.37) = 1
     /\ zoomPercent (analyzePixelRatio 0.37) = 37
     /\ confidence (analyzePixelRatio 0.37) = low
     /\ isZoomed (analyzePixelRatio 0.37) = true).
Proof.
  intros (_ & _ & H & _). vm_compute in H. discriminate H.
Qed.

End PixelRatioFacts.

(** ** Fingerprint serialisation *)

Module FingerprintFacts.
Import Fingerprint.

(** X30. [Number::toString] on numbers of the kinds the tests hand over
    and on the edges of its layouts: whole numbers, fractions, the
    longest plain forms, the exponent forms, the least and the greatest
    finite numbers, and the values that are not finite. *)
Example Number_toString_values :
  map JSNumber.Number_toString
    [ 1920; 1.25; 35.7; 0.5; 8; -1.5; 0.1 + 0.2; 1 / 3; 0.000001; 1e-7;
      123456789012345680000; 1e21; 1e23; 5e-324; 1.7976931348623157e308;
      nan; infinity; neg_infinity; neg_zero ]%float
  = [ "1920"; "1.25"; "35.7"; "0.5"; "8"; "-1.5"; "0.30000000000000004";
      "0.3333333333333333"; "0.000001"; "1e-7"; "123456789012345680000";
      "1e+21"; "1e+23"; "5e-324"; "1.7976931348623157e+308";
      "NaN"; "Infinity"; "-Infinity"; "0" ].
Proof. vm_compute. reflexivity. Qed.

(** The example of the source's documentation. *)
Example fingerprintInput_documented :
  fingerprintInput
    [VNumber 1920; VString "Chrome";
     VArray [VString "Arial"; VString "Helvetica"]]
  = "1920|" ++ QuoteJSONString "Chrome" ++ "|["
      ++ QuoteJSONString "Arial" ++ "," ++ QuoteJSONString "Helvetica" ++ "]".
Proof. vm_compute. reflexivity. Qed.

Example splitTopLevel_documented :
  splitTopLevel
    (fingerprintInput [VNumber 1.25; VString "a|b"; VArray [VNull]])
  = ["1.25"; QuoteJSONString "a|b"; "[null]"].
Proof. vm_compute. reflexivity. Qed.

(** *** Serialised values are read back as one piece *)

Lemma push_app (a b : string) (acc : list ascii) :
  push (a ++ b) acc = push b (push a acc).
Proof.
  revert acc. induction a as [|c a IH]; intros acc; simpl; [reflexivity|].
  apply IH.
Qed.

Lemma push_rev (t : string) (acc : list ascii) :
  push t acc = (rev (list_ascii_of_string t) ++ acc)%list.
Proof.
  revert acc. induction t as [|c t IH]; intros acc; simpl; [reflexivity|].
  rewrite IH, <- app_assoc. reflexivity.
Qed.

Lemma pieceOf_push (t : string) : pieceOf (push t []) = t.
Proof.
  unfold pieceOf. rewrite push_rev, app_nil_r, rev_involutive.
  apply string_of_list_ascii_of_string.
Qed.

Lemma append_assoc (a b c : string) : (a ++ b) ++ c = a ++ (b ++ c).
Proof. induction a as [|x a IH]; simpl; [reflexivity | now rewrite IH]. Qed.

Lemma append_empty_r (a : string) : a ++ "" = a.
Proof. induction a as [|x a IH]; simpl; [reflexivity | now rewrite IH]. Qed.

Lemma onePiece_empty : onePiece "".
Proof. intros acc rest. reflexivity. Qed.

Lemma onePiece_app (a b : string) :
  onePiece a -> onePiece b -> onePiece (a ++ b).
Proof.
  intros Ha Hb acc rest.
  rewrite append_assoc, Ha, Hb, push_app. reflexivity.
Qed.

Lemma onePiece_plain (t : string) : plainText t = true -> onePiece t.
Proof.
  unfold plainText.
  induction t as [|c t IH]; simpl; intros H acc rest; [reflexivity|].
  apply andb_true_iff in H as [Hc Ht].
  apply andb_true_iff in Hc as [Hq Hs].
  apply negb_true_iff in Hq, Hs. simpl. rewrite Hq, Hs.
  apply IH. exact Ht.
Qed.

(** Inside a string literal the escaped form of a code unit is read
    without leaving the literal. *)
Lemma scan_quoteChar (c : ascii) (acc : list ascii) (rest : string) :
  scan true false acc (quoteChar c ++ rest)
  = scan true false (push (quoteChar c) acc) rest.
Proof.
  destruct c as [[|] [|] [|] [|] [|] [|] [|] [|]]; reflexivity.
Qed.

Lemma scan_quoteChars (s : string) (acc : list ascii) (rest : string) :
  scan true false acc (quoteChars s ++ rest)
  = scan true false (push (quoteChars s) acc) rest.
Proof.
  revert acc. induction s as [|c s IH]; intros acc; simpl; [reflexivity|].
  rewrite append_assoc, scan_quoteChar, IH, push_app. reflexivity.
Qed.

Lemma onePiece_QuoteJSONString (s : string) : onePiece (QuoteJSONString s).
Proof.
  intros acc rest. unfold QuoteJSONString.
  change (scan true false (dquote :: acc)
            ((quoteChars s ++ String dquote "") ++ rest)
          = scan false false
              (push (quoteChars s ++ String dquote "") (dquote :: acc)) rest).
  rewrite append_assoc, scan_quoteChars, push_app. reflexivity.
Qed.

Lemma plainText_string_of_uint (d : Decimal.uint) :
  plainText (NilEmpty.string_of_uint d) = true.
Proof. induction d; simpl; [reflexivity | exact IHd ..]. Qed.

(** The text of a number is plain and not empty. *)
Lemma plainText_append (a b : string) :
  plainText (a ++ b) = plainText a && plainText b.
Proof.
  unfold plainText.
  induction a as [|c a IH]; [reflexivity|].
  cbn [append list_ascii_of_string forallb]. rewrite IH.
  now rewrite andb_assoc.
Qed.

Lemma plainText_zeros (n : nat) : plainText (JSNumber.zeros n) = true.
Proof. induction n as [|n IH]; [reflexivity | exact IH]. Qed.

Lemma plainText_substring (s : string) (i j : nat) :
  plainText s = true -> plainText (substring i j s) = true.
Proof.
  revert i j. induction s as [|c s IH]; intros i j H.
  - destruct i, j; reflexivity.
  - unfold plainText in H. cbn [list_ascii_of_string forallb] in H.
    apply andb_true_iff in H as [Hc Hs].
    destruct i as [|i]; [destruct j as [|j]|]; cbn [substring].
    + reflexivity.
    + unfold plainText. cbn [list_ascii_of_string forallb].
      rewrite Hc. exact (IH 0%nat j Hs).
    + exact (IH i j Hs).
Qed.

Lemma plainText_decimal (z : Z) : plainText (JSNumber.decimal z) = true.
Proof. apply plainText_string_of_uint. Qed.

Lemma decimal_nonempty (z : Z) : JSNumber.decimal z <> "".
Proof.
  unfold JSNumber.decimal.
  assert (H : N.to_uint (Z.to_N z) <> Decimal.Nil).
  { destruct (Z.to_N z) as [|q]; [discriminate|].
    apply DecimalPos.Unsigned.to_uint_nonnil. }
  destruct (N.to_uint (Z.to_N z)); try discriminate. now contradiction H.
Qed.

Lemma append_nonempty_l (a b : string) : a <> "" -> a ++ b <> "".
Proof. destruct a; [intros H; now contradiction H | discriminate]. Qed.

Lemma append_nonempty_r (a b : string) : b <> "" -> a ++ b <> "".
Proof.
  intros Hb. destruct a; [exact Hb | discriminate].
Qed.

Lemma layout_plain (s n : Z) :
  plainText (JSNumber.layout s n) = true /\ JSNumber.layout s n <> "".
Proof.
  unfold JSNumber.layout. cbv zeta.
  pose proof (plainText_decimal s) as Hd.
  pose proof (decimal_nonempty s) as Hn.
  destruct (_ && _)%bool.
  { split; [|now apply append_nonempty_l].
    now rewrite plainText_append, Hd, plainText_zeros. }
  destruct (_ && _)%bool.
  { split; [|apply append_nonempty_r; discriminate].
    rewrite !plainText_append, !plainText_substring by exact Hd.
    reflexivity. }
  destruct (_ && _)%bool.
  { split; [|discriminate].
    now rewrite !plainText_append, Hd, plainText_zeros. }
  destruct (_ =? 1)%Z.
  - split; [|now apply append_nonempty_l].
    rewrite !plainText_append, Hd, plainText_decimal.
    now destruct (n - 1 <? 0)%Z.
  - split; [|apply append_nonempty_r; discriminate].
    rewrite !plainText_append, !plainText_substring, plainText_decimal
      by exact Hd.
    now destruct (n - 1 <? 0)%Z.
Qed.

Lemma positive_toString_plain (m : positive) (e : Z) :
  plainText (JSNumber.positive_toString m e) = true
  /\ JSNumber.positive_toString m e <> "".
Proof.
  unfold JSNumber.positive_toString. cbv zeta.
  destruct (JSNumber.shortest _ _ _ _ _) as [s n]. apply layout_plain.
Qed.

Lemma numberToJSON_plain (x : float) :
  plainText (numberToJSON x) = true /\ numberToJSON x <> "".
Proof.
  unfold numberToJSON, JSNumber.Number_toString.
  destruct (Prim2SF x) as [neg|neg| |neg m e];
    try (split; [reflexivity | discriminate]).
  destruct (positive_toString_plain m e) as [Hp Hn].
  destruct neg.
  - split; [|discriminate]. now rewrite plainText_append, Hp.
  - split; assumption.
Qed.

Lemma onePiece_numberToJSON (x : float) : onePiece (numberToJSON x).
Proof. apply onePiece_plain, numberToJSON_plain. Qed.

Lemma onePiece_join_comma (l : list string) :
  Forall onePiece l -> onePiece (join "," l).
Proof.
  induction 1 as [|x l Hx Hl IH]; [apply onePiece_empty|].
  destruct l as [|y l]; [exact Hx|].
  change (join "," (x :: y :: l)) with (x ++ "," ++ join "," (y :: l)).
  apply onePiece_app; [exact Hx|].
  apply onePiece_app; [now apply onePiece_plain | exact IH].
Qed.

(** Induction on values, through arrays and objects. *)
Section ValueInduction.
Variable P : value -> Prop.
Hypothesis Hundefined : P VUndefined.
Hypothesis Hnull : P VNull.
Hypothesis Hbool : forall b, P (VBool b).
Hypothesis Hnumber : forall n, P (VNumber n).
Hypothesis Hstring : forall s, P (VString s).
Hypothesis Harray : forall l, Forall P l -> P (VArray l).
Hypothesis Hobject :
  forall o, Forall (fun kv : string * value => P (snd kv)) o -> P (VObject o).

Fixpoint value_induction (v : value) : P v :=
  match v with
  | VUndefined => Hundefined
  | VNull => Hnull
  | VBool b => Hbool b
  | VNumber n => Hnumber n
  | VString s => Hstring s
  | VArray l =>
      Harray l
        ((fix all (l : list value) : Forall P l :=
            match l with
            | [] => Forall_nil P
            | x :: l' => Forall_cons x (value_induction x) (all l')
            end) l)
  | VObject o =>
      Hobject o
        ((fix all (o : list (string * value))
            : Forall (fun kv : string * value => P (snd kv)) o :=
            match o with
            | [] => Forall_nil _
            | kv :: o' => Forall_cons kv (value_induction (snd kv)) (all o')
            end) o)
  end.
End ValueInduction.

Lemma onePiece_elementText (v : value) : onePiece (elementText v).
Proof.
  induction v as [| |b|n|s|l IH|o IH] using value_induction;
    unfold elementText; cbn [JSON_stringify].
  - now apply onePiece_plain.
  - now apply onePiece_plain.
  - apply onePiece_plain. now destruct b.
  - apply onePiece_numberToJSON.
  - apply onePiece_QuoteJSONString.
  - apply onePiece_app; [now apply onePiece_plain|].
    apply onePiece_app; [|now apply onePiece_plain].
    apply onePiece_join_comma.
    induction IH as [|x l Hx _ IHl]; cbn [map]; constructor; assumption.
  - apply onePiece_app; [now apply onePiece_plain|].
    apply onePiece_app; [|now apply onePiece_plain].
    apply onePiece_join_comma.
    induction IH as [|[k e] o He _ IHo]; cbn [flat_map]; [constructor|].
    unfold elementText in He. cbn [snd] in He.
    destruct (JSON_stringify e) as [s|]; cbn [app]; [|exact IHo].
    constructor; [|exact IHo].
    apply onePiece_app; [apply onePiece_QuoteJSONString|].
    apply onePiece_app; [now apply onePiece_plain | exact He].
Qed.

Lemma JSON_stringify_nonempty (v : value) (s : string) :
  JSON_stringify v = Some s -> s <> "".
Proof.
  destruct v as [| |b|n|t|l|o]; simpl; intros H;
    try discriminate; injection H as <-; try discriminate.
  - now destruct b.
  - apply numberToJSON_plain.
Qed.

(** *** Cutting a joined string gives the pieces back *)

Lemma scan_join (x : string) (l : list string) (acc : list ascii) :
  Forall onePiece (x :: l) ->
  scan false false acc (join "|" (x :: l))
  = match l with
    | [] => [pieceOf (push x acc)]
    | y :: l' => pieceOf (push x acc) :: scan false false [] (join "|" (y :: l'))
    end.
Proof.
  intros H. inversion H as [|? ? Hx Hl]; subst.
  destruct l as [|y l].
  - change (join "|" [x]) with x.
    rewrite <- (append_empty_r x) at 1. rewrite Hx. reflexivity.
  - change (join "|" (x :: y :: l)) with (x ++ "|" ++ join "|" (y :: l)).
    rewrite Hx. reflexivity.
Qed.

Lemma splitTopLevel_join (x : string) (l : list string) :
  Forall onePiece (x :: l) ->
  splitTopLevel (join "|" (x :: l)) = x :: l.
Proof.
  unfold splitTopLevel. revert x.
  induction l as [|y l IH]; intros x H; rewrite (scan_join _ _ _ H).
  - now rewrite pieceOf_push.
  - rewrite pieceOf_push. f_equal. apply IH. now inversion H.
Qed.

Lemma elementText_nonempty (v : value) : elementText v <> "".
Proof.
  unfold elementText.
  destruct (JSON_stringify v) as [s|] eqn:Hs; [|discriminate].
  exact (JSON_stringify_nonempty v s Hs).
Qed.

Lemma joinElement_defined (v : value) :
  defined v = true -> joinElement (JSON_stringify v) = elementText v.
Proof.
  unfold defined, elementText.
  now destruct (JSON_stringify v).
Qed.

Lemma joinElements_defined (vs : list value) :
  forallb defined vs = true ->
  map joinElement (map JSON_stringify vs) = map elementText vs
  /\ Forall (fun x => x <> "") (map elementText vs)
  /\ Forall onePiece (map elementText vs).
Proof.
  induction vs as [|v vs IH]; cbn [map forallb]; intros H;
    [repeat constructor|].
  apply andb_true_iff in H as [Hv Hvs].
  destruct (IH Hvs) as (IH1 & IH2 & IH3).
  split; [|split].
  - now rewrite IH1, (joinElement_defined v Hv).
  - constructor; [apply elementText_nonempty | exact IH2].
  - constructor; [apply onePiece_elementText | exact IH3].
Qed.

Lemma join_nonempty (x : string) (l : list string) :
  x <> "" -> join "|" (x :: l) <> "".
Proof.
  intros Hx. destruct l as [|y l]; simpl; [exact Hx|].
  destruct x; [now contradiction Hx | discriminate].
Qed.

Lemma elementText_defined_injective (vs ws : list value) :
  forallb defined vs = true ->
  forallb defined ws = true ->
  map elementText vs = map elementText ws ->
  map JSON_stringify vs = map JSON_stringify ws.
Proof.
  revert ws. induction vs as [|v vs IH]; intros [|w ws]; simpl;
    intros Hv Hw Heq; try discriminate; [reflexivity|].
  apply andb_true_iff in Hv as [Hv Hvs], Hw as [Hw Hws].
  injection Heq as Hhd Htl.
  unfold defined in Hv, Hw. unfold elementText in Hhd.
  destruct (JSON_stringify v), (JSON_stringify w); try discriminate.
  subst. f_equal. now apply IH.
Qed.

(** C3 (as amended). [generateFingerprintHash] serialises each value with
    [JSON.stringify] and joins the results with '|', without escaping the
    separator. On lists without a value that serialises to [undefined],
    the joined string determines the list of serialised values: the
    separator occurs in a serialised value only inside a string literal,
    so cutting the joined string at the separators outside string
    literals gives the serialised values back. *)
Theorem fingerprintInput_injective_on_defined (vs ws : list value) :
  forallb defined vs = true ->
  forallb defined ws = true ->
  fingerprintInput vs = fingerprintInput ws ->
  map JSON_stringify vs = map JSON_stringify ws.
Proof.
  intros Hv Hw Heq.
  apply elementText_defined_injective; [exact Hv | exact Hw |].
  destruct (joinElements_defined vs Hv) as (Ev & Nv & Pv).
  destruct (joinElements_defined ws Hw) as (Ew & Nw & Pw).
  unfold fingerprintInput in Heq. rewrite Ev, Ew in Heq.
  destruct (map elementText vs) as [|x xs], (map elementText ws) as [|y ys].
  - reflexivity.
  - exfalso. inversion Nw; subst.
    now apply (join_nonempty y ys).
  - exfalso. inversion Nv; subst.
    now apply (join_nonempty x xs).
  - rewrite <- (splitTopLevel_join x xs Pv), <- (splitTopLevel_join y ys Pw).
    now rewrite Heq.
Qed.

Lemma fingerprintInput_injective_on_defined_witness :
  map JSON_stringify
    [VNumber 1.25; VString "a|b"; VArray [VString "Arial"; VUndefined]]
  = map JSON_stringify
    [VNumber 1.25; VString "a|b"; VArray [VString "Arial"; VNull]].
Proof.
  apply fingerprintInput_injective_on_defined;
    [reflexivity | reflexivity | vm_compute; reflexivity].
Defined.

(** C3 fails as worded. The separator appears verbatim inside the
    serialisation of a string that contains it, and two distinct lists of
    values can be joined to the same string: [undefined] is joined as the
    empty string, and [null] and [NaN] both serialise to null. *)
Lemma fingerprintInput_not_injective :
  hasSeparator (joinElement (JSON_stringify (VString "a|b"))) = true
  /\ ([VUndefined] <> [] /\ fingerprintInput [VUndefined] = fingerprintInput [])
  /\ ([VString "x"; VNull] <> [VString "x"; VNumber nan]
      /\ fingerprintInput [VString "x"; VNull]
         = fingerprintInput [VString "x"; VNumber nan]).
Proof.
  repeat split; try reflexivity; discriminate.
Qed.

End FingerprintFacts.

(** ** Baseline selection *)





(** ** Percents stay in range *)

Lemma get_In {A : Type} (o : object A) (k : string) (v : A) :
  get o k = Some v -> In (k, v) o.
Proof.
  induction o as [|[k' v'] o IH]; simpl; [discriminate|].
  destruct (get o k) as [w|] eqn:Hrest.
  - intros [= <-]. right. now apply IH.
  - destruct (String.eqb k' k) eqn:Hk; [|discriminate].
    intros [= <-]. apply String.eqb_eq in Hk. subst k'. now left.
Qed.

Lemma In_get {A : Type} (o : object A) (k : string) :
  In k (map fst o) -> exists v, get o k = Some v.
Proof.
  induction o as [|[k' v'] o IH]; simpl; [intros []|].
  intros [Hk|Hk].
  - subst k'. destruct (get o k) as [w|]; [now exists w|].
    rewrite String.eqb_refl. now exists v'.
  - destruct (IH Hk) as [w ->]. now exists w.
Qed.

Lemma In_definedKeys {A : Type} (o : object A) (seen : list string) (k : string) :
  In k (definedKeys seen o) -> In k (map fst o).
Proof.
  revert seen. induction o as [|[k' v'] o IH]; simpl; intros seen; [intros []|].
  destruct (existsb (String.eqb k') seen).
  - intros H. right. now apply (IH seen).
  - intros [H|H]; [now left | right; now apply (IH (k' :: seen))].
Qed.

Lemma In_insertIndex (x k : string) (ks : list string) :
  In k (insertIndex x ks) -> k = x \/ In k ks.
Proof.
  induction ks as [|k' ks IH]; simpl.
  - intros [H|[]]. now left.
  - destruct (indexOf x <=? indexOf k')%N; simpl.
    + intros [H|H]; [now left | now right].
    + intros [H|H]; [right; now left|].
      destruct (IH H) as [H'|H']; [now left | right; now right].
Qed.

Lemma In_sortIndices (k : string) (ks : list string) :
  In k (sortIndices ks) -> In k ks.
Proof.
  induction ks as [|x ks IH]; simpl; [intros []|].
  intros H. destruct (In_insertIndex _ _ _ H) as [->|H'].
  - now left.
  - right. now apply IH.
Qed.

Lemma Object_keys_defined {A : Type} (o : object A) (k : string) :
  In k (Object_keys o) -> exists v, get o k = Some v.
Proof.
  unfold Object_keys. intros H.
  apply In_get, (In_definedKeys o []).
  apply in_app_or in H as [H|H].
  - apply In_sortIndices in H. now apply filter_In in H.
  - now apply filter_In in H.
Qed.

Lemma get_inRange (o : object R) (k : string) (p : R) :
  Forall (fun kv : string * R => inRange (snd kv)) o ->
  get o k = Some p -> inRange p.
Proof.
  intros Ho Hk. apply get_In in Hk.
  rewrite Forall_forall in Ho. exact (Ho _ Hk).
Qed.

(** The percent of a result is a percent of the table, in range, unless
    the trimmed value is an inherited name that the table does not
    define: then it is the inherited member. *)
Lemma lookupMarketShare_percent (t : marketTable) (v : string) :
  tableInRange t ->
  (exists p, percent (lookupMarketShare t v) = Stored p /\ inRange p)
  \/ (percent (lookupMarketShare t v) = Inherited (trim v)
      /\ estimated (lookupMarketShare t v) = false
      /\ get (data t) (trim v) = None
      /\ inherited (trim v) = true).
Proof.
  intros [Hdata Hdefault]. unfold lookupMarketShare, read; cbv zeta.
  destruct (get (data t) (trim v)) as [p|] eqn:Hexact.
  - left. exists p. split; [reflexivity|].
    exact (get_inRange _ _ _ Hdata Hexact).
  - destruct (inherited (trim v)) eqn:Hname; [right; now repeat split|].
    left. destruct (find _ _) as [key|] eqn:Hfind; cbn [percent].
    + apply find_some in Hfind as [Hin _].
      destruct (Object_keys_defined _ _ Hin) as [p Hp].
      unfold valueAt. rewrite Hp. exists p. split; [reflexivity|].
      exact (get_inRange _ _ _ Hdata Hp).
    + eexists. split; [reflexivity | exact Hdefault].
Qed.

Lemma lookupMarketShare_inRange (t : marketTable) (v : string) :
  tableInRange t -> inherited (trim v) = false ->
  exists p, percent (lookupMarketShare t v) = Stored p /\ inRange p.
Proof.
  intros Ht Hname.
  destruct (lookupMarketShare_percent t v Ht) as [H|(_ & _ & _ & H)];
    [exact H | congruence].
Qed.

Lemma percentToEntropy_nonneg (p : R) :
  inRange p -> nonNegative (percentToEntropy p).
Proof.
  intros [Hpos Hle]. rewrite percentToEntropy_positive by exact Hpos.
  eexists. split; [reflexivity|].
  apply log2_nonneg.
  apply (Rmult_le_reg_r p); [exact Hpos|].
  unfold Rdiv. rewrite Rmult_assoc, Rinv_l by lra. lra.
Qed.

Lemma percentToOneInX_positive (p : R) :
  0 < p -> percentToOneInX p = Num (100 / p).
Proof.
  intros Hp. unfold percentToOneInX, Number.le, Number.div, ToNumber.
  destruct (Rle_dec p 0) as [H|_]; [lra | reflexivity].
Qed.

(** Adding to NaN, and adding NaN, gives NaN; adding zero changes
    nothing. *)
Lemma add_NaN_r (a : number) : Number.add a NaN = NaN.
Proof. now destruct a. Qed.

Lemma add_0_r (a : number) : Number.add a (Num 0) = a.
Proof. destruct a as [x|]; [cbn; f_equal; lra | reflexivity]. Qed.

Ltac table_in_range :=
  split;
  [ repeat (apply Forall_cons; [unfold inRange; simpl; lra|]); apply Forall_nil
  | unfold inRange, orOne; simpl;
    repeat match goal with
           | |- context [Req_dec_T ?a ?b] => destruct (Req_dec_T a b)
           end; lra ].

Lemma reference_tables_inRange :
  Forall tableInRange
    [ SCREEN_RESOLUTION_DATA; BROWSER_DATA; GPU_DATA; PIXEL_RATIO_DATA;
      DNT_DATA; CPU_CORES_DATA; DEVICE_MEMORY_DATA; AD_BLOCKER_DATA;
      TIMEZONE_DATA; LANGUAGE_DATA; PLATFORM_DATA ].
Proof.
  repeat (apply Forall_cons; [table_in_range|]). apply Forall_nil.
Qed.

Lemma tableInRange_of (t : marketTable) :
  In t [ SCREEN_RESOLUTION_DATA; BROWSER_DATA; GPU_DATA; PIXEL_RATIO_DATA;
         DNT_DATA; CPU_CORES_DATA; DEVICE_MEMORY_DATA; AD_BLOCKER_DATA;
         TIMEZONE_DATA; LANGUAGE_DATA; PLATFORM_DATA ] ->
  tableInRange t.
Proof.
  pose proof reference_tables_inRange as H.
  rewrite Forall_forall in H. exact (H t).
Qed.

Lemma baseline_bits_nonneg :
  Forall (fun entry : string * baselineRecord => 0 <= bits (snd entry))
    BASELINE_ENTROPY.
Proof.
  unfold BASELINE_ENTROPY.
  repeat (apply Forall_cons; [simpl; lra|]). apply Forall_nil.
Qed.

Lemma baseline_nonneg (key : string) : 0 <= bits (baseline key).
Proof.
  unfold baseline.
  destruct (get BASELINE_ENTROPY key) as [r|] eqn:Hkey; [|simpl; lra].
  apply get_In in Hkey.
  pose proof baseline_bits_nonneg as H. rewrite Forall_forall in H.
  exact (H _ Hkey).
Qed.

(** ** The runner *)

Module RunnerFacts.
Import Runner.

Section Generic.
Context {V : Type}.
Variable hash : list V -> string.
Variable tests : object (test V).

(** A successful step adds exactly the selected entropy. *)
Lemma recordSuccess_fields (st : state V) (testName : string) (t : test V)
    (result : Result.t V) :
  let st' := recordSuccess st testName t result in
  totalEntropy st'
  = Number.add (totalEntropy st) (contribution testName (Returned (Some result)))
  /\ successfulTests st' = S (successfulTests st)
  /\ failedTests st' = failedTests st
  /\ fingerprintValues st' = (fingerprintValues st ++ [Result.value result])%list
  /\ map Completed.name (completedTests st')
     = (map Completed.name (completedTests st) ++ [name t])%list.
Proof.
  unfold recordSuccess, contribution.
  destruct (entropyConfig testName result) as [[e src] est].
  destruct (addResultLine _ _ _ _ _ _ _) as [line unique]. simpl.
  rewrite map_app. repeat split; reflexivity.
Qed.

Lemma step_totalEntropy (st : state V) (testName : string) :
  totalEntropy (step tests st testName)
  = Number.add (totalEntropy st)
      match get tests testName with
      | Some t => contribution testName (run t)
      | None => Num 0
      end.
Proof.
  unfold step.
  destruct (get tests testName) as [t|]; [|now rewrite add_0_r].
  destruct (run t) as [|[result|]]; cbn [contribution recordFailure totalEntropy];
    try now rewrite add_0_r.
  apply recordSuccess_fields.
Qed.

Lemma step_fails (st : state V) (testName : string) (t : test V) :
  get tests testName = Some t -> fails t = true ->
  step tests st testName = recordFailure st t.
Proof.
  intros Hget Hfail. unfold step, fails in *. rewrite Hget.
  destruct (run t) as [|[result|]]; [reflexivity | discriminate | reflexivity].
Qed.

(** The loop accounts for every test of its list, in order: the failure
    list and the completed list grow by the failing and by the
    succeeding tests respectively. *)
Lemma loop_accounts (names : list string) (st : state V) :
  failedTests (loop tests names st)
  = (failedTests st ++ namesWhere fails tests names)%list
  /\ map Completed.name (completedTests (loop tests names st))
     = (map Completed.name (completedTests st)
          ++ namesWhere (fun t => negb (fails t)) tests names)%list.
Proof.
  revert st. induction names as [|n names IH]; intros st; simpl.
  - now rewrite !app_nil_r.
  - destruct (IH (step tests st n)) as [IHf IHc].
    unfold loop in *. rewrite IHf, IHc. clear IHf IHc IH.
    unfold step, fails.
    destruct (get tests n) as [t|]; [|now split].
    destruct (run t) as [|[result|]]; simpl;
      try (rewrite <- app_assoc; now split).
    destruct (recordSuccess_fields st n t result) as (_ & _ & Hf & _ & Hc).
    rewrite Hf, Hc, <- app_assoc. now split.
Qed.

Lemma loop_app (pre post : list string) (st : state V) :
  loop tests (pre ++ post) st = loop tests post (loop tests pre st).
Proof. apply fold_left_app. Qed.

(** C7. If the test at some position of [testOrder] throws or returns
    [null] or [undefined], the step only appends the test's display
    name to the failure list: the entropy total, the success count and
    the list of values to hash are untouched. The run then goes on with
    the remaining tests in their order and ends with the report; its
    failure list and its completed list name every test of
    [testOrder], each once and in order. *)
Theorem failing_test_does_not_stop_the_run
    (pre post : list string) (testName : string) (t : test V) :
  testOrder = (pre ++ testName :: post)%list ->
  get tests testName = Some t ->
  fails t = true ->
  let before := loop tests pre initial in
  let after := step tests before testName in
  failedTests after = (failedTests before ++ [name t])%list
  /\ totalEntropy after = totalEntropy before
  /\ successfulTests after = successfulTests before
  /\ fingerprintValues after = fingerprintValues before
  /\ completedTests after = completedTests before
  /\ runExperiment hash tests = finish hash (loop tests post after)
  /\ unableToDetect (ending (runExperiment hash tests))
     = namesWhere fails tests testOrder
  /\ In (name t) (unableToDetect (ending (runExperiment hash tests)))
  /\ map Completed.name (completedTests (loop tests testOrder initial))
     = namesWhere (fun t => negb (fails t)) tests testOrder.
Proof.
  intros Horder Hget Hfail before after.
  assert (Hafter : after = recordFailure before t)
    by (apply step_fails; assumption).
  assert (Hfailed : unableToDetect (ending (runExperiment hash tests))
                    = namesWhere fails tests testOrder).
  { unfold runExperiment, finish, showEndState.
    cbn [ending unableToDetect].
    now rewrite (proj1 (loop_accounts testOrder initial)). }
  split; [now rewrite Hafter|].
  split; [now rewrite Hafter|].
  split; [now rewrite Hafter|].
  split; [now rewrite Hafter|].
  split; [now rewrite Hafter|].
  split; [|split; [exact Hfailed|split]].
  - unfold runExperiment. rewrite Horder, loop_app.
    reflexivity.
  - rewrite Hfailed, Horder. unfold namesWhere.
    rewrite flat_map_app. apply in_or_app. right.
    cbn [flat_map]. rewrite Hget, Hfail. now left.
  - now rewrite (proj2 (loop_accounts testOrder initial)).
Qed.

End Generic.

(** Every name of [testOrder] is a key of [tests]. *)
Lemma testOrder_defined (b : Tests.browser) :
  Forall (fun testName => exists t, get (Tests.tests b) testName = Some t)
    testOrder.
Proof.
  unfold testOrder.
  repeat (apply Forall_cons; [eexists; reflexivity|]). apply Forall_nil.
Qed.

(** On the sample readings the core-count test returns [null] at
    position 8 of [testOrder]. *)
Lemma failing_test_does_not_stop_the_run_witness :
  let tests := Tests.tests sampleBrowser in
  let before :=
    loop tests
      [ "screenResolution"; "pixelRatio"; "timezone"; "language";
        "userAgent"; "platform"; "doNotTrack" ] initial in
  failedTests (step tests before "cpuCores")
  = (failedTests before ++ ["CPU Cores"])%list.
Proof.
  intros tests before.
  refine (proj1 (failing_test_does_not_stop_the_run (fun _ => "") tests
            [ "screenResolution"; "pixelRatio"; "timezone"; "language";
              "userAgent"; "platform"; "doNotTrack" ]
            [ "deviceMemory"; "touchSupport"; "adBlocker"; "connectionType";
              "webgl"; "fonts"; "canvas"; "audio" ]
            "cpuCores"
            (mkTest "CPU Cores" hard "Different device" (Returned None))
            eq_refl eq_refl eq_refl)).
Defined.

Lemma loop_cons {V : Type} (tests : object (test V)) (testName : string)
    (names : list string) (st : state V) :
  loop tests (testName :: names) st = loop tests names (step tests st testName).
Proof. reflexivity. Qed.

(** The total after a loop is the total before it plus the entropy of
    each test, added in order. *)
Lemma loop_totalEntropy {V : Type} (tests : object (test V))
    (names : list string) (st : state V) :
  totalEntropy (loop tests names st)
  = fold_left Number.add (contributions tests names) (totalEntropy st).
Proof.
  revert st. induction names as [|n names IH]; intros st; [reflexivity|].
  rewrite loop_cons, IH, step_totalEntropy. reflexivity.
Qed.

(** Once the total is NaN it stays NaN. *)
Lemma sum_from_NaN (l : list number) : fold_left Number.add l NaN = NaN.
Proof. induction l as [|e l IH]; [reflexivity | exact IH]. Qed.

(** What the first five tests add on the overridden readings. *)
Lemma contributions_before_platform :
  contributions (Tests.tests overriddenBrowser)
    [ "screenResolution"; "pixelRatio"; "timezone"; "language"; "userAgent" ]
  = [ percentToEntropy 23; percentToEntropy 45; percentToEntropy 3;
      percentToEntropy 3; percentToEntropy 3 ].
Proof. reflexivity. Qed.

(** C6 fails on the code. With a platform text that names a member of
    [Object.prototype], here [constructor], the test succeeds: the read
    of the table finds the inherited function, the result is not
    estimated, and its entropy is NaN. The total, a number of at least
    zero after the five tests before it, is NaN after this sixth step,
    which the comparison does not rank at or above the total before; it
    stays NaN to the final reveal. *)
Theorem totalEntropy_is_lost_on_an_inherited_name :
  let tests := Tests.tests overriddenBrowser in
  let before :=
    loop tests
      [ "screenResolution"; "pixelRatio"; "timezone"; "language"; "userAgent" ]
      initial in
  let after := step tests before "platform" in
  percent (lookupMarketShare PLATFORM_DATA "constructor")
  = Inherited "constructor"
  /\ estimated (lookupMarketShare PLATFORM_DATA "constructor") = false
  /\ fails (mkTest "Platform" medium "Browser extension"
              (Tests.run_platform overriddenBrowser)) = false
  /\ contribution "platform" (Tests.run_platform overriddenBrowser) = NaN
  /\ nonNegative (totalEntropy before)
  /\ successfulTests after = S (successfulTests before)
  /\ totalEntropy after = NaN
  /\ Number.ge (totalEntropy after) (totalEntropy before) = false
  /\ (forall hash,
        revealBits (reveal (runExperiment hash tests)) = NaN).
Proof.
  intros tests before after.
  assert (Hbefore : nonNegative (totalEntropy before)).
  { subst before. rewrite loop_totalEntropy.
    subst tests. rewrite contributions_before_platform.
    rewrite !percentToEntropy_positive by lra.
    cbn [fold_left initial totalEntropy Number.add].
    eexists. split; [reflexivity|].
    assert (H23 : 0 <= log2 (100 / 23)) by (apply log2_nonneg; lra).
    assert (H45 : 0 <= log2 (100 / 45)) by (apply log2_nonneg; lra).
    assert (H3 : 0 <= log2 (100 / 3)) by (apply log2_nonneg; lra).
    lra. }
  assert (Hafter : totalEntropy after = NaN).
  { subst after. rewrite step_totalEntropy.
    change (get tests "platform")
      with (Some (mkTest "Platform" medium "Browser extension"
                    (Tests.run_platform overriddenBrowser))).
    change (contribution "platform"
              (run (mkTest "Platform" medium "Browser extension"
                      (Tests.run_platform overriddenBrowser))))
      with NaN.
    apply add_NaN_r. }
  repeat split; try reflexivity; try assumption.
  - now rewrite Hafter.
  - intros hash. unfold runExperiment, finish, showFinalReveal.
    cbn [reveal revealBits].
    change testOrder
      with ([ "screenResolution"; "pixelRatio"; "timezone"; "language";
              "userAgent" ]
            ++ "platform"
               :: [ "doNotTrack"; "cpuCores"; "deviceMemory"; "touchSupport";
                    "adBlocker"; "connectionType"; "webgl"; "fonts"; "canvas";
                    "audio" ])%list.
    rewrite loop_app, loop_cons. fold before. fold after.
    rewrite loop_totalEntropy, Hafter. apply sum_from_NaN.
Qed.

(** C10. With a WebGL context but without the debug-renderer extension
    the webgl test contributes half the renderer baseline, 3.41 x 0.5 =
    1.705 bits, marked estimated; with the extension and a renderer that
    misses the GPU table it contributes the renderer baseline plus the
    vendor baseline, 3.41 + 1.82 bits, marked estimated. *)
Theorem webgl_degraded_confidence (b : Tests.browser) (gl : Tests.webglReading) :
  Tests.webglContext b = Some gl ->
  (Tests.debugInfo gl = None ->
     contribution "webgl" (Tests.run_webgl b)
     = bits (baseline "webglRenderer") * 0.5
     /\ bits (baseline "webglRenderer") * 0.5 = 1.705
     /\ markedEstimated "webgl" (Tests.run_webgl b) = true)
  /\ (forall vendor renderer,
        Tests.debugInfo gl = Some (vendor, Some renderer) ->
        estimated (lookupMarketShare GPU_DATA renderer) = true ->
        contribution "webgl" (Tests.run_webgl b)
        = bits (baseline "webglRenderer") + bits (baseline "webglVendor")
        /\ bits (baseline "webglRenderer") + bits (baseline "webglVendor")
           = 3.41 + 1.82
        /\ markedEstimated "webgl" (Tests.run_webgl b) = true).
Proof.
  intros Hgl. unfold Tests.run_webgl. rewrite Hgl. split.
  - intros Hdebug. rewrite Hdebug.
    split; [reflexivity | split; [simpl; lra | reflexivity]].
  - intros vendor renderer Hdebug Hmiss. rewrite Hdebug, Hmiss.
    split; [reflexivity | split; [simpl; lra | reflexivity]].
Qed.

Lemma webgl_degraded_confidence_witness :
  contribution "webgl" (Tests.run_webgl sampleBrowser)
  = bits (baseline "webglRenderer") * 0.5
  /\ bits (baseline "webglRenderer") * 0.5 = 1.705
  /\ markedEstimated "webgl" (Tests.run_webgl sampleBrowser) = true.
Proof.
  apply (proj1 (webgl_degraded_confidence sampleBrowser
                  (Tests.mkWebgl (Tests.DString "WebKit WebGL") None)
                  eq_refl)).
  reflexivity.
Defined.

(** ** Display of the anonymity set *)

Lemma formatNumber_of_number (x : R) :
  formatNumber x
  = mkFormatted
      (if Rge_dec x 1e12 then Trillion (x / 1e12)
       else if Rge_dec x 1e9 then Billion (x / 1e9)
       else if Rge_dec x 1e6 then Million (x / 1e6)
       else if Rge_dec x 1e3 then Grouped x
       else Plain x)
      (if Rge_dec x WORLD_POPULATION then true else false) x.
Proof.
  unfold formatNumber, Number.ge, Number.div.
  destruct (Rge_dec x WORLD_POPULATION);
    destruct (Rge_dec x 1e12); try reflexivity;
    destruct (Rge_dec x 1e9); try reflexivity;
    destruct (Rge_dec x 1e6); try reflexivity;
    destruct (Rge_dec x 1e3); reflexivity.
Qed.

Lemma formatNumber_of_NaN : formatNumber NaN = mkFormatted (Plain NaN) false NaN.
Proof. reflexivity. Qed.

Lemma denoted_formatNumber (num : number) :
  denoted (text (formatNumber num)) = num.
Proof.
  destruct num as [x|]; [|reflexivity].
  rewrite formatNumber_of_number. cbn [text].
  destruct (Rge_dec x 1e12); [cbn; f_equal; field|].
  destruct (Rge_dec x 1e9); [cbn; f_equal; field|].
  destruct (Rge_dec x 1e6); [cbn; f_equal; field|].
  destruct (Rge_dec x 1e3); reflexivity.
Qed.

Lemma Rpower_2_increasing (x y : R) : x <= y -> Rpower 2 x <= Rpower 2 y.
Proof. intros H. apply Rle_Rpower; lra. Qed.

Lemma Rpower_2_nat (n : nat) : Rpower 2 (INR n) = 2 ^ n.
Proof. apply Rpower_pow. lra. Qed.

Lemma entropyToUniqueness_40 : entropyToUniqueness 40 = 1099511627776.
Proof.
  replace 40 with (INR 40) by (rewrite INR_IZR_INZ; reflexivity).
  unfold entropyToUniqueness, Number.Math_pow2.
  rewrite Rpower_2_nat, pow_IZR. do 2 apply f_equal. reflexivity.
Qed.

Lemma Rpower_2_34 : Rpower 2 34 = 17179869184.
Proof.
  replace 34 with (INR 34) by (rewrite INR_IZR_INZ; reflexivity).
  rewrite Rpower_2_nat, pow_IZR. apply f_equal. reflexivity.
Qed.

Lemma shownSize_addResultLine (e x : number) (src : option string)
    (est : bool) (totalBits : number) (first was : bool) :
  shownSize (fst (addResultLine e x src est totalBits first was))
  = entropyToUniqueness totalBits.
Proof.
  unfold shownSize, addResultLine. cbn [fst count].
  destruct (isUnique _ && negb was); [apply denoted_formatNumber|].
  destruct (isUnique _); [apply denoted_formatNumber|].
  destruct first; apply denoted_formatNumber.
Qed.

(** The line a successful step appends shows two to the power of the
    new total. *)
Lemma recordSuccess_line {V : Type} (st : state V) (testName : string)
    (t : test V) (result : Result.t V) :
  exists line,
    resultLines (recordSuccess st testName t result)
    = (resultLines st ++ [line])%list
    /\ shownSize line
       = entropyToUniqueness (totalEntropy (recordSuccess st testName t result)).
Proof.
  unfold recordSuccess.
  destruct (entropyConfig testName result) as [[e src] est].
  pose proof (shownSize_addResultLine e (oneInXOf result e) src est
                (Number.add (totalEntropy st) e)
                (Nat.eqb (S (successfulTests st)) 1) (alreadyUnique st)) as H.
  destruct (addResultLine _ _ _ _ _ _ _) as [line unique].
  exists line. cbn [resultLines totalEntropy]. split; [reflexivity | exact H].
Qed.

(** The sums of [showEndState] are numbers: [t.entropy || 0] replaces a
    NaN by zero. *)
Lemma sumEntropy_number (l : list Completed.t) :
  exists x, sumEntropy l = Num x.
Proof.
  unfold sumEntropy. generalize 0 at 2.
  induction l as [|t l IH]; intros a; [now exists a|].
  cbn [fold_left]. unfold Number.or at 2.
  destruct (Number.truthy (Completed.entropy t)) eqn:Ht.
  - destruct (Completed.entropy t) as [e|]; [apply IH | discriminate].
  - apply IH.
Qed.

(** The figures of the end state are capped. *)
Lemma capped_figure (bits : R) :
  exists x,
    raw (formatNumber (Number.Math_min (Number.Math_pow2 bits)
                         WORLD_POPULATION)) = Num x
    /\ x <= WORLD_POPULATION.
Proof.
  cbn [Number.Math_pow2 Number.Math_min].
  rewrite formatNumber_of_number. cbn [raw].
  eexists. split; [reflexivity | apply Rmin_r].
Qed.

Lemma showEndState_capped (n : nat) (failed : list string)
    (completed : list Completed.t) :
  let e := showEndState n failed completed in
  exists a b c,
    raw (easyPotential e) = Num a /\ a <= WORLD_POPULATION
    /\ raw (easyMediumPotential e) = Num b /\ b <= WORLD_POPULATION
    /\ raw (hardOnlyFormatted e) = Num c /\ c <= WORLD_POPULATION.
Proof.
  unfold showEndState. cbv zeta.
  cbn [easyPotential easyMediumPotential hardOnlyFormatted].
  destruct (sumEntropy_number completed) as [total ->].
  destruct (sumEntropy_number (filter (hasDifficulty easy) completed))
    as [easyBits ->].
  destruct (sumEntropy_number (filter (hasDifficulty medium) completed))
    as [mediumBits ->].
  destruct (sumEntropy_number (filter (hasDifficulty hard) completed))
    as [hardBits ->].
  cbn [Number.sub Number.add].
  destruct (capped_figure (total - easyBits)) as (a & Ha & Hale).
  destruct (capped_figure (total - (easyBits + mediumBits))) as (b & Hb & Hble).
  destruct (capped_figure hardBits) as (c & Hc & Hcle).
  exists a, b, c. repeat split; assumption.
Qed.

(** What the sixteen tests add on the sample readings. *)
Lemma contributions_of_sample :
  contributions (Tests.tests sampleBrowser) testOrder
  = [ percentToEntropy 23; percentToEntropy 45; percentToEntropy 3;
      percentToEntropy 3; percentToEntropy 3; percentToEntropy 70;
      percentToEntropy 77; Num 0; percentToEntropy 45; Num 1;
      percentToEntropy 58; Num 1.5; Num (3.41 * 0.5); Num 6.97; Num 8.04;
      Num 10 ].
Proof. reflexivity. Qed.

Lemma log2_of_a_thirtieth : 5 <= log2 (100 / 3).
Proof.
  assert (H : log2 32 = 5).
  { replace 32 with (2 ^ 5) by lra. rewrite log2_pow2. simpl. lra. }
  rewrite <- H. unfold log2.
  apply Rmult_le_compat_r.
  - left. apply Rinv_0_lt_compat, ln_2_pos.
  - left. apply ln_increasing; lra.
Qed.

(** The run on the sample readings ends above 34 bits. *)
Lemma sample_total :
  exists x,
    totalEntropy (loop (Tests.tests sampleBrowser) testOrder initial) = Num x
    /\ 34 <= x.
Proof.
  rewrite loop_totalEntropy, contributions_of_sample.
  rewrite !percentToEntropy_positive by lra.
  cbn [fold_left initial totalEntropy Number.add].
  eexists. split; [reflexivity|].
  assert (H23 : 0 <= log2 (100 / 23)) by (apply log2_nonneg; lra).
  assert (H45 : 0 <= log2 (100 / 45)) by (apply log2_nonneg; lra).
  assert (H70 : 0 <= log2 (100 / 70)) by (apply log2_nonneg; lra).
  assert (H77 : 0 <= log2 (100 / 77)) by (apply log2_nonneg; lra).
  assert (H58 : 0 <= log2 (100 / 58)) by (apply log2_nonneg; lra).
  pose proof log2_of_a_thirtieth. lra.
Qed.

(** C1 fails on the code. The size a result line shows is not capped:
    at a total of 40 bits every line shows 2^40 = 1 099 511 627 776, in
    trillions, which is not the minimum of that size and
    [WORLD_POPULATION]; and in the run on the sample readings the last
    line shows a size above [WORLD_POPULATION]. The figures of the
    end-state report are capped: none exceeds [WORLD_POPULATION]. The
    total itself is never capped: a step adds exactly the entropy of
    its test. *)
Theorem display_is_not_capped_at_40_bits :
  Number.ge (entropyToUniqueness 40) WORLD_POPULATION = true
  /\ (forall e x src est first was,
        let line := fst (addResultLine e x src est 40 first was) in
        shownSize line = 1099511627776
        /\ shownSize line
           <> Number.Math_min (entropyToUniqueness 40) WORLD_POPULATION
        /\ countText (count line) = Trillion (1099511627776 / 1e12)
        /\ snd (addResultLine e x src est 40 first was) = true)
  /\ ~ displayCapped 40
  /\ (forall hash,
        exists lines line x,
          shown (runExperiment hash (Tests.tests sampleBrowser))
          = (lines ++ [line])%list
          /\ shownSize line = Num x
          /\ WORLD_POPULATION < x)
  /\ (forall n failed completed,
        let e := showEndState n failed completed in
        exists a b c,
          raw (easyPotential e) = Num a /\ a <= WORLD_POPULATION
          /\ raw (easyMediumPotential e) = Num b /\ b <= WORLD_POPULATION
          /\ raw (hardOnlyFormatted e) = Num c /\ c <= WORLD_POPULATION)
  /\ (forall (V : Type) (tests : object (test V)) (st : state V) testName,
        totalEntropy (step tests st testName)
        = Number.add (totalEntropy st)
            match get tests testName with
            | Some t => contribution testName (run t)
            | None => Num 0
            end).
Proof.
  assert (Hcross : Number.ge (entropyToUniqueness 40) WORLD_POPULATION = true).
  { rewrite entropyToUniqueness_40. unfold Number.ge, WORLD_POPULATION.
    destruct (Rge_dec _ _) as [_|H]; [reflexivity | lra]. }
  assert (Hshown : forall e x src est first was,
             shownSize (fst (addResultLine e x src est 40 first was))
             = 1099511627776).
  { intros. now rewrite shownSize_addResultLine, entropyToUniqueness_40. }
  assert (Hmin : Num 1099511627776
                 <> Number.Math_min (entropyToUniqueness 40) WORLD_POPULATION).
  { rewrite entropyToUniqueness_40. cbn [Number.Math_min].
    intros [= H]. revert H. unfold WORLD_POPULATION, Rmin.
    destruct (Rle_dec _ _); lra. }
  split; [exact Hcross|]. split; [|split; [|split; [|split]]].
  - intros e x src est first was line. subst line.
    split; [apply Hshown|]. split; [now rewrite Hshown|].
    unfold addResultLine. cbn [fst snd count].
    rewrite entropyToUniqueness_40, formatNumber_of_number.
    cbn [isUnique text]. unfold WORLD_POPULATION.
    destruct (Rge_dec 1099511627776 8.3e9) as [_|H]; [|lra].
    destruct (Rge_dec 1099511627776 1e12) as [_|H]; [|lra].
    split; [|reflexivity].
    destruct was, first; reflexivity.
  - intros H. specialize (H Hcross (Num 10) (Num 1024) None true false false).
    rewrite Hshown in H. exact (Hmin H).
  - intros hash. unfold runExperiment, finish. cbn [shown].
    destruct sample_total as (x & Hx & Hle).
    revert Hx.
    change testOrder
      with ([ "screenResolution"; "pixelRatio"; "timezone"; "language";
              "userAgent"; "platform"; "doNotTrack"; "cpuCores";
              "deviceMemory"; "touchSupport"; "adBlocker"; "connectionType";
              "webgl"; "fonts"; "canvas" ] ++ ["audio"])%list.
    rewrite loop_app.
    set (st := loop (Tests.tests sampleBrowser) _ initial).
    change (loop (Tests.tests sampleBrowser) ["audio"] st)
      with (recordSuccess st "audio"
              (mkTest "Audio Fingerprint" hard
                 "Different browser/audio hardware, or disable via extension"
                 (Tests.run_audio sampleBrowser))
              (Result.make
                 (Tests.DNumber
                    (JSNumber.Math_round (35.7 * 10000) / 10000)%float)
                 (Some (Tests.baselineLookup (baseline "audio"))) None)).
    intros Hx.
    destruct (recordSuccess_line st "audio"
                (mkTest "Audio Fingerprint" hard
                   "Different browser/audio hardware, or disable via extension"
                   (Tests.run_audio sampleBrowser))
                (Result.make
                   (Tests.DNumber
                      (JSNumber.Math_round (35.7 * 10000) / 10000)%float)
                   (Some (Tests.baselineLookup (baseline "audio"))) None))
      as (line & Hlines & Hsize).
    exists (resultLines st), line, (Rpower 2 x).
    split; [exact Hlines|]. rewrite Hsize, Hx.
    split; [reflexivity|].
    pose proof (Rpower_2_increasing 34 x Hle) as Hp.
    rewrite Rpower_2_34 in Hp. unfold WORLD_POPULATION. lra.
  - apply showEndState_capped.
  - intros V tests st testName. apply step_totalEntropy.
Qed.

End RunnerFacts.

(* ------------------------------------------------------------------ *)
(** * Further properties of the code *)

(** ** Entropy arithmetic, continued *)

Module EntropyFacts.

Lemma two_pow_32 : Rpower 2 32 = 4294967296.
Proof.
  replace 32 with (INR 32) by (rewrite INR_IZR_INZ; reflexivity).
  rewrite RunnerFacts.Rpower_2_nat, pow_IZR. apply f_equal. reflexivity.
Qed.

Lemma two_pow_33 : Rpower 2 33 = 8589934592.
Proof.
  replace 33 with (INR 33) by (rewrite INR_IZR_INZ; reflexivity).
  rewrite RunnerFacts.Rpower_2_nat, pow_IZR. apply f_equal. reflexivity.
Qed.

(** X3. The uniqueness flag of [formatNumber] on an anonymity set: every
    total of at least 33 bits is flagged unique and shown in billions or
    trillions, and no total of at most 32 bits is. *)
Theorem uniqueness_threshold (totalBits : R) :
  (33 <= totalBits ->
     isUnique (formatNumber (entropyToUniqueness totalBits)) = true
     /\ (exists x, text (formatNumber (entropyToUniqueness totalBits)) = Billion x
                   \/ text (formatNumber (entropyToUniqueness totalBits)) = Trillion x))
  /\ (totalBits <= 32 ->
      isUnique (formatNumber (entropyToUniqueness totalBits)) = false).
Proof.
  unfold entropyToUniqueness. cbn [Number.Math_pow2].
  rewrite RunnerFacts.formatNumber_of_number. cbn [isUnique text].
  split; intros H.
  - pose proof (RunnerFacts.Rpower_2_increasing _ _ H) as Hm.
    rewrite two_pow_33 in Hm.
    destruct (Rge_dec _ WORLD_POPULATION) as [_|Hn];
      [|unfold WORLD_POPULATION in Hn; lra].
    split; [reflexivity|].
    destruct (Rge_dec _ 1e12); [eexists; right; reflexivity|].
    destruct (Rge_dec _ 1e9) as [_|Hn]; [eexists; left; reflexivity | lra].
  - pose proof (RunnerFacts.Rpower_2_increasing _ _ H) as Hm.
    rewrite two_pow_32 in Hm.
    destruct (Rge_dec _ WORLD_POPULATION) as [Hu|_]; [|reflexivity].
    unfold WORLD_POPULATION in Hu. lra.
Qed.

Lemma uniqueness_threshold_witness :
  isUnique (formatNumber (entropyToUniqueness 40)) = true
  /\ isUnique (formatNumber (entropyToUniqueness 13.84)) = false.
Proof.
  split.
  - apply (proj1 (uniqueness_threshold 40)). lra.
  - apply (proj2 (uniqueness_threshold 13.84)). lra.
Defined.

End EntropyFacts.

(** ** Lookup, continued *)

Module LookupFacts.

(** X4. White space around the value never changes the lookup: the
    result for a value is the result for its trimmed form, and a leading
    white-space character can be dropped. *)
Theorem lookupMarketShare_ignores_surrounding_space
    (t : marketTable) (v : string) :
  lookupMarketShare t (trim v) = lookupMarketShare t v
  /\ (forall c, isWhiteSpace c = true ->
        lookupMarketShare t (String c v) = lookupMarketShare t v).
Proof.
  unfold lookupMarketShare; cbv zeta. split.
  - now rewrite trim_idempotent.
  - intros c Hc. now rewrite (trimStart_whitespace c v Hc).
Qed.

(** X5. What a result can carry. A result that is not estimated carries
    the percent the table gives to one of its own keys, and that key
    equals the trimmed value, contains it or is contained in it; or,
    when the trimmed value is a name inherited from [Object.prototype]
    that the table does not define, it carries the inherited member. An
    estimated result carries [defaultPercent || 1.0]; then the read of
    the trimmed value finds nothing and no key of the table matches
    it. *)
Theorem lookupMarketShare_result_origin (t : marketTable) (v : string) :
  if estimated (lookupMarketShare t v)
  then percent (lookupMarketShare t v) = orOne (defaultPercent t)
       /\ read (data t) (trim v) = None
       /\ (forall key, In key (Object_keys (data t)) ->
             partialMatch (trim v) key = false)
  else (exists key p,
          get (data t) key = Some p
          /\ percent (lookupMarketShare t v) = Stored p
          /\ (key = trim v \/ partialMatch (trim v) key = true))
       \/ (get (data t) (trim v) = None
           /\ inherited (trim v) = true
           /\ percent (lookupMarketShare t v) = Inherited (trim v)).
Proof.
  unfold lookupMarketShare, read; cbv zeta.
  destruct (get (data t) (trim v)) as [p|] eqn:Hexact.
  - cbn [estimated percent]. left. exists (trim v), p.
    split; [exact Hexact | split; [reflexivity | now left]].
  - destruct (inherited (trim v)) eqn:Hname.
    + cbn [estimated percent]. right. now repeat split.
    + destruct (find _ _) as [key|] eqn:Hfind; cbn [estimated percent].
      * apply find_some in Hfind as [Hin Hmatch].
        destruct (Object_keys_defined _ _ Hin) as [p Hp].
        left. exists key, p. unfold valueAt. rewrite Hp.
        split; [reflexivity | split; [reflexivity | now right]].
      * split; [reflexivity|]. split; [reflexivity|].
        intros key Hin. exact (find_none _ _ Hfind key Hin).
Qed.

(** No key of a reference table is a name inherited from
    [Object.prototype]. *)
Lemma reference_keys_are_own (t : marketTable) (k : string) (p : R) :
  In t referenceTables -> get (data t) k = Some p -> inherited k = false.
Proof.
  intros Ht Hk. apply get_In in Hk.
  assert (H : Forall (fun t => Forall (fun kv : string * R =>
                                         inherited (fst kv) = false) (data t))
                referenceTables).
  { repeat (apply Forall_cons;
            [repeat (apply Forall_cons; [reflexivity|]); apply Forall_nil|]).
    apply Forall_nil. }
  rewrite Forall_forall in H. specialize (H t Ht).
  rewrite Forall_forall in H. exact (H _ Hk).
Qed.

(** X6. On every reference table of the program: for a value whose
    trimmed form is not a name inherited from [Object.prototype], the
    percent returned is a number in (0, 100], the entropy derived from
    it is a number that is not negative and the 1 in X figure is a
    number of at least 1; for a value whose trimmed form is such a
    name, the result is the inherited member, not estimated, and both
    figures derived from it are NaN. *)
Theorem reference_lookups_are_percentages (v : string) :
  Forall (fun t =>
            if inherited (trim v)
            then percent (lookupMarketShare t v) = Inherited (trim v)
                 /\ estimated (lookupMarketShare t v) = false
                 /\ percentToEntropy (percent (lookupMarketShare t v)) = NaN
                 /\ percentToOneInX (percent (lookupMarketShare t v)) = NaN
            else exists p,
                   percent (lookupMarketShare t v) = Stored p
                   /\ 0 < p <= 100
                   /\ nonNegative (percentToEntropy p)
                   /\ exists x, percentToOneInX p = Num x /\ 1 <= x)
    referenceTables.
Proof.
  apply Forall_forall. intros t Ht.
  destruct (inherited (trim v)) eqn:Hname.
  - destruct (lookupMarketShare_percent t v (tableInRange_of t Ht))
      as [(p & Hp & _)|(Hp & Hest & _)].
    + exfalso. revert Hp. unfold lookupMarketShare, read; cbv zeta.
      destruct (get (data t) (trim v)) as [q|] eqn:Hexact.
      * pose proof (reference_keys_are_own t _ _ Ht Hexact). congruence.
      * rewrite Hname. discriminate.
    + rewrite Hp. repeat split; assumption.
  - destruct (lookupMarketShare_inRange t v (tableInRange_of t Ht) Hname)
      as (p & Hp & Hr).
    exists p. split; [exact Hp|]. split; [exact Hr|].
    split; [now apply percentToEntropy_nonneg|].
    destruct Hr as [Hpos Hle].
    rewrite percentToOneInX_positive by exact Hpos.
    eexists. split; [reflexivity|].
    apply (Rmult_le_reg_r p); [exact Hpos|].
    unfold Rdiv. rewrite Rmult_assoc, Rinv_l by lra. lra.
Qed.

End LookupFacts.

(** ** Pixel-ratio analysis, continued *)

Module PixelRatioInvariants.
Import JSNumber PixelRatio.
Local Open Scope float_scope.

Lemma In_insertMatch (a x : candidate) (l : list candidate) :
  In x (insertMatch a l) -> x = a \/ In x l.
Proof.
  induction l as [|b l IH]; simpl.
  - intros [H|[]]. now left.
  - destruct (0 <? compareMatches a b); simpl.
    + intros [H|H]; [right; now left|].
      destruct (IH H) as [H'|H']; [now left | right; now right].
    + intros [H|[H|H]]; [now left | right; now left | right; now right].
Qed.

Lemma In_sortMatches (x : candidate) (l : list candidate) :
  In x (sortMatches l) -> In x l.
Proof.
  induction l as [|a l IH]; simpl; [intros []|].
  intros H. destruct (In_insertMatch _ _ _ H) as [->|H'].
  - now left.
  - right. now apply IH.
Qed.

Lemma In_collectMatches (x : candidate) (displayed : float) :
  In x (collectMatches displayed) ->
  exists baseDPR zoom percent,
    In baseDPR knownDPRs /\ In (zoom, percent) commonZoomLevels
    /\ (percent =? 100) = false
    /\ (abs (displayed - baseDPR * zoom) <? tolerance) = true
    /\ x = mkCandidate
             (mkAnalysis displayed baseDPR percent true medium
                (String_number baseDPR))
             (abs (displayed - baseDPR * zoom)).
Proof.
  unfold collectMatches. intros H.
  apply in_flat_map in H as (baseDPR & Hbase & H).
  apply in_flat_map in H as ([zoom percent] & Hzoom & H).
  exists baseDPR, zoom, percent.
  destruct (percent =? 100) eqn:Hp; [destruct H|].
  destruct (abs (displayed - baseDPR * zoom) <? tolerance) eqn:Hd;
    [|destruct H].
  destruct H as [<-|[]]. repeat split; assumption.
Qed.

(** The three ways [analyzePixelRatio] can answer. *)
Ltac fields :=
  cbn [displayRatio trueDPR zoomPercent isZoomed confidence matchedBucket found].

Lemma analyzePixelRatio_cases (ratio : float) :
  let displayed := Math_round (ratio * 1000) / 1000 in
  let a := analyzePixelRatio ratio in
  displayRatio a = displayed
  /\ In (trueDPR a) knownDPRs
  /\ matchedBucket a = String_number (trueDPR a)
  /\ ((confidence a = high /\ isZoomed a = false /\ zoomPercent a = 100
       /\ (abs (displayed - trueDPR a) <? tolerance) = true)
      \/ (confidence a = medium /\ isZoomed a = true
          /\ exists zoom, In (zoom, zoomPercent a) commonZoomLevels
               /\ (zoomPercent a =? 100) = false
               /\ (abs (displayed - trueDPR a * zoom) <? tolerance) = true)
      \/ (confidence a = low /\ isZoomed a = true /\ trueDPR a = 1
          /\ zoomPercent a = Math_round (displayed * 100)
          /\ collectMatches displayed = [])).
Proof.
  intros displayed a. subst a. unfold analyzePixelRatio. fold displayed.
  destruct (find _ knownDPRs) as [baseDPR|] eqn:Hfind.
  - apply find_some in Hfind as [Hin Hclose]. fields.
    split; [reflexivity|]. split; [exact Hin|]. split; [reflexivity|].
    left. repeat split. exact Hclose.
  - destruct (sortMatches (collectMatches displayed)) as [|best rest] eqn:Hsort.
    + fields.
      split; [reflexivity|]. split; [now left|].
      split; [vm_compute; reflexivity|].
      right; right. repeat split.
      destruct (collectMatches displayed) as [|c l]; [reflexivity|].
      exfalso. simpl in Hsort.
      destruct (sortMatches l); simpl in Hsort; [discriminate|].
      destruct (0 <? compareMatches c c0); discriminate.
    + assert (Hbest : In best (collectMatches displayed)).
      { apply In_sortMatches. rewrite Hsort. now left. }
      apply In_collectMatches in Hbest
        as (baseDPR & zoom & percent & Hb & Hz & Hp & Hd & ->).
      fields.
      split; [reflexivity|]. split; [exact Hb|]. split; [reflexivity|].
      right; left. repeat split. exists zoom. repeat split; assumption.
Qed.

Lemma matchedBucket_known (ratio : float) :
  In (matchedBucket (analyzePixelRatio ratio))
    ["1"; "1.25"; "1.5"; "2"; "2.5"; "3"]%string.
Proof.
  destruct (analyzePixelRatio_cases ratio) as (_ & Hin & Hbucket & _).
  cbv zeta in Hin, Hbucket. rewrite Hbucket.
  change (In (String_number (trueDPR (analyzePixelRatio ratio)))
            (map String_number knownDPRs)).
  now apply in_map.
Qed.

(** X7. Whatever the reading, the result of [analyzePixelRatio] is
    coherent: its base ratio is one of the six known ratios, its bucket is
    the text of that base ratio, it is flagged as zoomed exactly when the
    confidence is not high, and a high-confidence result reports 100
    percent. *)
Theorem analyzePixelRatio_coherent (ratio : float) :
  let a := analyzePixelRatio ratio in
  In (trueDPR a) knownDPRs
  /\ matchedBucket a = String_number (trueDPR a)
  /\ In (matchedBucket a) ["1"; "1.25"; "1.5"; "2"; "2.5"; "3"]%string
  /\ (isZoomed a = false <-> confidence a = high)
  /\ (confidence a = high -> zoomPercent a = 100)
  /\ (confidence a = low -> trueDPR a = 1).
Proof.
  intros a.
  destruct (analyzePixelRatio_cases ratio) as (_ & Hin & Hbucket & Hcases).
  fold a in Hin, Hbucket, Hcases.
  split; [exact Hin|]. split; [exact Hbucket|]. split.
  - apply matchedBucket_known.
  - destruct Hcases as [(Hc & Hz & Hp & _)|[(Hc & Hz & _)|(Hc & Hz & Hd & _)]];
      rewrite Hc, Hz; repeat split; intros; try discriminate; assumption.
Qed.

(** X8. A reading that is the product of a known ratio and a common zoom
    level is always recognised: the confidence is high or medium, never
    low, and a medium answer never proposes a base ratio above the one
    the reading was built from. *)
Theorem known_products_are_recognised :
  forall baseDPR zoom percent,
    In baseDPR knownDPRs -> In (zoom, percent) commonZoomLevels ->
    let a := analyzePixelRatio (baseDPR * zoom) in
    confidence a <> low
    /\ (confidence a = medium -> (trueDPR a <=? baseDPR) = true).
Proof.
  intros baseDPR zoom percent Hb Hz a.
  assert (Hall : forallb (fun d =>
                   forallb (fun zp : float * float => recognised d (fst zp))
                     commonZoomLevels) knownDPRs = true)
    by (vm_compute; reflexivity).
  rewrite forallb_forall in Hall. specialize (Hall _ Hb).
  rewrite forallb_forall in Hall. specialize (Hall _ Hz).
  unfold recognised in Hall. cbn [fst] in Hall. fold a in Hall.
  destruct (confidence a); split; intros; try discriminate; assumption.
Qed.

Lemma known_products_are_recognised_witness :
  confidence (analyzePixelRatio (1.5 * 0.8)) <> low
  /\ (confidence (analyzePixelRatio (1.5 * 0.8)) = medium ->
      (trueDPR (analyzePixelRatio (1.5 * 0.8)) <=? 1.5) = true).
Proof.
  apply (known_products_are_recognised 1.5 0.8 80); simpl; tauto.
Defined.

End PixelRatioInvariants.

(** ** The tests contribute non-negative entropy *)

Module TestsFacts.
Import Tests.

(** A key that begins with a digit is not a name inherited from
    [Object.prototype], trimmed or not. *)
Lemma digit_head_not_inherited (c : ascii) (s : string) :
  isDigit c = true -> inherited (trim (String c s)) = false.
Proof.
  intros Hc.
  assert (Hw : isWhiteSpace c = false)
    by (destruct c as [[|] [|] [|] [|] [|] [|] [|] [|]];
        first [discriminate Hc | reflexivity]).
  destruct (trim_keeps_head c s Hw) as [r ->].
  destruct c as [[|] [|] [|] [|] [|] [|] [|] [|]];
    first [discriminate Hc | reflexivity].
Qed.

Lemma string_of_uint_head (d : Decimal.uint) :
  d <> Decimal.Nil ->
  exists c s, NilEmpty.string_of_uint d = String c s /\ isDigit c = true.
Proof.
  destruct d; intros H; try (now contradiction H);
    eexists; eexists; (split; [reflexivity | reflexivity]).
Qed.

Lemma to_uint_nonnil (n : N) : N.to_uint n <> Decimal.Nil.
Proof.
  destruct n as [|q]; [discriminate|].
  apply DecimalPos.Unsigned.to_uint_nonnil.
Qed.

Lemma String_count_head (n : N) :
  exists c s, String_count n = String c s /\ isDigit c = true.
Proof. apply string_of_uint_head, to_uint_nonnil. Qed.

Lemma String_number_head (x : float) :
  exists c s, JSNumber.String_number x = String c s /\ isDigit c = true.
Proof.
  unfold JSNumber.String_number.
  destruct (Prim2SF (x * 100)) as [neg|neg| |[|] m e];
    try (exists "0"%char, ""; split; reflexivity).
  cbv zeta.
  destruct (String_count_head
              (Z.to_N (if (0 <=? e)%Z then Z.pos m * 2 ^ e
                       else Z.pos m / 2 ^ (- e)) / 100)) as (c & s & Hs & Hc).
  unfold String_count in Hs. rewrite Hs.
  destruct (_ =? 0)%N; [now exists c, s|].
  destruct (_ =? 0)%N; eexists; eexists; (split; [reflexivity | exact Hc]).
Qed.

Lemma number_not_inherited (x : float) :
  inherited (trim (JSNumber.String_number x)) = false.
Proof.
  destruct (String_number_head x) as (c & s & -> & Hc).
  now apply digit_head_not_inherited.
Qed.

Lemma resolution_not_inherited (width height : float) :
  inherited (trim (JSNumber.String_number width ++ "x"
                   ++ JSNumber.String_number height)) = false.
Proof.
  destruct (String_number_head width) as (c & s & -> & Hc).
  cbn [append]. now apply digit_head_not_inherited.
Qed.

Lemma count_not_inherited (n : N) :
  inherited (trim (String_count n)) = false.
Proof.
  destruct (String_count_head n) as (c & s & -> & Hc).
  now apply digit_head_not_inherited.
Qed.

Lemma bucket_not_inherited (ratio : float) :
  inherited (trim (PixelRatio.matchedBucket
                     (PixelRatio.analyzePixelRatio ratio))) = false.
Proof.
  pose proof (PixelRatioInvariants.matchedBucket_known ratio) as Hin.
  destruct Hin as [H|[H|[H|[H|[H|[H|[]]]]]]]; rewrite <- H; reflexivity.
Qed.

Lemma contribution_succeed (testName : string) (value : datum) (l : Lookup.t)
    (e : number) :
  Lookup.entropy l = Some e ->
  contribution testName (succeed value l) = e.
Proof.
  intros H. unfold contribution, Runner.entropyConfig. simpl. now rewrite H.
Qed.

Lemma contribution_baselineLookup (testName key : string) (value : datum) :
  nonNegative
    (contribution testName (succeed value (baselineLookup (baseline key)))).
Proof.
  rewrite (contribution_succeed _ _ _ (Num (bits (baseline key))))
    by reflexivity.
  eexists. split; [reflexivity | apply baseline_nonneg].
Qed.

Lemma contribution_shareLookup (testName : string) (value : datum)
    (t : marketTable) (v : string) (n : option string) :
  tableInRange t ->
  inherited (trim v) = false ->
  nonNegative
    (contribution testName
       (succeed value (shareLookup t (lookupMarketShare t v) n))).
Proof.
  intros Ht Hname.
  rewrite (contribution_succeed _ _ _
             (percentToEntropy (percent (lookupMarketShare t v)))) by reflexivity.
  destruct (lookupMarketShare_inRange t v Ht Hname) as (p & -> & Hp).
  now apply percentToEntropy_nonneg.
Qed.

Lemma contribution_lookupOrBaseline (testName key : string) (value : datum)
    (t : marketTable) (v : string) :
  tableInRange t ->
  inherited (trim v) = false ->
  nonNegative
    (contribution testName
       (succeed value (lookupOrBaseline t v (baseline key)))).
Proof.
  intros Ht Hname. unfold lookupOrBaseline.
  destruct (estimated (lookupMarketShare t v)).
  - apply contribution_baselineLookup.
  - now apply contribution_shareLookup.
Qed.

Lemma nonNegative_zero : nonNegative (Num 0).
Proof. exists 0. split; [reflexivity | lra]. Qed.

(** The texts looked up as they come from the browser. *)
Lemma noInheritedName_texts (b : browser) :
  noInheritedName b = true ->
  inherited (trim (timeZone b)) = false
  /\ inherited (trim (language b)) = false
  /\ inherited (trim (platform b)) = false
  /\ (forall gl vendor renderer,
        webglContext b = Some gl ->
        debugInfo gl = Some (vendor, Some renderer) ->
        inherited (trim renderer) = false).
Proof.
  unfold noInheritedName, lookedUpTexts. cbn [app forallb].
  rewrite !andb_true_iff, !negb_true_iff.
  intros (Htz & Hlang & Hplat & Hgl).
  repeat split; try assumption.
  intros gl vendor renderer Hcontext Hdebug.
  rewrite Hcontext, Hdebug in Hgl. cbn [forallb] in Hgl.
  now rewrite andb_true_r, negb_true_iff in Hgl.
Qed.

Ltac known_table := apply tableInRange_of; simpl; tauto.

(** The family found in a user agent text, the key of a Do Not Track
    value and the keys of the ad blocker test are not inherited names. *)
Lemma browserName_not_inherited (ua : string) :
  inherited (trim (browserName ua)) = false.
Proof.
  unfold browserName.
  destruct (includes ua "Firefox/"); [reflexivity|].
  destruct (includes ua "Edg/"); [reflexivity|].
  destruct (includes ua "Chrome/"); [reflexivity|].
  destruct (includes ua "Safari/" && negb (includes ua "Chrome"));
    reflexivity.
Qed.

Lemma dntKey_values (dnt : datum) :
  dntKey dnt = "1" \/ dntKey dnt = "0" \/ dntKey dnt = "null".
Proof.
  destruct dnt as [| |x|x|n|s|l|o]; try (right; right; reflexivity).
  destruct s as [|c s]; [right; right; reflexivity|].
  destruct s as [|c' s'];
    [|destruct c as [[|] [|] [|] [|] [|] [|] [|] [|]];
      right; right; reflexivity].
  destruct c as [[|] [|] [|] [|] [|] [|] [|] [|]];
    first [ left; reflexivity
          | right; left; reflexivity
          | right; right; reflexivity ].
Qed.

Lemma dntKey_not_inherited (dnt : datum) :
  inherited (trim (dntKey dnt)) = false.
Proof.
  destruct (dntKey_values dnt) as [->|[->| ->]]; reflexivity.
Qed.

Lemma tests_contribute_nonneg (b : browser) :
  noInheritedName b = true ->
  Forall (fun entry : string * test datum =>
            nonNegative (contribution (fst entry) (run (snd entry))))
    (tests b).
Proof.
  intros Hnames.
  destruct (noInheritedName_texts b Hnames) as (Htz & Hlang & Hplat & Hgl).
  unfold tests.
  repeat apply Forall_cons; try apply Forall_nil;
    cbn [fst snd run].
  - apply contribution_lookupOrBaseline;
      [known_table | apply resolution_not_inherited].
  - unfold run_pixelRatio.
    destruct (String.eqb _ ""); [apply contribution_baselineLookup|].
    destruct (negb _); [|apply contribution_baselineLookup].
    apply contribution_shareLookup;
      [known_table | apply bucket_not_inherited].
  - apply contribution_lookupOrBaseline; [known_table | exact Htz].
  - apply contribution_lookupOrBaseline; [known_table | exact Hlang].
  - apply contribution_lookupOrBaseline; [known_table | exact Hplat].
  - apply contribution_lookupOrBaseline;
      [known_table | apply browserName_not_inherited].
  - unfold run_doNotTrack.
    erewrite contribution_succeed by reflexivity.
    destruct (lookupMarketShare_inRange DNT_DATA (dntKey (doNotTrack b)))
      as (p & -> & Hp);
      [known_table | apply dntKey_not_inherited
      | now apply percentToEntropy_nonneg].
  - unfold run_cpuCores.
    destruct (hardwareConcurrency b) as [[|q]|]; try apply nonNegative_zero.
    apply contribution_lookupOrBaseline;
      [known_table | apply count_not_inherited].
  - unfold run_deviceMemory.
    destruct (JSNumber.falsy _); [apply nonNegative_zero|].
    apply contribution_lookupOrBaseline;
      [known_table | apply number_not_inherited].
  - apply contribution_baselineLookup.
  - unfold run_connectionType.
    destruct (effectiveType b) as [[|c type]|];
      first [apply contribution_baselineLookup | apply nonNegative_zero].
  - unfold run_canvas.
    destruct (canvasDataUrl b);
      first [apply contribution_baselineLookup | apply nonNegative_zero].
  - unfold run_webgl.
    destruct (webglContext b) as [gl|] eqn:Hcontext; [|apply nonNegative_zero].
    destruct (debugInfo gl) as [[vendor [renderer|]]|] eqn:Hdebug.
    + destruct (negb _).
      * apply contribution_shareLookup; [known_table|].
        exact (Hgl gl vendor renderer eq_refl Hdebug).
      * erewrite contribution_succeed by reflexivity.
        eexists. split; [reflexivity|].
        pose proof (baseline_nonneg "webglRenderer").
        pose proof (baseline_nonneg "webglVendor"). lra.
    + apply nonNegative_zero.
    + erewrite contribution_succeed by reflexivity.
      eexists. split; [reflexivity|].
      pose proof (baseline_nonneg "webglRenderer"). lra.
  - unfold run_audio.
    destruct (audioSum b);
      first [apply contribution_baselineLookup | apply nonNegative_zero].
  - unfold run_fonts.
    destruct (detectedFonts b);
      first [apply contribution_baselineLookup | apply nonNegative_zero].
  - unfold run_adBlocker.
    erewrite contribution_succeed by reflexivity.
    destruct (lookupMarketShare_inRange AD_BLOCKER_DATA
                (if adBlocked b then "true" else "false"))
      as (p & -> & Hp); [known_table| |now apply percentToEntropy_nonneg].
    destruct (adBlocked b); reflexivity.
Qed.

End TestsFacts.

(** ** The tests, continued *)

Module TestsInvariants.
Import Tests.

(** X9. The pixel-ratio test never falls back to its baseline record:
    whatever the reading, the bucket found by [analyzePixelRatio] is a
    key of [PIXEL_RATIO_DATA], so the result is a market-share hit, not
    estimated, with one of the six percents of the table. *)
Theorem pixelRatio_is_never_estimated (b : browser) :
  markedEstimated "pixelRatio" (run_pixelRatio b) = false
  /\ exists p, In p [45; 30; 10; 8; 3; 2]
       /\ contribution "pixelRatio" (run_pixelRatio b) = percentToEntropy p.
Proof.
  unfold run_pixelRatio; cbv zeta.
  pose proof (PixelRatioInvariants.matchedBucket_known
                (JSNumber.orElse (devicePixelRatio b) 1%float)) as Hin.
  destruct Hin as [H|[H|[H|[H|[H|[H|[]]]]]]]; rewrite <- H.
  - split; [reflexivity|]. exists 45. split; [simpl; tauto | reflexivity].
  - split; [reflexivity|]. exists 10. split; [simpl; tauto | reflexivity].
  - split; [reflexivity|]. exists 8. split; [simpl; tauto | reflexivity].
  - split; [reflexivity|]. exists 30. split; [simpl; tauto | reflexivity].
  - split; [reflexivity|]. exists 2. split; [simpl; tauto | reflexivity].
  - split; [reflexivity|]. exists 3. split; [simpl; tauto | reflexivity].
Qed.

Lemma dntKey_cases (dnt : datum) :
  (dnt = DString "1" /\ dntKey dnt = "1")
  \/ (dnt = DString "0" /\ dntKey dnt = "0")
  \/ (dnt <> DString "1" /\ dnt <> DString "0" /\ dntKey dnt = "null").
Proof.
  destruct dnt as [| |x|x|n|s|l|o];
    try (right; right; repeat split; discriminate).
  destruct s as [|c s];
    [right; right; repeat split; discriminate|].
  destruct s as [|c' s'];
    [|right; right; repeat split; try discriminate;
      destruct c as [[|] [|] [|] [|] [|] [|] [|] [|]]; reflexivity].
  destruct c as [[|] [|] [|] [|] [|] [|] [|] [|]];
    first [ left; split; reflexivity
          | right; left; split; reflexivity
          | right; right; repeat split; discriminate ].
Qed.

(** X10. The Do Not Track test always resolves by an exact key, so its
    result is never estimated: '1' counts as the 20 percent who enable
    the setting, '0' as the 3 percent who disable it, and every other
    value ([null], [undefined], 'unspecified', ...) as the 77 percent
    who leave it unset. *)
Theorem doNotTrack_shares (b : browser) :
  markedEstimated "doNotTrack" (run_doNotTrack b) = false
  /\ (doNotTrack b = DString "1" ->
      contribution "doNotTrack" (run_doNotTrack b) = percentToEntropy 20)
  /\ (doNotTrack b = DString "0" ->
      contribution "doNotTrack" (run_doNotTrack b) = percentToEntropy 3)
  /\ (doNotTrack b <> DString "1" -> doNotTrack b <> DString "0" ->
      contribution "doNotTrack" (run_doNotTrack b) = percentToEntropy 77).
Proof.
  unfold run_doNotTrack; cbv zeta.
  destruct (dntKey_cases (doNotTrack b))
    as [[Hd ->]|[[Hd ->]|(H1 & H0 & ->)]].
  - rewrite Hd. repeat split; try reflexivity; intros; try discriminate.
    now contradiction H.
  - rewrite Hd. repeat split; try reflexivity; intros; try discriminate.
    now contradiction H0.
  - repeat split; try reflexivity; intros; contradiction.
Qed.

Lemma doNotTrack_shares_witness :
  contribution "doNotTrack" (run_doNotTrack sampleBrowser) = percentToEntropy 77.
Proof.
  apply (proj2 (proj2 (proj2 (doNotTrack_shares sampleBrowser))));
    discriminate.
Defined.

End TestsInvariants.

(** ** The runner, continued *)

Module RunnerInvariants.
Import Runner.

(** The three difficulty groups split the completed tests. *)
Lemma difficulty_partition (l : list Completed.t) :
  (List.length l
   = List.length (filter (hasDifficulty easy) l)
     + List.length (filter (hasDifficulty medium) l)
     + List.length (filter (hasDifficulty hard) l))%nat.
Proof.
  induction l as [|x l IHn]; [reflexivity|].
  assert (He : hasDifficulty easy x
               = match Completed.difficulty x with easy => true | _ => false end)
    by (unfold hasDifficulty; destruct (Completed.difficulty x); reflexivity).
  assert (Hm : hasDifficulty medium x
               = match Completed.difficulty x with medium => true | _ => false end)
    by (unfold hasDifficulty; destruct (Completed.difficulty x); reflexivity).
  assert (Hh : hasDifficulty hard x
               = match Completed.difficulty x with hard => true | _ => false end)
    by (unfold hasDifficulty; destruct (Completed.difficulty x); reflexivity).
  cbn [filter]. rewrite He, Hm, Hh.
  destruct (Completed.difficulty x); cbn [List.length]; lia.
Qed.

Section Generic.
Context {V : Type}.
Variable hash : list V -> string.
Variable tests : object (test V).

(** What the counters of a state say about its lists. *)
Lemma step_keeps_counts (st : state V) (testName : string) :
  (successfulTests st = List.length (completedTests st)
   /\ successfulTests st = List.length (fingerprintValues st)
   /\ successfulTests st = List.length (resultLines st))%nat ->
  let st' := step tests st testName in
  (successfulTests st' = List.length (completedTests st')
   /\ successfulTests st' = List.length (fingerprintValues st')
   /\ successfulTests st' = List.length (resultLines st'))%nat.
Proof.
  intros (Hc & Hv & Hl). unfold step.
  destruct (get tests testName) as [t|]; [|repeat split; assumption].
  destruct (run t) as [|[result|]]; try (repeat split; assumption).
  unfold recordSuccess.
  destruct (entropyConfig testName result) as [[e src] est].
  destruct (addResultLine _ _ _ _ _ _ _) as [line unique].
  cbn [successfulTests completedTests fingerprintValues resultLines].
  rewrite !List.length_app. cbn [List.length].
  repeat split; lia.
Qed.

Lemma loop_keeps_counts (names : list string) (st : state V) :
  (successfulTests st = List.length (completedTests st)
   /\ successfulTests st = List.length (fingerprintValues st)
   /\ successfulTests st = List.length (resultLines st))%nat ->
  let st' := loop tests names st in
  (successfulTests st' = List.length (completedTests st')
   /\ successfulTests st' = List.length (fingerprintValues st')
   /\ successfulTests st' = List.length (resultLines st'))%nat.
Proof.
  revert st. induction names as [|n names IH]; intros st H; [exact H|].
  apply (IH (step tests st n)). now apply step_keeps_counts.
Qed.

Lemma initial_counts :
  (successfulTests (@initial V) = List.length (completedTests (@initial V))
   /\ successfulTests (@initial V) = List.length (fingerprintValues (@initial V))
   /\ successfulTests (@initial V) = List.length (resultLines (@initial V)))%nat.
Proof. repeat split. Qed.

Lemma namesWhere_lengths (names : list string) :
  (List.length (namesWhere (fun t => negb (fails t)) tests names)
   + List.length (namesWhere fails tests names)
   = List.length (filter (fun testName =>
                       match get tests testName with
                       | Some _ => true
                       | None => false
                       end) names))%nat.
Proof.
  unfold namesWhere.
  induction names as [|n names IH]; [reflexivity|].
  cbn [flat_map filter]. rewrite !List.length_app.
  destruct (get tests n) as [t|]; [|exact IH].
  destruct (fails t); cbn [negb List.length Nat.add] in *; lia.
Qed.

(** The counters of a run and the lists of its report. *)
Lemma counters_of_a_run :
  let r := runExperiment hash tests in
  (revealCount (reveal r) = List.length (shown r)
   /\ revealCount (reveal r)
      = List.length (easyTests (ending r)) + List.length (mediumTests (ending r))
        + List.length (hardTests (ending r))
   /\ revealCount (reveal r) + List.length (unableToDetect (ending r))
      = List.length (filter (fun testName =>
                          match get tests testName with
                          | Some _ => true
                          | None => false
                          end) testOrder))%nat.
Proof.
  intros r.
  destruct (loop_keeps_counts testOrder initial initial_counts)
    as (Hc & Hv & Hl).
  destruct (RunnerFacts.loop_accounts tests testOrder initial) as [Hf Hn].
  subst r. unfold runExperiment, finish, showFinalReveal, showEndState.
  cbn [reveal shown ending revealCount easyTests mediumTests hardTests
       unableToDetect].
  split; [exact Hl|]. split.
  - rewrite Hc. apply difficulty_partition.
  - rewrite <- namesWhere_lengths, Hf, Hc.
    rewrite <- (List.length_map Completed.name), Hn. reflexivity.
Qed.

(** How the cumulative sentence of a line reads. *)
Lemma addResultLine_sentence (e x : number) (src : option string)
    (est : bool) (totalBits : number) (first was : bool) :
  let r := addResultLine e x src est totalBits first was in
  snd r = isUnique (formatNumber (entropyToUniqueness totalBits))
  /\ announcesUniqueness (fst r) = snd r && negb was
  /\ staysUnique (fst r) = snd r && was
  /\ saysCurrently (fst r) = negb (snd r) && first.
Proof.
  unfold addResultLine, announcesUniqueness, staysUnique, saysCurrently.
  cbv zeta. cbn [fst snd count].
  destruct (isUnique _), was, first; repeat split.
Qed.

Lemma step_keeps_sentences (st : state V) (testName : string) :
  (List.length (filter announcesUniqueness (resultLines st))
   <= if alreadyUnique st then 1 else 0)%nat
  /\ successfulTests st = List.length (resultLines st)
  /\ Forall (fun line => saysCurrently line = false) (tl (resultLines st)) ->
  let st' := step tests st testName in
  (List.length (filter announcesUniqueness (resultLines st'))
   <= if alreadyUnique st' then 1 else 0)%nat
  /\ successfulTests st' = List.length (resultLines st')
  /\ Forall (fun line => saysCurrently line = false) (tl (resultLines st')).
Proof.
  intros (Hone & Hlen & Htl). unfold step.
  destruct (get tests testName) as [t|]; [|repeat split; assumption].
  destruct (run t) as [|[result|]]; try (repeat split; assumption).
  unfold recordSuccess.
  destruct (entropyConfig testName result) as [[e src] est].
  pose proof (addResultLine_sentence e (oneInXOf result e) src est
                (Number.add (totalEntropy st) e)
                (Nat.eqb (S (successfulTests st)) 1) (alreadyUnique st))
    as (_ & Hann & _ & Hcur).
  cbv zeta in Hann, Hcur.
  destruct (addResultLine _ _ _ _ _ _ _) as [line unique].
  cbn [fst snd] in Hann, Hcur.
  cbn [successfulTests resultLines alreadyUnique].
  rewrite filter_app, !List.length_app. cbn [filter]. rewrite Hann.
  split; [|split].
  - destruct unique, (alreadyUnique st); cbn [andb negb List.length] in *; lia.
  - cbn [List.length]. lia.
  - destruct (resultLines st) as [|l0 ls]; [apply Forall_nil|].
    cbn [tl app] in *. apply Forall_app. split; [exact Htl|].
    apply Forall_cons; [|apply Forall_nil].
    rewrite Hcur, Hlen. cbn [List.length Nat.eqb].
    now rewrite andb_false_r.
Qed.

(** X13. Whatever the tests return, at most one result line of a run
    announces that the user is now statistically unique, and only the
    first result line can read as the first test's sentence. *)
Theorem uniqueness_is_announced_once :
  let r := runExperiment hash tests in
  (List.length (filter announcesUniqueness (shown r)) <= 1)%nat
  /\ Forall (fun line => saysCurrently line = false) (tl (shown r)).
Proof.
  intros r. subst r. unfold runExperiment, finish. cbn [shown].
  assert (H : forall names (st : state V),
             (List.length (filter announcesUniqueness (resultLines st))
              <= if alreadyUnique st then 1 else 0)%nat
             /\ successfulTests st = List.length (resultLines st)
             /\ Forall (fun line => saysCurrently line = false)
                  (tl (resultLines st)) ->
             (List.length (filter announcesUniqueness
                             (resultLines (loop tests names st)))
              <= if alreadyUnique (loop tests names st) then 1 else 0)%nat
             /\ Forall (fun line => saysCurrently line = false)
                  (tl (resultLines (loop tests names st)))).
  { induction names as [|n names IH]; intros st Hst.
    - split; apply Hst.
    - apply (IH (step tests st n)). now apply step_keeps_sentences. }
  destruct (H testOrder initial) as [Hone Htl].
  - cbn. repeat split; [lia | apply Forall_nil].
  - split; [|exact Htl].
    destruct (alreadyUnique _); lia.
Qed.

End Generic.

Section NonNegative.
Context {V : Type}.
Variable tests : object (test V).

(** The lines shown so far: lines that say nothing of uniqueness, then,
    once the total crosses the world population, the announcement
    followed by lines that repeat it. *)
Lemma step_keeps_order (st : state V) (testName : string) :
  addsNonNegative tests testName ->
  (exists before after,
      resultLines st = (before ++ after)%list
      /\ Forall (fun line => announcesUniqueness line = false
                             /\ staysUnique line = false) before
      /\ match after with
         | [] => alreadyUnique st = false
                 /\ isUnique (formatNumber
                                (entropyToUniqueness (totalEntropy st))) = false
         | first :: rest =>
             announcesUniqueness first = true
             /\ Forall (fun line => staysUnique line = true) rest
             /\ alreadyUnique st = true
             /\ isUnique (formatNumber
                            (entropyToUniqueness (totalEntropy st))) = true
         end) ->
  let st' := step tests st testName in
  exists before after,
      resultLines st' = (before ++ after)%list
      /\ Forall (fun line => announcesUniqueness line = false
                             /\ staysUnique line = false) before
      /\ match after with
         | [] => alreadyUnique st' = false
                 /\ isUnique (formatNumber
                                (entropyToUniqueness (totalEntropy st'))) = false
         | first :: rest =>
             announcesUniqueness first = true
             /\ Forall (fun line => staysUnique line = true) rest
             /\ alreadyUnique st' = true
             /\ isUnique (formatNumber
                            (entropyToUniqueness (totalEntropy st'))) = true
         end.
Proof.
  intros contributions_nonneg (before & after & Hlines & Hquiet & Hafter).
  unfold step.
  destruct (get tests testName) as [t|] eqn:Hget;
    [|exists before, after; repeat split; assumption].
  pose proof (contributions_nonneg t Hget) as He.
  destruct (run t) as [|[result|]];
    try (exists before, after; repeat split; assumption).
  unfold contribution in He. unfold recordSuccess.
  destruct (entropyConfig testName result) as [[e src] est].
  cbn [fst] in He.
  pose proof (addResultLine_sentence e (oneInXOf result e) src est
                (Number.add (totalEntropy st) e)
                (Nat.eqb (S (successfulTests st)) 1) (alreadyUnique st))
    as (Hu & Hann & Hstay & _).
  cbv zeta in Hu, Hann, Hstay.
  destruct (addResultLine _ _ _ _ _ _ _) as [line unique].
  cbn [fst snd] in Hu, Hann, Hstay.
  cbn [resultLines alreadyUnique totalEntropy].
  rewrite Hlines. destruct after as [|first rest].
  - destruct Hafter as [Hwas Hnot]. rewrite Hwas in *.
    rewrite app_nil_r. destruct unique; cbn [andb negb] in *.
    + exists before, [line]. repeat split; try assumption.
      * apply Forall_nil.
      * now symmetry.
    + exists (before ++ [line])%list, []. rewrite app_nil_r.
      repeat split; try assumption.
      * apply Forall_app. split; [assumption|].
        apply Forall_cons; [now split | apply Forall_nil].
      * now symmetry.
  - destruct Hafter as (Hfirst & Hrest & Hwas & Hyes). rewrite Hwas in *.
    assert (Hunique : unique = true).
    { rewrite Hu. destruct He as (y & -> & Hy). revert Hyes.
      destruct (totalEntropy st) as [x|]; [|discriminate].
      unfold entropyToUniqueness. cbn [Number.add Number.Math_pow2].
      rewrite !RunnerFacts.formatNumber_of_number. cbn [isUnique].
      destruct (Rge_dec (Rpower 2 x) WORLD_POPULATION) as [Hge|Hlt];
        [intros _|discriminate].
      destruct (Rge_dec (Rpower 2 (x + y)) WORLD_POPULATION) as [Hge'|Hlt'];
        [reflexivity|].
      exfalso. apply Hlt'.
      pose proof (RunnerFacts.Rpower_2_increasing x (x + y)).
      lra. }
    rewrite Hunique in *. cbn [andb negb] in *.
    exists before, (first :: rest ++ [line])%list.
    rewrite <- app_assoc. repeat split; try assumption.
    + apply Forall_app. split; [assumption|].
      apply Forall_cons; [assumption | apply Forall_nil].
    + now symmetry.
Qed.

Lemma loop_keeps_order (names : list string) (st : state V) :
  Forall (addsNonNegative tests) names ->
  (exists before after,
      resultLines st = (before ++ after)%list
      /\ Forall (fun line => announcesUniqueness line = false
                             /\ staysUnique line = false) before
      /\ match after with
         | [] => alreadyUnique st = false
                 /\ isUnique (formatNumber
                                (entropyToUniqueness (totalEntropy st))) = false
         | first :: rest =>
             announcesUniqueness first = true
             /\ Forall (fun line => staysUnique line = true) rest
             /\ alreadyUnique st = true
             /\ isUnique (formatNumber
                            (entropyToUniqueness (totalEntropy st))) = true
         end) ->
  let st' := loop tests names st in
  exists before after,
      resultLines st' = (before ++ after)%list
      /\ Forall (fun line => announcesUniqueness line = false
                             /\ staysUnique line = false) before
      /\ match after with
         | [] => alreadyUnique st' = false
                 /\ isUnique (formatNumber
                                (entropyToUniqueness (totalEntropy st'))) = false
         | first :: rest =>
             announcesUniqueness first = true
             /\ Forall (fun line => staysUnique line = true) rest
             /\ alreadyUnique st' = true
             /\ isUnique (formatNumber
                            (entropyToUniqueness (totalEntropy st'))) = true
         end.
Proof.
  revert st. induction names as [|n names IH]; intros st Hnames H; [exact H|].
  apply Forall_cons_iff in Hnames as [Hn Hnames].
  apply (IH (step tests st n) Hnames). now apply step_keeps_order.
Qed.

End NonNegative.

Lemma initial_not_unique :
  isUnique (formatNumber (entropyToUniqueness 0)) = false.
Proof.
  unfold entropyToUniqueness. cbn [Number.Math_pow2].
  rewrite Rpower_O by lra.
  rewrite RunnerFacts.formatNumber_of_number. cbn [isUnique].
  unfold WORLD_POPULATION.
  destruct (Rge_dec 1 _) as [H|H]; [exfalso; lra | reflexivity].
Qed.

(** X14. In a run of the program's tests on readings none of whose
    looked-up texts is a name inherited from [Object.prototype], the
    result lines come in two stretches: lines that give the anonymity
    set as 1 in N, then, from the test whose entropy takes the total
    past the world population, the line that announces statistical
    uniqueness followed only by lines that say the user is still
    unique. The page never goes back from unique to 1 in N, and the
    final reveal says the user is unique exactly when the announcement
    was made. *)
Theorem once_unique_always_unique (hash : list Tests.datum -> string)
    (b : Tests.browser) :
  noInheritedName b = true ->
  let r := runExperiment hash (Tests.tests b) in
  exists before after,
    shown r = (before ++ after)%list
    /\ Forall (fun line => announcesUniqueness line = false
                           /\ staysUnique line = false) before
    /\ match after with
       | [] => revealOneIn (reveal r) <> None
       | first :: rest =>
           announcesUniqueness first = true
           /\ Forall (fun line => staysUnique line = true) rest
           /\ revealOneIn (reveal r) = None
       end.
Proof.
  intros Hnames r.
  destruct (loop_keeps_order (Tests.tests b)) with (names := testOrder)
                                                    (st := @initial Tests.datum)
    as (before & after & Hlines & Hquiet & Hafter).
  - apply Forall_forall. intros testName _ t Hget. apply get_In in Hget.
    pose proof (TestsFacts.tests_contribute_nonneg b Hnames) as H.
    rewrite Forall_forall in H. exact (H _ Hget).
  - exists [], []. repeat split; [apply Forall_nil|].
    exact initial_not_unique.
  - exists before, after. subst r.
    unfold runExperiment, finish, showFinalReveal.
    cbn [shown reveal revealOneIn].
    split; [exact Hlines|]. split; [exact Hquiet|].
    destruct after as [|first rest].
    + destruct Hafter as [_ Hnot]. rewrite Hnot. discriminate.
    + destruct Hafter as (Hfirst & Hrest & _ & Hyes). rewrite Hyes.
      repeat split; assumption.
Qed.

Lemma once_unique_always_unique_witness :
  let r := runExperiment (fun _ => "") (Tests.tests sampleBrowser) in
  exists before after,
    shown r = (before ++ after)%list
    /\ Forall (fun line => announcesUniqueness line = false
                           /\ staysUnique line = false) before
    /\ match after with
       | [] => revealOneIn (reveal r) <> None
       | first :: rest =>
           announcesUniqueness first = true
           /\ Forall (fun line => staysUnique line = true) rest
           /\ revealOneIn (reveal r) = None
       end.
Proof.
  exact (once_unique_always_unique (fun _ => "") sampleBrowser eq_refl).
Defined.

Lemma firstn_succ {A : Type} (n : nat) (l : list A) :
  firstn (S n) l
  = (firstn n l ++ match nth_error l n with Some x => [x] | None => [] end)%list.
Proof.
  revert l. induction n as [|n IH]; intros [|x l]; simpl; try reflexivity.
  f_equal. apply IH.
Qed.

(** With tests that add numbers that are not negative, the total is
    such a number. *)
Lemma loop_nonNegative {V : Type} (tests : object (test V))
    (names : list string) (st : state V) :
  Forall (addsNonNegative tests) names ->
  nonNegative (totalEntropy st) ->
  nonNegative (totalEntropy (loop tests names st)).
Proof.
  revert st. induction names as [|n names IH]; intros st Hnames Hst;
    [exact Hst|].
  apply Forall_cons_iff in Hnames as [Hn Hnames].
  rewrite RunnerFacts.loop_cons. apply IH; [exact Hnames|].
  rewrite RunnerFacts.step_totalEntropy.
  destruct Hst as (x & -> & Hx).
  destruct (get tests n) as [t|] eqn:Hget.
  - destruct (Hn t Hget) as (y & -> & Hy).
    exists (x + y). split; [reflexivity | lra].
  - exists (x + 0). split; [reflexivity | lra].
Qed.

Lemma program_adds_nonNegative (b : Tests.browser) (names : list string) :
  noInheritedName b = true ->
  Forall (addsNonNegative (Tests.tests b)) names.
Proof.
  intros Hnames. apply Forall_forall. intros testName _ t Hget.
  apply get_In in Hget.
  pose proof (TestsFacts.tests_contribute_nonneg b Hnames) as H.
  rewrite Forall_forall in H. exact (H _ Hget).
Qed.

(** X28. Along a run of the program's tests on readings none of whose
    looked-up texts is a name inherited from [Object.prototype], the
    entropy total is a number at every step and never decreases: the
    total after the first [n + 1] tests of [testOrder] is at least the
    total after the first [n]. *)
Theorem totalEntropy_monotone_without_inherited_names
    (b : Tests.browser) (n : nat) :
  noInheritedName b = true ->
  exists x y,
    totalEntropy (loop (Tests.tests b) (firstn n testOrder) initial) = Num x
    /\ totalEntropy (loop (Tests.tests b) (firstn (S n) testOrder) initial)
       = Num y
    /\ 0 <= x <= y
    /\ Number.ge (Num y) (Num x) = true.
Proof.
  intros Hnames.
  assert (Hzero : nonNegative (totalEntropy (@initial Tests.datum)))
    by (exists 0; split; [reflexivity | lra]).
  destruct (loop_nonNegative (Tests.tests b) (firstn n testOrder) initial
              (program_adds_nonNegative b _ Hnames) Hzero) as (x & Hx & Hx0).
  rewrite firstn_succ, RunnerFacts.loop_app, Hx.
  destruct (nth_error testOrder n) as [testName|].
  - cbn [loop fold_left]. rewrite RunnerFacts.step_totalEntropy, Hx.
    assert (Hadd : nonNegative
                     match get (Tests.tests b) testName with
                     | Some t => contribution testName (run t)
                     | None => Num 0
                     end).
    { destruct (get (Tests.tests b) testName) as [t|] eqn:Hget.
      - pose proof (program_adds_nonNegative b [testName] Hnames) as H.
        apply Forall_cons_iff in H as [H _]. exact (H t Hget).
      - exists 0. split; [reflexivity | lra]. }
    destruct Hadd as (e & -> & He).
    exists x, (x + e). cbn [Number.add Number.ge].
    split; [reflexivity|]. split; [reflexivity|]. split; [lra|].
    destruct (Rge_dec (x + e) x) as [_|H]; [reflexivity | lra].
  - exists x, x. cbn [loop fold_left Number.ge]. rewrite Hx.
    split; [reflexivity|]. split; [reflexivity|]. split; [lra|].
    destruct (Rge_dec x x) as [_|H]; [reflexivity | lra].
Qed.

Lemma totalEntropy_monotone_without_inherited_names_witness :
  exists x y,
    totalEntropy (loop (Tests.tests sampleBrowser) (firstn 3 testOrder) initial)
    = Num x
    /\ totalEntropy
         (loop (Tests.tests sampleBrowser) (firstn 4 testOrder) initial)
       = Num y
    /\ 0 <= x <= y
    /\ Number.ge (Num y) (Num x) = true.
Proof.
  exact (totalEntropy_monotone_without_inherited_names sampleBrowser 3
           eq_refl).
Defined.

(** A step whose entropy is NaN, after the first line: the line it
    appends gives the anonymity set as 1 in NaN, and the total is NaN. *)
Lemma recordSuccess_NaN {V : Type} (st : state V) (testName : string)
    (t : test V) (result : Result.t V) :
  contribution testName (Returned (Some result)) = NaN ->
  (1 <= successfulTests st)%nat ->
  exists line,
    resultLines (recordSuccess st testName t result)
    = (resultLines st ++ [line])%list
    /\ count line = NowOneIn (Plain NaN)
    /\ totalEntropy (recordSuccess st testName t result) = NaN.
Proof.
  unfold contribution, recordSuccess.
  destruct (entropyConfig testName result) as [[e src] est].
  cbn [fst]. intros -> Hfirst.
  rewrite add_NaN_r.
  unfold addResultLine. cbv zeta.
  cbn [resultLines totalEntropy].
  eexists. split; [reflexivity|]. split; [|reflexivity].
  cbn [count entropyToUniqueness Number.Math_pow2].
  rewrite RunnerFacts.formatNumber_of_NaN. cbn [isUnique text andb].
  destruct (successfulTests st) as [|k]; [lia | reflexivity].
Qed.

(** The loop only appends to the lines shown. *)
Lemma loop_appends {V : Type} (tests : object (test V))
    (names : list string) (st : state V) :
  exists more,
    resultLines (loop tests names st) = (resultLines st ++ more)%list.
Proof.
  revert st. induction names as [|n names IH]; intros st.
  - exists []. now rewrite app_nil_r.
  - rewrite RunnerFacts.loop_cons.
    destruct (IH (step tests st n)) as [more ->].
    unfold step. destruct (get tests n) as [t|]; [|now exists more].
    destruct (run t) as [|[result|]]; try (now exists more).
    destruct (RunnerFacts.recordSuccess_line st n t result)
      as (line & -> & _).
    exists (line :: more). now rewrite <- app_assoc.
Qed.

(** What the first twelve tests add on the rare readings. *)
Lemma contributions_of_rare :
  contributions (Tests.tests rareBrowser)
    [ "screenResolution"; "pixelRatio"; "timezone"; "language"; "userAgent";
      "platform"; "doNotTrack"; "cpuCores"; "deviceMemory"; "touchSupport";
      "adBlocker"; "connectionType" ]
  = [ percentToEntropy 2; percentToEntropy 2; percentToEntropy 3;
      percentToEntropy 3; percentToEntropy 3; percentToEntropy 2;
      percentToEntropy 3; percentToEntropy 1; percentToEntropy 5;
      Num 1; percentToEntropy 42; Num 1.5 ].
Proof. vm_compute. reflexivity. Qed.

Lemma log2_at_least (k : nat) (x : R) : 2 ^ k <= x -> INR k <= log2 x.
Proof.
  intros H. rewrite <- (log2_pow2 k). unfold log2.
  apply Rmult_le_compat_r.
  - left. apply Rinv_0_lt_compat, ln_2_pos.
  - destruct H as [H|<-]; [|lra].
    left. apply ln_increasing; [apply pow_lt; lra | exact H].
Qed.

(** X29. Uniqueness can be forgotten. On the rare readings the first
    twelve tests take the total past 33 bits, so one of their lines
    announces statistical uniqueness; the WebGL test then looks up a
    renderer text that names a member of [Object.prototype], its entropy
    is NaN, and its line goes back to giving the anonymity set, as 1 in
    NaN; the final reveal says 1 in NaN as well. *)
Theorem uniqueness_is_forgotten_after_an_inherited_name
    (hash : list Tests.datum -> string) :
  let r := runExperiment hash (Tests.tests rareBrowser) in
  noInheritedName rareBrowser = false
  /\ exists before first rest lost after,
       shown r = (before ++ first :: rest ++ lost :: after)%list
       /\ announcesUniqueness first = true
       /\ count lost = NowOneIn (Plain NaN)
       /\ revealOneIn (reveal r) = Some (Plain NaN).
Proof.
  intros r. split; [reflexivity|]. subst r.
  unfold runExperiment, finish, showFinalReveal. cbn [shown reveal revealOneIn].
  set (tests := Tests.tests rareBrowser).
  set (first12 := [ "screenResolution"; "pixelRatio"; "timezone"; "language";
                    "userAgent"; "platform"; "doNotTrack"; "cpuCores";
                    "deviceMemory"; "touchSupport"; "adBlocker";
                    "connectionType" ]).
  change testOrder
    with (first12 ++ "webgl" :: ["fonts"; "canvas"; "audio"])%list.
  rewrite RunnerFacts.loop_app, RunnerFacts.loop_cons.
  set (st := loop tests first12 initial).
  (* the state after twelve tests *)
  assert (Hadds : Forall (addsNonNegative tests) first12).
  { pose proof contributions_of_rare as Hc. fold tests first12 in Hc.
    unfold contributions in Hc.
    assert (Hall : Forall nonNegative
                     (map (fun testName =>
                             match get tests testName with
                             | Some t => contribution testName (run t)
                             | None => Num 0
                             end) first12)).
    { rewrite Hc.
      repeat (apply Forall_cons;
              [first [ apply percentToEntropy_nonneg; unfold inRange; lra
                     | eexists; split; [reflexivity | lra] ]|]).
      apply Forall_nil. }
    rewrite Forall_map in Hall. revert Hall. apply Forall_impl.
    intros testName H t Hget. now rewrite Hget in H. }
  assert (Htotal : exists x, totalEntropy st = Num x /\ 33 <= x).
  { subst st. rewrite RunnerFacts.loop_totalEntropy.
    fold tests first12. pose proof contributions_of_rare as Hc.
    fold tests first12 in Hc. rewrite Hc.
    rewrite !percentToEntropy_positive by lra.
    cbn [fold_left initial totalEntropy Number.add].
    eexists. split; [reflexivity|].
    pose proof (log2_at_least 5 (100 / 2) ltac:(simpl; lra)) as H2.
    pose proof (log2_at_least 5 (100 / 3) ltac:(simpl; lra)) as H3.
    pose proof (log2_at_least 6 (100 / 1) ltac:(simpl; lra)) as H1.
    pose proof (log2_at_least 4 (100 / 5) ltac:(simpl; lra)) as H5.
    pose proof (log2_at_least 1 (100 / 42) ltac:(simpl; lra)) as H42.
    simpl in H2, H3, H1, H5, H42. lra. }
  destruct Htotal as (x & Hx & Hx33).
  destruct (loop_keeps_order tests first12 initial Hadds)
    as (before & after & Hlines & Hquiet & Hafter).
  { exists [], []. repeat split; [apply Forall_nil|].
    exact initial_not_unique. }
  fold st in Hlines, Hafter.
  assert (Hunique : isUnique (formatNumber
                                (entropyToUniqueness (totalEntropy st)))
                    = true).
  { rewrite Hx. unfold entropyToUniqueness. cbn [Number.Math_pow2].
    rewrite RunnerFacts.formatNumber_of_number. cbn [isUnique].
    pose proof (RunnerFacts.Rpower_2_increasing 33 x Hx33) as Hp.
    rewrite EntropyFacts.two_pow_33 in Hp. unfold WORLD_POPULATION.
    destruct (Rge_dec _ _) as [_|H]; [reflexivity | lra]. }
  destruct after as [|first rest];
    [destruct Hafter as [_ Hnot]; congruence|].
  destruct Hafter as (Hfirst & _ & _ & _).
  (* the webgl step *)
  assert (Hcount : (1 <= successfulTests st)%nat).
  { destruct (loop_keeps_counts tests first12 initial initial_counts)
      as (_ & _ & Hl).
    fold st in Hl. rewrite Hl, Hlines, List.length_app. cbn [List.length]. lia. }
  set (result :=
         Result.make
           (Tests.DObject [("vendor", Tests.DString "WebKit");
                           ("renderer", Tests.DString "constructor")])
           (Some (Tests.shareLookup GPU_DATA
                    (lookupMarketShare GPU_DATA "constructor")
                    (Some GPU_DATA_note))) None).
  set (t := mkTest "WebGL" hard "Different GPU, or disable in browser settings"
              (Tests.run_webgl rareBrowser)).
  change (step tests st "webgl") with (recordSuccess st "webgl" t result).
  destruct (recordSuccess_NaN st "webgl" t result eq_refl Hcount)
    as (lost & Hlost & Hsays & Hnan).
  destruct (loop_appends tests ["fonts"; "canvas"; "audio"]
              (recordSuccess st "webgl" t result)) as [more Hmore].
  exists before, first, rest, lost, more.
  split; [|split; [exact Hfirst|split; [exact Hsays|]]].
  - rewrite Hmore, Hlost, Hlines.
    rewrite <- !app_assoc. reflexivity.
  - rewrite RunnerFacts.loop_totalEntropy, Hnan, RunnerFacts.sum_from_NaN.
    reflexivity.
Qed.

(** The tests of the program. *)

Lemma program_failures (b : Tests.browser) :
  namesWhere fails (Tests.tests b) testOrder
  = ((if fails (mkTest "CPU Cores" hard "Different device"
                  (Tests.run_cpuCores b))
      then ["CPU Cores"] else [])
     ++ (if fails (mkTest "Device Memory" hard "Different device"
                     (Tests.run_deviceMemory b))
         then ["Device Memory"] else [])
     ++ (if fails (mkTest "Connection Type" medium "Different network"
                     (Tests.run_connectionType b))
         then ["Connection Type"] else [])
     ++ (if fails (mkTest "WebGL" hard
                     "Different GPU, or disable in browser settings"
                     (Tests.run_webgl b))
         then ["WebGL"] else [])
     ++ (if fails (mkTest "Installed Fonts" medium "Install/remove fonts"
                     (Tests.run_fonts b))
         then ["Installed Fonts"] else [])
     ++ (if fails (mkTest "Canvas Fingerprint" hard
                     "Different browser/GPU, or disable via extension"
                     (Tests.run_canvas b))
         then ["Canvas Fingerprint"] else [])
     ++ (if fails (mkTest "Audio Fingerprint" hard
                     "Different browser/audio hardware, or disable via extension"
                     (Tests.run_audio b))
         then ["Audio Fingerprint"] else []))%list.
Proof.
  assert (Hpixel : fails (mkTest "Pixel Ratio" hard "Different display"
                            (Tests.run_pixelRatio b)) = false).
  { unfold fails. cbn [run]. unfold Tests.run_pixelRatio. cbv zeta.
    destruct (String.eqb _ ""); [reflexivity|].
    destruct (negb _); reflexivity. }
  unfold namesWhere, testOrder. cbn [flat_map].
  lazy [get Tests.tests String.eqb Ascii.eqb Bool.eqb].
  cbn [name].
  rewrite Hpixel.
  repeat match goal with
         | |- context [fails (mkTest ?n ?d ?c ?r)] =>
             change (fails (mkTest n d c r)) with false
         end.
  cbn [app]. rewrite app_nil_r. reflexivity.
Qed.

(** X11. In a run of the program's tests the counters agree with what
    the run shows: the number of tests in the final reveal is the
    number of result lines, and the number of completed tests over the
    three difficulty groups of the end state; together with the tests
    reported as undetectable it is sixteen, the number of names of
    [testOrder]. No test is counted twice or lost. *)
Theorem counters_agree_with_the_report (hash : list Tests.datum -> string)
    (b : Tests.browser) :
  let r := runExperiment hash (Tests.tests b) in
  (revealCount (reveal r) = List.length (shown r)
   /\ revealCount (reveal r)
      = List.length (easyTests (ending r)) + List.length (mediumTests (ending r))
        + List.length (hardTests (ending r))
   /\ revealCount (reveal r) + List.length (unableToDetect (ending r))
      = List.length testOrder)%nat.
Proof.
  intros r.
  destruct (counters_of_a_run hash (Tests.tests b)) as (Hl & Hgroups & Hall).
  fold r in Hl, Hgroups, Hall.
  split; [exact Hl|]. split; [exact Hgroups|].
  rewrite Hall. reflexivity.
Qed.

(** X15. In a run of the program only seven tests can be reported as
    undetectable: CPU cores, device memory, connection type, WebGL,
    installed fonts, canvas and audio. The other nine always produce a
    result line, so a run shows at least nine lines, and every one of
    the sixteen tests is either counted in the final reveal or named
    in the undetectable list. *)
Theorem only_seven_tests_can_fail (hash : list Tests.datum -> string)
    (b : Tests.browser) :
  let r := runExperiment hash (Tests.tests b) in
  incl (unableToDetect (ending r))
    [ "CPU Cores"; "Device Memory"; "Connection Type"; "WebGL";
      "Installed Fonts"; "Canvas Fingerprint"; "Audio Fingerprint" ]
  /\ (revealCount (reveal r) + List.length (unableToDetect (ending r)) = 16)%nat
  /\ (9 <= revealCount (reveal r))%nat
  /\ (9 <= List.length (shown r))%nat.
Proof.
  intros r.
  destruct (loop_keeps_counts (Tests.tests b) testOrder initial initial_counts)
    as (Hc & _ & Hl).
  destruct (RunnerFacts.loop_accounts (Tests.tests b) testOrder initial)
    as [Hf Hn].
  pose proof (namesWhere_lengths (Tests.tests b) testOrder) as Hall.
  change (List.length (filter _ testOrder)) with 16%nat in Hall.
  cbn [completedTests initial map app] in Hn.
  rewrite <- Hn, List.length_map, <- Hc in Hall.
  subst r. unfold runExperiment, finish, showFinalReveal, showEndState.
  cbn [reveal shown ending revealCount unableToDetect].
  rewrite <- Hl. rewrite Hf in *. cbn [failedTests initial app] in *.
  rewrite program_failures in *.
  split; [|split; [exact Hall|]].
  - intros x.
    repeat match goal with
           | |- context [fails ?t] => destruct (fails t)
           end;
      cbn [app In]; tauto.
  - revert Hall.
    repeat match goal with
           | |- context [fails ?t] => destruct (fails t)
           end;
      cbn [app List.length]; lia.
Qed.



End RunnerInvariants.

(** ** Time zone display *)

Module TimezoneFacts.
Import Timezone.

Lemma split_nonempty (sep : ascii) (s : string) : split sep s <> [].
Proof.
  induction s as [|c s IH]; simpl; [discriminate|].
  destruct (Ascii.eqb c sep); [discriminate|].
  destruct (split sep s); [contradiction|discriminate].
Qed.

(** Joining the pieces with the separator gives the string back, and no
    piece holds the separator. *)
Lemma join_split (sep : ascii) (s : string) :
  Fingerprint.join (String sep "") (split sep s) = s
  /\ Forall (fun piece =>
               forall c, In c (list_ascii_of_string piece) -> c <> sep)
       (split sep s).
Proof.
  induction s as [|c s [IHjoin IHfree]].
  - split; [reflexivity|]. apply Forall_cons; [intros c []|apply Forall_nil].
  - pose proof (split_nonempty sep s) as Hne. cbn [split].
    destruct (Ascii.eqb c sep) eqn:Hc.
    + apply Ascii.eqb_eq in Hc. subst c.
      split; [|apply Forall_cons; [intros c []|exact IHfree]].
      destruct (split sep s) as [|p ps]; [contradiction|].
      change (Fingerprint.join (String sep "") ("" :: p :: ps))
        with ("" ++ String sep ""
                 ++ Fingerprint.join (String sep "") (p :: ps)).
      now rewrite IHjoin.
    + destruct (split sep s) as [|p ps]; [contradiction|].
      apply Forall_cons_iff in IHfree as [Hp Hps].
      split.
      * destruct ps as [|q qs]; [simpl in *; now rewrite IHjoin|].
        change (Fingerprint.join (String sep "") (String c p :: q :: qs))
          with (String c (p ++ String sep ""
                            ++ Fingerprint.join (String sep "") (q :: qs))).
        change (Fingerprint.join (String sep "") (p :: q :: qs))
          with (p ++ String sep ""
                  ++ Fingerprint.join (String sep "") (q :: qs)) in IHjoin.
        now rewrite IHjoin.
      * apply Forall_cons; [|exact Hps].
        intros c' [<-|Hin]; [|now apply Hp].
        intros ->. now rewrite Ascii.eqb_refl in Hc.
Qed.

(** The joined pieces end with the last piece; what comes before it is
    empty or ends with the separator. *)
Lemma last_of_join (sep : string) (pieces : list string) :
  exists front,
    Fingerprint.join sep pieces = front ++ pop pieces
    /\ (front = "" \/ exists rest, front = rest ++ sep).
Proof.
  unfold pop. induction pieces as [|p ps (front & IH & Hfront)];
    [exists ""; split; [reflexivity | now left]|].
  destruct ps as [|q qs]; [exists ""; split; [reflexivity | now left]|].
  exists (p ++ sep ++ front).
  change (Fingerprint.join sep (p :: q :: qs))
    with (p ++ sep ++ Fingerprint.join sep (q :: qs)).
  rewrite IH. change (last (p :: q :: qs) "") with (last (q :: qs) "").
  split; [now rewrite !FingerprintFacts.append_assoc|].
  right. destruct Hfront as [->|[rest ->]].
  - exists p. now rewrite FingerprintFacts.append_empty_r.
  - exists (p ++ sep ++ rest).
    now rewrite !FingerprintFacts.append_assoc.
Qed.

Lemma chars_append (a b : string) :
  list_ascii_of_string (a ++ b)
  = (list_ascii_of_string a ++ list_ascii_of_string b)%list.
Proof. induction a as [|c a IH]; simpl; [reflexivity|now rewrite IH]. Qed.

Lemma replaceUnderscores_free (s : string) (c : ascii) :
  In c (list_ascii_of_string (replaceUnderscores s)) -> c <> "_"%char.
Proof.
  induction s as [|c' s IH]; simpl; [intros []|].
  intros [<-|Hin]; [|now apply IH].
  destruct (Ascii.eqb c' "_") eqn:Hc; [discriminate|].
  intros ->. now rewrite Ascii.eqb_refl in Hc.
Qed.

Lemma replaceUnderscores_nothing (s : string) :
  (forall c, In c (list_ascii_of_string s) -> c <> "_"%char) ->
  replaceUnderscores s = s.
Proof.
  induction s as [|c s IH]; simpl; [reflexivity|]. intros H.
  rewrite IH by (intros c' Hc'; apply H; now right).
  destruct (Ascii.eqb c "_") eqn:Hc; [|reflexivity].
  apply Ascii.eqb_eq in Hc. exfalso. apply (H c); [now left|exact Hc].
Qed.

(** A string has one part after its last slash: two ways of writing it
    as a front part, empty or ending with a slash, and a part without
    slash agree. *)
Lemma after_last_slash (s front name front' name' : string) :
  s = front ++ name -> s = front' ++ name' ->
  (front = "" \/ exists rest, front = rest ++ "/") ->
  (front' = "" \/ exists rest, front' = rest ++ "/") ->
  (forall c, In c (list_ascii_of_string name) -> c <> "/"%char) ->
  (forall c, In c (list_ascii_of_string name') -> c <> "/"%char) ->
  name = name'.
Proof.
  revert front front'.
  induction s as [|c s IH]; intros front front' Hs Hs' Hf Hf' Hn Hn'.
  - destruct front; [|discriminate]. destruct front'; [|discriminate].
    cbn [append] in Hs, Hs'. congruence.
  - assert (Hcut : forall f n,
               String c s = f ++ n ->
               (f = "" \/ exists rest, f = rest ++ "/") ->
               (forall x, In x (list_ascii_of_string n) -> x <> "/"%char) ->
               (f = "" /\ n = String c s
                /\ (forall x, In x (list_ascii_of_string s) -> x <> "/"%char)
                /\ c <> "/"%char)
               \/ (exists f', f = String c f' /\ s = f' ++ n
                               /\ (f' = "" \/ exists rest, f' = rest ++ "/")
                               /\ (f' = "" -> c = "/"%char))).
    { intros f n Hfn Hends Hfree. destruct f as [|d f].
      - left. cbn [append] in Hfn. subst n. repeat split.
        + intros x Hx. apply Hfree. now right.
        + apply Hfree. now left.
      - right. cbn [append] in Hfn. injection Hfn as <- Hrest.
        exists f. split; [reflexivity|]. split; [exact Hrest|].
        destruct Hends as [Hempty|[rest Hrest']]; [discriminate|].
        destruct rest as [|r rest]; cbn [append] in Hrest'.
        + injection Hrest' as -> ->. split; [now left | reflexivity].
        + injection Hrest' as _ ->. split; [right; now exists rest|].
          intros Hempty. destruct rest; discriminate. }
    destruct (Hcut front name Hs Hf Hn)
      as [(-> & -> & Hfree & Hc)|(f & -> & Hrest & Hends & Hhead)];
      destruct (Hcut front' name' Hs' Hf' Hn')
        as [(-> & -> & Hfree' & Hc')|(f' & -> & Hrest' & Hends' & Hhead')].
    + reflexivity.
    + exfalso. destruct Hends' as [->|[rest ->]].
      * now apply Hc, Hhead'.
      * apply (Hfree "/"%char); [|reflexivity].
        rewrite Hrest', !chars_append.
        apply in_or_app. left. apply in_or_app. right. now left.
    + exfalso. destruct Hends as [->|[rest ->]].
      * now apply Hc', Hhead.
      * apply (Hfree' "/"%char); [|reflexivity].
        rewrite Hrest, !chars_append.
        apply in_or_app. left. apply in_or_app. right. now left.
    + destruct Hends as [->|Hends], Hends' as [->|Hends'].
      * cbn [append] in Hrest, Hrest'. congruence.
      * destruct Hends' as [rest ->]. exfalso.
        cbn [append] in Hrest. rewrite Hrest in Hrest'.
        apply (Hn "/"%char); [|reflexivity].
        rewrite Hrest', !chars_append.
        apply in_or_app. left. apply in_or_app. right. now left.
      * destruct Hends as [rest ->]. exfalso.
        cbn [append] in Hrest'. rewrite Hrest' in Hrest.
        apply (Hn' "/"%char); [|reflexivity].
        rewrite Hrest, !chars_append.
        apply in_or_app. left. apply in_or_app. right. now left.
      * exact (IH f f' Hrest Hrest' (or_intror Hends) (or_intror Hends')
                 Hn Hn').
Qed.

Example getTimezoneInfo_values :
  getTimezoneInfo "America/New_York" 300
  = mkInfo "New York" "UTC-5" "America/New_York"
  /\ getTimezoneInfo "America/Argentina/Buenos_Aires" 180
     = mkInfo "Buenos Aires" "UTC-3" "America/Argentina/Buenos_Aires"
  /\ getTimezoneInfo "UTC" 0 = mkInfo "UTC" "UTC+0" "UTC".
Proof. repeat split. Qed.

(** X16. The time zone name shown is the part of the identifier after
    its last slash, with every underscore turned into a space: the
    identifier so rewritten is the name shown behind a front part that
    is empty or ends with a slash, and the name shown holds neither a
    slash nor an underscore. This determines the name. The value kept
    for the fingerprint is the identifier itself. *)
Theorem readable_timezone (tz : string) (minutes : Z) :
  let shown := getTimezoneInfo tz minutes in
  raw shown = tz
  /\ (exists front,
        replaceUnderscores tz = front ++ timezone shown
        /\ (front = "" \/ exists rest, front = rest ++ "/"))
  /\ (forall c, In c (list_ascii_of_string (timezone shown)) ->
        c <> "/"%char /\ c <> "_"%char)
  /\ (forall front name,
        replaceUnderscores tz = front ++ name ->
        (front = "" \/ exists rest, front = rest ++ "/") ->
        (forall c, In c (list_ascii_of_string name) -> c <> "/"%char) ->
        name = timezone shown).
Proof.
  intros shown. subst shown. unfold getTimezoneInfo.
  cbn [raw timezone].
  destruct (join_split "/" (replaceUnderscores tz)) as [Hjoin Hfree].
  destruct (last_of_join "/" (split "/" (replaceUnderscores tz)))
    as (front & Hfront & Hends).
  rewrite Hjoin in Hfront.
  assert (Hslash : forall c,
             In c (list_ascii_of_string
                     (pop (split "/" (replaceUnderscores tz)))) ->
             c <> "/"%char).
  { intros c Hc. rewrite Forall_forall in Hfree.
    apply (Hfree (pop (split "/" (replaceUnderscores tz)))); [|exact Hc].
    unfold pop.
    pose proof (split_nonempty "/" (replaceUnderscores tz)) as Hne.
    destruct (split "/" (replaceUnderscores tz)) as [|p ps];
      [contradiction|].
    apply (@exists_last _ (p :: ps)) in Hne as (l' & a & Heq).
    rewrite Heq, last_last. apply in_or_app. right. now left. }
  split; [reflexivity|]. split; [now exists front|].
  split; [|intros front' name Hname Hends' Hfree';
           exact (after_last_slash _ _ _ _ _ Hname Hfront Hends' Hends
                    Hfree' Hslash)].
  intros c Hc. split; [now apply Hslash|].
  apply (replaceUnderscores_free tz). rewrite Hfront, chars_append.
  apply in_or_app. now right.
Qed.

(** X17. The offset text gets the hours wrong for zones ahead of UTC by
    a number of hours that is not whole: for [getTimezoneOffset()] =
    -(60 h + m) with 0 < m < 60 the hours shown are h + 1, because the
    quotient is rounded down before its sign is dropped, so that -330
    (India, UTC+5:30) reads UTC+6:30. The minutes are always right, and
    so are the hours for whole-hour offsets and for zones behind UTC. *)
Theorem offset_hours_of_partial_hour_zones (h m : Z) :
  (0 <= h)%Z -> (0 < m < 60)%Z ->
  offsetHours (- (60 * h + m)) = (h + 1)%Z
  /\ offsetMins (- (60 * h + m)) = m
  /\ offsetStr (- (60 * h + m))
     = "UTC+" ++ String_minutes (h + 1) ++ ":" ++ padStart2 (String_minutes m)
  /\ offsetHours (60 * h + m) = h
  /\ offsetMins (60 * h + m) = m
  /\ offsetHours (60 * h) = h /\ offsetMins (60 * h) = 0%Z
  /\ offsetHours (- (60 * h)) = h /\ offsetMins (- (60 * h)) = 0%Z.
Proof.
  intros Hh Hm.
  assert (Hneg : (- (60 * h + m) / 60 = - (h + 1))%Z)
    by (symmetry; apply (Z.div_unique _ _ _ (60 - m)); lia).
  assert (Hpos : ((60 * h + m) / 60 = h)%Z)
    by (symmetry; apply (Z.div_unique _ _ _ m); lia).
  assert (Hrem : Z.rem (60 * h + m) 60 = m).
  { rewrite Z.rem_mod_nonneg by lia.
    symmetry. apply (Z.mod_unique _ _ h); lia. }
  assert (Hwhole : ((60 * h) / 60 = h)%Z)
    by (symmetry; apply (Z.div_unique _ _ _ 0); lia).
  assert (Hwhole' : (- (60 * h) / 60 = - h)%Z)
    by (symmetry; apply (Z.div_unique _ _ _ 0); lia).
  assert (Hrem0 : Z.rem (60 * h) 60 = 0%Z).
  { rewrite Z.rem_mod_nonneg by lia.
    symmetry. apply (Z.mod_unique _ _ h); lia. }
  assert (H1 : offsetHours (- (60 * h + m)) = (h + 1)%Z)
    by (unfold offsetHours; rewrite Hneg; lia).
  assert (H2 : offsetMins (- (60 * h + m)) = m)
    by (unfold offsetMins; rewrite Z.rem_opp_l by lia; rewrite Hrem; lia).
  split; [exact H1|]. split; [exact H2|]. split.
  - unfold offsetStr. rewrite H1, H2.
    replace (- (60 * h + m) <=? 0)%Z with true by (symmetry; apply Z.leb_le; lia).
    replace (m =? 0)%Z with false by (symmetry; apply Z.eqb_neq; lia).
    reflexivity.
  - unfold offsetHours, offsetMins.
    rewrite Hpos, Hrem, Hwhole, Hwhole', Hrem0,
      (Z.rem_opp_l (60 * h)), Hrem0 by lia.
    repeat split; lia.
Qed.

Lemma offset_hours_of_partial_hour_zones_witness :
  offsetStr (-330) = "UTC+6:30".
Proof.
  exact (proj1 (proj2 (proj2
           (offset_hours_of_partial_hour_zones 5 30 ltac:(lia) ltac:(lia))))).
Defined.

End TimezoneFacts.

(** ** The hash function *)

Module MD5Facts.
Import MD5.
Local Open Scope Z_scope.

(** The reference values of RFC 1321. *)
Example md5_reference_values :
  md5 "" = "D41D8CD98F00B204E9800998ECF8427E"%string
  /\ md5 "a" = "0CC175B9C0F1B6A831C399E269772661"%string
  /\ md5 "abc" = "900150983CD24FB0D6963F7D28E17F72"%string
  /\ md5 "message digest" = "F96B697D7CB7938D525A2F31AAF161D0"%string
  /\ md5 "abcdefghijklmnopqrstuvwxyz"
     = "C3FCD3D76192E4007DFB496CCA67E13B"%string
  /\ md5 "ABCDEFGHIJKLMNOPQRSTUVWXYZabcdefghijklmnopqrstuvwxyz0123456789"
     = "D174AB98D277D9F5A5611C2C9F419D9F"%string
  /\ md5 "12345678901234567890123456789012345678901234567890123456789012345678901234567890"
     = "57EDF4A22BE3C955AC49DA2E2107B67A"%string.
Proof. vm_compute. repeat split. Qed.

Lemma ToInt32_range (x : Z) : - 2147483648 <= ToInt32 x < 2147483648.
Proof.
  unfold ToInt32. change (2 ^ 31) with 2147483648.
  change (2 ^ 32) with 4294967296.
  pose proof (Z.mod_pos_bound (x + 2147483648) 4294967296). lia.
Qed.

Lemma ToInt32_small (x : Z) :
  - 2147483648 <= x < 2147483648 -> ToInt32 x = x.
Proof.
  intros H. unfold ToInt32. change (2 ^ 31) with 2147483648.
  change (2 ^ 32) with 4294967296.
  rewrite Z.mod_small by lia. lia.
Qed.

Lemma ToInt32_periodic (x k : Z) : ToInt32 (x + k * 4294967296) = ToInt32 x.
Proof.
  unfold ToInt32. change (2 ^ 32) with 4294967296.
  replace (x + k * 4294967296 + 2 ^ 31)
    with (x + 2 ^ 31 + k * 4294967296) by ring.
  now rewrite Z.mod_add by lia.
Qed.

Lemma ToInt32_representative (x : Z) :
  exists k, ToInt32 x = x + k * 4294967296.
Proof.
  exists (- ((x + 2147483648) / 4294967296)).
  unfold ToInt32. change (2 ^ 31) with 2147483648.
  change (2 ^ 32) with 4294967296.
  pose proof (Z.div_mod (x + 2147483648) 4294967296). lia.
Qed.

Lemma ToInt32_idempotent (x : Z) : ToInt32 (ToInt32 x) = ToInt32 x.
Proof. apply ToInt32_small, ToInt32_range. Qed.

(** Bits that do not overlap add up. *)
Lemma land_disjoint (high low n : Z) :
  0 <= n -> 0 <= low < 2 ^ n -> Z.land (high * 2 ^ n) low = 0.
Proof.
  intros Hn Hlow. rewrite <- Z.shiftl_mul_pow2 by assumption.
  apply Z.bits_inj'. intros i Hi. rewrite Z.land_spec, Z.bits_0.
  destruct (Z.lt_ge_cases i n) as [Hlt|Hge].
  - now rewrite Z.shiftl_spec_low.
  - rewrite <- (Z.mod_small low (2 ^ n)) by assumption.
    rewrite Z.mod_pow2_bits_high by lia. apply andb_false_r.
Qed.

Lemma lor_disjoint (high low n : Z) :
  0 <= n -> 0 <= low < 2 ^ n ->
  Z.lor (high * 2 ^ n) low = high * 2 ^ n + low.
Proof.
  intros Hn Hlow. pose proof (land_disjoint high low n Hn Hlow) as H.
  rewrite <- (Z.lxor_lor _ _ H). symmetry. now apply Z.add_nocarry_lxor.
Qed.

(** X18. [safeAdd] is addition modulo 2^32, with the result read as a
    signed 32-bit number, for all whole numbers. *)
Theorem safeAdd_is_addition_mod_2_32 (x y : Z) :
  safeAdd x y = ToInt32 (x + y)
  /\ - 2 ^ 31 <= safeAdd x y < 2 ^ 31
  /\ (safeAdd x y - (x + y)) mod 2 ^ 32 = 0.
Proof.
  assert (Hadd : safeAdd x y = ToInt32 (x + y)).
  { unfold safeAdd, band, bor, shl, sar.
    change (shiftCount 16) with 16.
    change (ToInt32 65535) with 65535.
    change 65535 with (Z.ones 16).
    rewrite !Z.land_ones, !Z.shiftr_div_pow2, Z.shiftl_mul_pow2 by lia.
    change (2 ^ 16) with 65536.
    pose proof (ToInt32_range x) as Hx.
    pose proof (ToInt32_range y) as Hy.
    destruct (ToInt32_representative x) as [kx Hkx].
    destruct (ToInt32_representative y) as [ky Hky].
    set (X := ToInt32 x) in *. set (Y := ToInt32 y) in *.
    pose proof (Z.div_mod X 65536 ltac:(lia)) as HX.
    pose proof (Z.div_mod Y 65536 ltac:(lia)) as HY.
    pose proof (Z.mod_pos_bound X 65536 ltac:(lia)) as HXm.
    pose proof (Z.mod_pos_bound Y 65536 ltac:(lia)) as HYm.
    set (lsw := X mod 65536 + Y mod 65536) in *.
    rewrite (ToInt32_small lsw) by lia.
    pose proof (Z.div_mod lsw 65536 ltac:(lia)) as HL.
    pose proof (Z.mod_pos_bound lsw 65536 ltac:(lia)) as HLm.
    assert (HLd : 0 <= lsw / 65536 <= 1).
    { split; [apply Z.div_pos; lia|].
      apply Z.lt_succ_r, Z.div_lt_upper_bound; lia. }
    set (msw := X / 65536 + Y / 65536 + lsw / 65536) in *.
    assert (Hmsw : - 65536 <= msw <= 65535).
    { assert (- 32768 <= X / 65536 < 32768)
        by (split; [apply Z.div_le_lower_bound
                   |apply Z.div_lt_upper_bound]; lia).
      assert (- 32768 <= Y / 65536 < 32768)
        by (split; [apply Z.div_le_lower_bound
                   |apply Z.div_lt_upper_bound]; lia).
      unfold msw. lia. }
    rewrite (ToInt32_small msw) by lia.
    rewrite ToInt32_idempotent.
    rewrite (ToInt32_small (lsw mod 65536)) by lia.
    assert (Hsum : x + y = msw * 65536 + lsw mod 65536
                           + (- kx - ky) * 4294967296)
      by (unfold msw; lia).
    rewrite Hsum, ToInt32_periodic.
    destruct (ToInt32_representative (msw * 65536)) as [k Hk].
    pose proof (ToInt32_range (msw * 65536)) as Hr.
    rewrite Hk in *.
    replace (msw * 65536 + k * 4294967296)
      with ((msw + k * 65536) * 2 ^ 16) in * by (change (2 ^ 16) with 65536; ring).
    rewrite lor_disjoint by (change (2 ^ 16) with 65536; lia).
    change (2 ^ 16) with 65536 in *.
    replace (msw * 65536 + lsw mod 65536)
      with ((msw + k * 65536) * 65536 + lsw mod 65536
            + (- k) * 4294967296) by ring.
    rewrite ToInt32_periodic.
    symmetry. apply ToInt32_small. lia. }
  split; [exact Hadd|]. rewrite Hadd. split.
  - change (2 ^ 31) with 2147483648. apply ToInt32_range.
  - destruct (ToInt32_representative (x + y)) as [k ->].
    change (2 ^ 32) with 4294967296.
    replace (x + y + k * 4294967296 - (x + y)) with (k * 4294967296) by ring.
    apply Z.mod_mul. lia.
Qed.

(** Strings over an alphabet. *)
Lemma band_15 (z : Z) : 0 <= band z 0xF < 16.
Proof.
  unfold band. change (ToInt32 15) with (Z.ones 4).
  rewrite Z.land_ones by lia. apply Z.mod_pos_bound. reflexivity.
Qed.

Lemma charAt_hexTab (n : Z) :
  0 <= n < 16 ->
  exists c, charAt hexTab n = String c ""
            /\ In c (list_ascii_of_string hexTab)
            /\ In (match toUpperCase (String c "") with
                   | String u _ => u
                   | EmptyString => c
                   end) (list_ascii_of_string "0123456789ABCDEF").
Proof.
  intros H. rewrite <- (Z2Nat.id n) by lia.
  assert (Hk : (Z.to_nat n < 16)%nat) by lia.
  revert Hk. generalize (Z.to_nat n) as k. clear n H. intros k.
  do 16 (destruct k as [|k];
         [intros _; eexists; split; [reflexivity|];
          split; vm_compute; tauto|]).
  intros Hk. exfalso. lia.
Qed.

Lemma length_append (a b : string) :
  String.length (a ++ b) = (String.length a + String.length b)%nat.
Proof. induction a as [|c a IH]; simpl; [reflexivity|now rewrite IH]. Qed.

Lemma toUpperCase_append (a b : string) :
  toUpperCase (a ++ b) = (toUpperCase a ++ toUpperCase b)%string.
Proof. induction a as [|c a IH]; simpl; [reflexivity|now rewrite IH]. Qed.

(** What [binl2hex] appends for one index: two digits. *)
Lemma binl2hex_loop (f : Z -> string) (indices : list Z) (str : string) :
  (forall i, String.length (f i) = 2%nat
             /\ Forall (fun c => In c (list_ascii_of_string "0123456789ABCDEF"))
                  (list_ascii_of_string (toUpperCase (f i)))) ->
  let result := fold_left (fun str i => (str ++ f i)%string) indices str in
  String.length result = (String.length str + 2 * List.length indices)%nat
  /\ (Forall (fun c => In c (list_ascii_of_string "0123456789ABCDEF"))
        (list_ascii_of_string (toUpperCase str)) ->
      Forall (fun c => In c (list_ascii_of_string "0123456789ABCDEF"))
        (list_ascii_of_string (toUpperCase result))).
Proof.
  intros Hf. revert str.
  induction indices as [|i indices IH]; intros str; cbn [fold_left].
  - split; [cbn [List.length]; lia | trivial].
  - destruct (IH (str ++ f i)%string) as [IHlen IHhex].
    destruct (Hf i) as [Hlen Hhex].
    split.
    + rewrite IHlen, length_append, Hlen. cbn [List.length]. lia.
    + intros Hstr. apply IHhex.
      rewrite toUpperCase_append, TimezoneFacts.chars_append.
      apply Forall_app. now split.
Qed.

Lemma binlMD5_length (x : list Z) (len : Z) :
  List.length (binlMD5 x len) = 4%nat.
Proof.
  unfold binlMD5. cbv zeta.
  destruct (fold_left _ _ _) as [[[a b] c] d]. reflexivity.
Qed.

(** X19. On every string of code units below 256, [md5] returns 32
    characters, each an upper-case hexadecimal digit; so does
    [generateFingerprintHash] for every list of values whose strings
    are made of such code units. *)
Theorem md5_is_32_hex_digits (str : string) :
  (String.length (md5 str) = 32%nat
   /\ Forall (fun c => In c (list_ascii_of_string "0123456789ABCDEF"))
        (list_ascii_of_string (md5 str)))
  /\ forall values,
       String.length (Fingerprint.generateFingerprintHash md5 values) = 32%nat.
Proof.
  assert (H : forall s,
             String.length (md5 s) = 32%nat
             /\ Forall (fun c => In c (list_ascii_of_string "0123456789ABCDEF"))
                  (list_ascii_of_string (md5 s))).
  { intros s. unfold md5. cbv zeta.
    set (digest := binlMD5 _ _).
    assert (Hdigest : List.length digest = 4%nat) by apply binlMD5_length.
    unfold binl2hex.
    match goal with
    | |- context [fold_left ?step ?indices ""%string] =>
        pose proof (binl2hex_loop
                      (fun i =>
                         (charAt hexTab
                            (band (sar (read digest (sar i 2))
                                     (Z.rem i 4 * 8 + 4)) 15)
                          ++ charAt hexTab
                               (band (sar (read digest (sar i 2))
                                        (Z.rem i 4 * 8)) 15))%string)
                      indices ""%string) as Hloop
    end.
    cbv zeta in Hloop.
    destruct Hloop as [Hlen Hhex].
    - intros i.
      destruct (charAt_hexTab _ (band_15 (sar (read digest (sar i 2))
                                            (Z.rem i 4 * 8 + 4))))
        as (c1 & -> & _ & Hc1).
      destruct (charAt_hexTab _ (band_15 (sar (read digest (sar i 2))
                                            (Z.rem i 4 * 8))))
        as (c2 & -> & _ & Hc2).
      split; [reflexivity|].
      cbn [append toUpperCase list_ascii_of_string] in *.
      repeat apply Forall_cons; try apply Forall_nil; assumption.
    - split.
      + assert (Hup : forall t, String.length (toUpperCase t) = String.length t)
          by (induction t as [|c t IH]; simpl; [reflexivity|now rewrite IH]).
        rewrite Hup, Hlen, List.length_map, List.length_seq, Hdigest.
        reflexivity.
      + apply Hhex. apply Forall_nil. }
  split; [apply H|]. intros values.
  unfold Fingerprint.generateFingerprintHash. apply H.
Qed.

Lemma shiftCount_small (n : Z) : 0 <= n < 32 -> shiftCount n = n.
Proof.
  intros H. unfold shiftCount, ToUint32. change 31 with (Z.ones 5).
  rewrite Z.land_ones by lia. change (2 ^ 5) with 32.
  rewrite (Z.mod_small n (2 ^ 32)) by (change (2 ^ 32) with 4294967296; lia).
  apply Z.mod_small. exact H.
Qed.

(** X20. [bitRotateLeft] rotates the 32 bits of its argument: for a
    count between 1 and 31 the bits shifted out at the top come back at
    the bottom. *)
Theorem bitRotateLeft_rotates (num cnt : Z) :
  0 < cnt < 32 ->
  ToUint32 (bitRotateLeft num cnt)
  = (ToUint32 num * 2 ^ cnt) mod 2 ^ 32 + ToUint32 num / 2 ^ (32 - cnt).
Proof.
  intros Hcnt.
  unfold bitRotateLeft, bor, shl, shr.
  rewrite !shiftCount_small by lia.
  rewrite ToInt32_idempotent, Z.shiftl_mul_pow2, Z.shiftr_div_pow2 by lia.
  assert (Hsplit : 2 ^ cnt * 2 ^ (32 - cnt) = 4294967296).
  { rewrite <- Z.pow_add_r by lia.
    replace (cnt + (32 - cnt)) with 32 by ring. reflexivity. }
  assert (HP : 0 < 2 ^ cnt) by (apply Z.pow_pos_nonneg; lia).
  assert (HQ : 0 < 2 ^ (32 - cnt)) by (apply Z.pow_pos_nonneg; lia).
  set (P := 2 ^ cnt) in *. set (Q := 2 ^ (32 - cnt)) in *.
  assert (HU : 0 <= ToUint32 num < 4294967296)
    by (unfold ToUint32; change (2 ^ 32) with 4294967296;
        apply Z.mod_pos_bound; lia).
  assert (HXU : exists j, ToInt32 num = ToUint32 num + j * 4294967296).
  { destruct (ToInt32_representative num) as [k Hk].
    exists (k + num / 4294967296). rewrite Hk. unfold ToUint32.
    change (2 ^ 32) with 4294967296.
    pose proof (Z.div_mod num 4294967296). lia. }
  destruct HXU as [j HX].
  set (U := ToUint32 num) in *.
  assert (HB : 0 <= U / Q < P).
  { split; [apply Z.div_pos; lia|].
    apply Z.div_lt_upper_bound; [lia|]. rewrite Z.mul_comm. lia. }
  assert (HP31 : P <= 2147483648).
  { unfold P. change 2147483648 with (2 ^ 31).
    apply Z.pow_le_mono_r; lia. }
  rewrite (ToInt32_small (U / Q)) by lia.
  destruct (ToInt32_representative (ToInt32 num * P)) as [k Hk].
  rewrite Hk, HX.
  replace ((U + j * 4294967296) * P + k * 4294967296)
    with ((U + j * 4294967296 + k * Q) * P) by (rewrite <- Hsplit; ring).
  unfold P at 1. rewrite lor_disjoint by (fold P; lia). fold P.
  unfold ToUint32 at 1. change (2 ^ 32) with 4294967296.
  pose proof (Z.div_mod (U * P) 4294967296 ltac:(lia)) as Hdm.
  pose proof (Z.mod_pos_bound (U * P) 4294967296 ltac:(lia)) as Hr.
  set (q := U * P / 4294967296) in *.
  set (r := (U * P) mod 4294967296) in *.
  assert (Hmult : r = (U - Q * q) * P) by (rewrite <- Hsplit in Hdm; lia).
  assert (Hm : U - Q * q < Q) by nia.
  assert (Hr' : r + U / Q < 4294967296) by nia.
  symmetry.
  apply (Z.mod_unique _ _ (q + j * P + k)); [lia|].
  rewrite <- Hsplit in *. nia.
Qed.

Lemma bitRotateLeft_rotates_witness :
  ToUint32 (bitRotateLeft (-2147483647) 1) = 3.
Proof.
  exact (bitRotateLeft_rotates (-2147483647) 1 ltac:(lia)).
Defined.

End MD5Facts.

(** ** User agent *)

Module UserAgentFacts.
Import UserAgent.

Lemma takeDigits_digits (s : string) : allDigits (takeDigits s) = true.
Proof.
  unfold allDigits. induction s as [|c s IH]; simpl; [reflexivity|].
  destruct (isDigit c) eqn:Hc; simpl; [now rewrite Hc|reflexivity].
Qed.

Lemma firstMatch_somewhere (matchHere : string -> option string)
    (s captured : string) :
  firstMatch matchHere s = Some captured ->
  exists front rest, s = front ++ rest /\ matchHere rest = Some captured.
Proof.
  induction s as [|c s IH]; simpl.
  - destruct (matchHere "") eqn:H; [|discriminate].
    intros [= <-]. now exists "", "".
  - destruct (matchHere (String c s)) eqn:H.
    + intros [= <-]. now exists "", (String c s).
    + intros Hs. destruct (IH Hs) as (front & rest & -> & Hrest).
      now exists (String c front), rest.
Qed.

Lemma versionAfter_digits (p ua : string) :
  allDigits (versionAfter p ua) = true.
Proof.
  unfold versionAfter.
  destruct (firstMatch (versionHere p) ua) as [captured|] eqn:H;
    [|reflexivity].
  apply firstMatch_somewhere in H as (front & rest & _ & H).
  unfold versionHere in H.
  destruct (dropPrefix p rest) as [rest'|]; [|discriminate].
  pose proof (takeDigits_digits rest') as Hd.
  destruct (takeDigits rest'); [discriminate|].
  now injection H as <-.
Qed.

Lemma firstWord_cons (c : ascii) (s : string) :
  firstWord (String c s)
  = if Ascii.eqb c " " then "" else String c (firstWord s).
Proof.
  unfold firstWord. cbn [Timezone.split].
  destruct (Ascii.eqb c " "); [reflexivity|].
  pose proof (TimezoneFacts.split_nonempty " " s) as Hne.
  destruct (Timezone.split " " s); [contradiction|reflexivity].
Qed.

Lemma digit_is_no_underscore (c : ascii) :
  isDigit c = true -> Ascii.eqb c "_" = false.
Proof.
  intros H. destruct (Ascii.eqb c "_") eqn:Hc; [|reflexivity].
  apply Ascii.eqb_eq in Hc. subst c. discriminate.
Qed.

Lemma replaceFirstUnderscore_digits (s : string) :
  allDigits s = true -> replaceFirstUnderscore s = s.
Proof.
  unfold allDigits. induction s as [|c s IH]; simpl; [reflexivity|].
  intros H. apply andb_prop in H as [Hc Hs].
  now rewrite (digit_is_no_underscore c Hc), IH.
Qed.

Lemma replaceFirstUnderscore_version (major minor : string) (c : ascii) :
  allDigits major = true -> allDigits minor = true ->
  Ascii.eqb c "." || Ascii.eqb c "_" = true ->
  replaceFirstUnderscore (major ++ String c minor)
  = major ++ String "." minor.
Proof.
  unfold allDigits. intros Hmajor Hminor Hc.
  induction major as [|d major IH]; simpl in *.
  - destruct (Ascii.eqb c "_") eqn:Hu; [reflexivity|].
    rewrite orb_false_r in Hc. apply Ascii.eqb_eq in Hc. subst c.
    now rewrite replaceFirstUnderscore_digits.
  - apply andb_prop in Hmajor as [Hd Hmajor].
    now rewrite (digit_is_no_underscore d Hd), IH.
Qed.

(** X21. [parseUserAgent] names one of four browser families followed
    by a space and a version made of digits only (possibly none), or
    Unknown Browser; the first word of that name, which the user agent
    test looks up, is Firefox, Edge, Chrome, Safari or Unknown, and
    never Opera. The system is one of eight fixed names, or macOS
    followed by a version whose separator is always a dot. *)
Theorem parseUserAgent_shape (ua : string) :
  let p := parseUserAgent ua in
  firstWord (browser p) = Tests.browserName ua
  /\ In (firstWord (browser p))
       ["Firefox"; "Edge"; "Chrome"; "Safari"; "Unknown"]
  /\ (browser p = "Unknown Browser"
      \/ exists version,
           browser p = firstWord (browser p) ++ " " ++ version
           /\ allDigits version = true)
  /\ (In (os p)
        ["iOS"; "Windows 10/11"; "Windows 10"; "Windows"; "macOS";
         "Android"; "Linux"; "Unknown OS"]
      \/ exists major minor,
           os p = "macOS " ++ major ++ "." ++ minor
           /\ major <> "" /\ minor <> ""
           /\ allDigits major = true /\ allDigits minor = true).
Proof.
  intros p. subst p. unfold parseUserAgent, Tests.browserName.
  cbn [browser os].
  repeat split.
  - destruct (includes ua "Firefox/");
      [cbn [append]; now rewrite !firstWord_cons|].
    destruct (includes ua "Edg/");
      [cbn [append]; now rewrite !firstWord_cons|].
    destruct (includes ua "Chrome/");
      [cbn [append]; now rewrite !firstWord_cons|].
    destruct (includes ua "Safari/" && negb (includes ua "Chrome"));
      [cbn [append]; now rewrite !firstWord_cons|].
    reflexivity.
  - destruct (includes ua "Firefox/");
      [cbn [append]; rewrite !firstWord_cons; simpl; tauto|].
    destruct (includes ua "Edg/");
      [cbn [append]; rewrite !firstWord_cons; simpl; tauto|].
    destruct (includes ua "Chrome/");
      [cbn [append]; rewrite !firstWord_cons; simpl; tauto|].
    destruct (includes ua "Safari/" && negb (includes ua "Chrome"));
      [cbn [append]; rewrite !firstWord_cons; simpl; tauto|].
    simpl. tauto.
  - destruct (includes ua "Firefox/");
      [right; eexists; split; [|apply versionAfter_digits];
       cbn [append]; rewrite !firstWord_cons; reflexivity|].
    destruct (includes ua "Edg/");
      [right; eexists; split; [|apply versionAfter_digits];
       cbn [append]; rewrite !firstWord_cons; reflexivity|].
    destruct (includes ua "Chrome/");
      [right; eexists; split; [|apply versionAfter_digits];
       cbn [append]; rewrite !firstWord_cons; reflexivity|].
    destruct (includes ua "Safari/" && negb (includes ua "Chrome"));
      [right; eexists; split; [|apply versionAfter_digits];
       cbn [append]; rewrite !firstWord_cons; reflexivity|].
    now left.
  - destruct (includes ua "iPhone" || includes ua "iPad");
      [left; simpl; tauto|].
    destruct (includes ua "Windows NT 10.0");
      [destruct (includes ua "Windows NT 10.0; Win64"); left; simpl; tauto|].
    destruct (includes ua "Windows NT"); [left; simpl; tauto|].
    destruct (includes ua "Mac OS X").
    + destruct (firstMatch macVersionHere ua) as [captured|] eqn:Hm;
        [|left; simpl; tauto].
      right. apply firstMatch_somewhere in Hm as (front & rest & _ & Hm).
      unfold macVersionHere in Hm.
      destruct (dropPrefix "Mac OS X " rest) as [rest'|]; [|discriminate].
      pose proof (takeDigits_digits rest') as Hmajor.
      destruct (takeDigits rest') as [|d major]; [discriminate|].
      destruct (dropDigits rest') as [|c rest'']; [discriminate|].
      destruct (Ascii.eqb c "." || Ascii.eqb c "_") eqn:Hc; [|discriminate].
      pose proof (takeDigits_digits rest'') as Hminor.
      destruct (takeDigits rest'') as [|e minor]; [discriminate|].
      injection Hm as <-.
      exists (String d major), (String e minor).
      pose proof (replaceFirstUnderscore_version (String d major)
                    (String e minor) c Hmajor Hminor Hc) as Hr.
      cbn [append] in Hr |- *. rewrite Hr.
      repeat split; try discriminate; assumption.
    + destruct (includes ua "Linux");
        [destruct (includes ua "Android"); left; simpl; tauto|].
      left. simpl. tauto.
Qed.

(** X22. The user agent test resolves the browser family by an exact
    key of [BROWSER_DATA], or falls back to the user agent baseline when
    the family is Unknown: its entropy is that of the Firefox, Edge,
    Chrome or Safari share, or the 6.32 bits of the baseline, and it is
    marked estimated exactly in the last case. The Opera row of the
    table is never used. *)
Theorem userAgent_test_outcomes (b : Tests.browser) :
  let family := firstWord (browser (parseUserAgent (Tests.userAgent b))) in
  let o := Tests.run_userAgent b in
  (family = "Firefox" -> contribution "userAgent" o = percentToEntropy 3)
  /\ (family = "Edge" -> contribution "userAgent" o = percentToEntropy 5)
  /\ (family = "Chrome" -> contribution "userAgent" o = percentToEntropy 65)
  /\ (family = "Safari" -> contribution "userAgent" o = percentToEntropy 18)
  /\ (family = "Unknown" ->
      contribution "userAgent" o = bits (baseline "userAgent"))
  /\ (markedEstimated "userAgent" o = true <-> family = "Unknown")
  /\ In family ["Firefox"; "Edge"; "Chrome"; "Safari"; "Unknown"].
Proof.
  intros family o.
  assert (Hfamily : family = Tests.browserName (Tests.userAgent b)).
  { subst family. unfold parseUserAgent, Tests.browserName. cbn [browser].
    destruct (includes _ "Firefox/");
      [cbn [append]; now rewrite !firstWord_cons|].
    destruct (includes _ "Edg/");
      [cbn [append]; now rewrite !firstWord_cons|].
    destruct (includes _ "Chrome/");
      [cbn [append]; now rewrite !firstWord_cons|].
    destruct (includes _ "Safari/" && negb (includes _ "Chrome"));
      [cbn [append]; now rewrite !firstWord_cons|].
    reflexivity. }
  subst o. unfold Tests.run_userAgent. rewrite <- Hfamily.
  assert (Hin : In family ["Firefox"; "Edge"; "Chrome"; "Safari"; "Unknown"]).
  { rewrite Hfamily. unfold Tests.browserName.
    destruct (includes _ "Firefox/"); [simpl; tauto|].
    destruct (includes _ "Edg/"); [simpl; tauto|].
    destruct (includes _ "Chrome/"); [simpl; tauto|].
    destruct (includes _ "Safari/" && negb (includes _ "Chrome"));
      simpl; tauto. }
  clear Hfamily.
  destruct Hin as [H|[H|[H|[H|[H|[]]]]]]; rewrite <- H;
    repeat split; intros; try discriminate; try reflexivity;
    simpl; tauto.
Qed.

End UserAgentFacts.

(** ** Bold markers and the typewriter *)

Module TypewriterFacts.
Import Typewriter.

Lemma boldHere_no_star (c : ascii) (s : string) :
  notStar c = true -> boldHere (String c s) = None.
Proof.
  unfold boldHere, notStar. intros H. apply negb_true_iff in H.
  rewrite Ascii.eqb_sym in H. cbn [UserAgent.dropPrefix]. now rewrite H.
Qed.

Lemma takeRun_starFree (b rest : string) :
  starFree b = true ->
  takeRun (b ++ String "*" rest) = b
  /\ dropRun (b ++ String "*" rest) = String "*" rest.
Proof.
  unfold starFree. induction b as [|c b IH]; simpl; [now split|].
  intros H. apply andb_prop in H as [Hc Hb]. rewrite Hc.
  destruct (IH Hb) as [-> ->]. now split.
Qed.

Lemma boldHere_bold (b rest : string) :
  starFree b = true -> b <> "" ->
  boldHere ("**" ++ b ++ "**" ++ rest) = Some b.
Proof.
  intros Hb Hne. unfold boldHere. cbn [append UserAgent.dropPrefix Ascii.eqb Bool.eqb].
  destruct (takeRun_starFree b (String "*" rest) Hb) as [-> ->].
  cbn [UserAgent.dropPrefix Ascii.eqb Bool.eqb].
  destruct b; [contradiction|reflexivity].
Qed.

Lemma formatBoldFrom_plain (a s : string) :
  starFree a = true ->
  formatBoldFrom (a ++ s) 0 = a ++ formatBoldFrom s 0.
Proof.
  unfold starFree. induction a as [|c a IH]; simpl; [reflexivity|].
  intros H. apply andb_prop in H as [Hc Ha].
  change (match UserAgent.dropPrefix "**" (String c (a ++ s)) with
          | Some rest => _ | None => None end)
    with (boldHere (String c (a ++ s))).
  rewrite (boldHere_no_star c _ Hc). now rewrite IH.
Qed.

Lemma formatBoldFrom_skip (x s : string) :
  formatBoldFrom (x ++ s) (String.length x) = formatBoldFrom s 0.
Proof. induction x as [|c x IH]; [reflexivity|exact IH]. Qed.

Lemma splitFrom_plain (a s current : string) :
  starFree a = true ->
  splitFrom (a ++ s) 0 current = splitFrom s 0 (current ++ a).
Proof.
  unfold starFree. revert current.
  induction a as [|c a IH]; intros current; simpl.
  - now rewrite FingerprintFacts.append_empty_r.
  - intros H. apply andb_prop in H as [Hc Ha].
    change (match UserAgent.dropPrefix "**" (String c (a ++ s)) with
            | Some rest => _ | None => None end)
      with (boldHere (String c (a ++ s))).
    rewrite (boldHere_no_star c _ Hc), IH by assumption.
    now rewrite FingerprintFacts.append_assoc.
Qed.

Lemma splitFrom_skip (x s current : string) :
  splitFrom (x ++ s) (String.length x) current = splitFrom s 0 current.
Proof. induction x as [|c x IH]; [reflexivity|exact IH]. Qed.

Lemma starFree_append (a b : string) :
  starFree (a ++ b) = starFree a && starFree b.
Proof.
  unfold starFree. induction a as [|c a IH]; simpl; [reflexivity|].
  now rewrite IH, andb_assoc.
Qed.

Lemma formatBold_starFree (a : string) :
  starFree a = true -> formatBold a = a.
Proof.
  intros H. unfold formatBold.
  rewrite <- (FingerprintFacts.append_empty_r a) at 1.
  rewrite formatBoldFrom_plain by assumption.
  apply FingerprintFacts.append_empty_r.
Qed.

Lemma wellFormed_cons (plain bold : string)
    (segments : list (string * string)) (tail : string) :
  wellFormed ((plain, bold) :: segments) tail = true ->
  starFree plain = true /\ starFree bold = true /\ bold <> ""
  /\ wellFormed segments tail = true.
Proof.
  unfold wellFormed. cbn [forallb fst snd]. intros H.
  apply andb_prop in H as [H Htail].
  apply andb_prop in H as [H Hrest].
  apply andb_prop in H as [H Hne].
  apply andb_prop in H as [Hplain Hbold].
  repeat split; try assumption.
  - intros ->. discriminate.
  - now rewrite Hrest, Htail.
Qed.

Lemma unmarked_starFree (segments : list (string * string)) (tail : string) :
  wellFormed segments tail = true -> starFree (unmarked segments tail) = true.
Proof.
  induction segments as [|[plain bold] segments IH]; intros H.
  - unfold wellFormed in H. exact H.
  - apply wellFormed_cons in H as (Hp & Hb & _ & H).
    cbn [unmarked]. now rewrite !starFree_append, Hp, Hb, IH.
Qed.

Lemma formatBoldFrom_step (c : ascii) (s : string) :
  formatBoldFrom (String c s) 0
  = match boldHere (String c s) with
    | Some run =>
        "<strong>" ++ run ++ "</strong>"
        ++ formatBoldFrom s (String.length run + 3)
    | None => String c (formatBoldFrom s 0)
    end.
Proof. reflexivity. Qed.

Lemma splitFrom_step (c : ascii) (s current : string) :
  splitFrom (String c s) 0 current
  = match boldHere (String c s) with
    | Some run =>
        current :: ("**" ++ run ++ "**")
        :: splitFrom s (String.length run + 3) ""
    | None => splitFrom s 0 (current ++ String c "")
    end.
Proof. reflexivity. Qed.

(** One bold segment at the head of the text. *)
Lemma formatBoldFrom_bold (bold rest : string) :
  starFree bold = true -> bold <> "" ->
  formatBoldFrom ("**" ++ bold ++ "**" ++ rest) 0
  = "<strong>" ++ bold ++ "</strong>" ++ formatBoldFrom rest 0.
Proof.
  intros Hb Hne.
  pose proof (boldHere_bold bold rest Hb Hne) as Hhere.
  change ("**" ++ bold ++ "**" ++ rest)
    with (String "*" (String "*" (bold ++ "**" ++ rest))) in *.
  assert (Hskip : formatBoldFrom (String "*" (bold ++ "**" ++ rest))
                    (String.length bold + 3)
                  = formatBoldFrom rest 0).
  { replace (String "*" (bold ++ "**" ++ rest))
      with ((String "*" (bold ++ "**")) ++ rest)
      by (cbn [append]; now rewrite FingerprintFacts.append_assoc).
    replace (String.length bold + 3)%nat
      with (String.length (String "*" (bold ++ "**")))
      by (cbn [String.length]; rewrite MD5Facts.length_append; cbn [String.length]; lia).
    apply formatBoldFrom_skip. }
  rewrite formatBoldFrom_step, Hhere, Hskip. reflexivity.
Qed.

Lemma splitFrom_bold (bold rest current : string) :
  starFree bold = true -> bold <> "" ->
  splitFrom ("**" ++ bold ++ "**" ++ rest) 0 current
  = current :: ("**" ++ bold ++ "**") :: splitFrom rest 0 "".
Proof.
  intros Hb Hne.
  pose proof (boldHere_bold bold rest Hb Hne) as Hhere.
  change ("**" ++ bold ++ "**" ++ rest)
    with (String "*" (String "*" (bold ++ "**" ++ rest))) in *.
  assert (Hskip : splitFrom (String "*" (bold ++ "**" ++ rest))
                    (String.length bold + 3) ""
                  = splitFrom rest 0 "").
  { replace (String "*" (bold ++ "**" ++ rest))
      with ((String "*" (bold ++ "**")) ++ rest)
      by (cbn [append]; now rewrite FingerprintFacts.append_assoc).
    replace (String.length bold + 3)%nat
      with (String.length (String "*" (bold ++ "**")))
      by (cbn [String.length]; rewrite MD5Facts.length_append; cbn [String.length]; lia).
    apply splitFrom_skip. }
  rewrite splitFrom_step, Hhere, Hskip. reflexivity.
Qed.

Lemma formatBold_written (segments : list (string * string)) (tail : string) :
  wellFormed segments tail = true ->
  formatBold (written segments tail) = markedUp segments tail.
Proof.
  unfold formatBold.
  induction segments as [|[plain bold] segments IH]; intros H.
  - apply formatBold_starFree. exact H.
  - apply wellFormed_cons in H as (Hp & Hb & Hne & H).
    cbn [written markedUp].
    rewrite formatBoldFrom_plain, formatBoldFrom_bold, IH by assumption.
    reflexivity.
Qed.

Lemma split_written (segments : list (string * string)) (tail : string) :
  wellFormed segments tail = true ->
  split (written segments tail) = parts segments tail.
Proof.
  unfold split.
  induction segments as [|[plain bold] segments IH]; intros H.
  - cbn [written parts].
    rewrite <- (FingerprintFacts.append_empty_r tail) at 1.
    now rewrite splitFrom_plain.
  - apply wellFormed_cons in H as (Hp & Hb & Hne & H).
    cbn [written parts].
    rewrite splitFrom_plain, splitFrom_bold, IH by assumption.
    reflexivity.
Qed.

Lemma substring_middle (a b c : string) :
  String.substring (String.length a) (String.length b) (a ++ b ++ c) = b.
Proof.
  induction a as [|x a IH]; [|exact IH].
  cbn [append String.length].
  induction b as [|y b IHb]; simpl.
  - now destruct c.
  - now rewrite IHb.
Qed.

Lemma typed_plain (a : string) : starFree a = true -> typed a = a.
Proof.
  unfold typed, startsWith, starFree.
  destruct a as [|c a]; [reflexivity|]. cbn [list_ascii_of_string forallb].
  intros H. apply andb_prop in H as [Hc _]. cbn [String.prefix].
  destruct (ascii_dec "*" c) as [<-|Hneq]; [discriminate|reflexivity].
Qed.

Lemma typed_bold (bold : string) : typed ("**" ++ bold ++ "**") = bold.
Proof.
  unfold typed.
  assert (Hstart : startsWith ("**" ++ bold ++ "**") = true).
  { unfold startsWith.
    change ("**" ++ bold ++ "**") with (String "*" (String "*" (bold ++ "**"))).
    cbn [String.prefix].
    destruct (ascii_dec "*" "*") as [_|Hneq]; [|now contradiction Hneq].
    now destruct (bold ++ "**"). }
  assert (Hlen : String.length ("**" ++ bold ++ "**")
                 = (String.length bold + 4)%nat)
    by (cbn [append String.length]; rewrite MD5Facts.length_append;
        cbn [String.length]; lia).
  assert (Hend : endsWith ("**" ++ bold ++ "**") = true).
  { unfold endsWith. rewrite Hlen.
    replace (String.length bold + 4 - 2)%nat
      with (S (S (String.length bold))) by lia.
    assert (Hsub : String.substring (S (S (String.length bold))) 2
                     ("**" ++ bold ++ "**") = "**")
      by exact (substring_middle bold "**" "").
    rewrite Hsub.
    apply andb_true_intro. split; [apply Nat.leb_le; lia|reflexivity]. }
  rewrite Hstart, Hend. cbn [andb].
  unfold slice. rewrite Hlen.
  replace (Nat.min 2 (String.length bold + 4)) with 2%nat by lia.
  replace (String.length bold + 4 - 2 - 2)%nat
    with (String.length bold) by lia.
  exact (substring_middle "" bold "**").
Qed.

Lemma typed_parts (segments : list (string * string)) (tail : string) :
  wellFormed segments tail = true ->
  fold_right append "" (map typed (parts segments tail))
  = unmarked segments tail.
Proof.
  induction segments as [|[plain bold] segments IH]; intros H.
  - cbn [parts map fold_right unmarked].
    rewrite typed_plain by exact H. apply FingerprintFacts.append_empty_r.
  - apply wellFormed_cons in H as (Hp & Hb & Hne & H).
    cbn [parts map fold_right unmarked].
    now rewrite typed_plain, typed_bold, IH.
Qed.

(** The loop of [typewriterReveal]: the text typed grows by what each
    part adds, and the element always holds [formatBold] of the text
    typed so far. *)
Lemma typing_characters (chars : list ascii) (st : string * list string) :
  last (snd st) "" = formatBold (fst st) ->
  let st' :=
    fold_left
      (fun (st : string * list string) (char : ascii) =>
         let fullText := fst st ++ String char "" in
         (fullText, (snd st ++ [formatBold fullText])%list))
      chars st in
  fst st' = fst st ++ string_of_list_ascii chars
  /\ last (snd st') "" = formatBold (fst st').
Proof.
  revert st. induction chars as [|c chars IH]; intros st Hst; cbn [fold_left].
  - split; [|exact Hst].
    cbn [string_of_list_ascii]. now rewrite FingerprintFacts.append_empty_r.
  - cbv zeta.
    destruct (IH (fst st ++ String c "",
                  (snd st ++ [formatBold (fst st ++ String c "")])%list))
      as [Hfst Hlast].
    + cbn [fst snd]. apply last_last.
    + cbv zeta in Hfst, Hlast. cbn [fst snd] in Hfst.
      split; [|exact Hlast].
      rewrite Hfst, FingerprintFacts.append_assoc. reflexivity.
Qed.

Lemma typing_parts (pieces : list string) (st : string * list string) :
  last (snd st) "" = formatBold (fst st) ->
  let st' :=
    fold_left
      (fun (st : string * list string) (part : string) =>
         fold_left
           (fun (st : string * list string) (char : ascii) =>
              let fullText := fst st ++ String char "" in
              (fullText, (snd st ++ [formatBold fullText])%list))
           (list_ascii_of_string (typed part)) st)
      pieces st in
  fst st' = fst st ++ fold_right append "" (map typed pieces)
  /\ last (snd st') "" = formatBold (fst st').
Proof.
  revert st. induction pieces as [|part pieces IH]; intros st Hst;
    cbn [fold_left].
  - split; [|exact Hst].
    cbn [map fold_right]. now rewrite FingerprintFacts.append_empty_r.
  - destruct (typing_characters (list_ascii_of_string (typed part)) st Hst)
      as [Hfst Hlast].
    cbv zeta in Hfst, Hlast.
    destruct (IH _ Hlast) as [Hfst' Hlast'].
    cbv zeta in Hfst', Hlast'.
    split; [|exact Hlast'].
    rewrite Hfst', Hfst, string_of_list_ascii_of_string.
    cbn [map fold_right]. now rewrite FingerprintFacts.append_assoc.
Qed.

(** X23. With a typing speed other than 0 the element ends up holding
    [formatBold] of the text typed, and the text typed has lost the
    asterisks of every bold part: for a message written as the tests
    write theirs, plain texts and bold texts between double asterisks,
    what is shown in the end is the message without any strong element,
    although [formatBold] of the message itself marks every bold text
    up. With speed 0 the message is shown as written, asterisks
    included. *)
Theorem typewriter_drops_bold (segments : list (string * string))
    (tail : string) (speed : Z) :
  wellFormed segments tail = true ->
  formatBold (written segments tail) = markedUp segments tail
  /\ revealed (written segments tail) 0 = written segments tail
  /\ (speed <> 0%Z ->
      revealed (written segments tail) speed = unmarked segments tail)
  /\ forall html,
       speed <> 0%Z ->
       revealed html speed
       = formatBold (fold_right append "" (map typed (split html))).
Proof.
  intros Hwf.
  assert (Hany : forall html,
             speed <> 0%Z ->
             revealed html speed
             = formatBold (fold_right append "" (map typed (split html)))).
  { intros html Hspeed. unfold revealed, typewriterReveal.
    apply Z.eqb_neq in Hspeed. rewrite Hspeed. cbv zeta.
    destruct (typing_parts (split html) ("", [])) as [Hfst Hlast];
      [reflexivity|].
    cbv zeta in Hfst, Hlast. rewrite Hlast, Hfst. reflexivity. }
  split; [now apply formatBold_written|].
  split; [reflexivity|]. split; [|exact Hany].
  intros Hspeed.
  rewrite (Hany _ Hspeed), split_written, typed_parts by assumption.
  apply formatBold_starFree. now apply unmarked_starFree.
Qed.

Lemma typewriter_drops_bold_witness :
  formatBold "You run **Firefox 121** on **Windows**."
  = "You run <strong>Firefox 121</strong> on <strong>Windows</strong>."
  /\ revealed "You run **Firefox 121** on **Windows**." 15
     = "You run Firefox 121 on Windows.".
Proof.
  destruct (typewriter_drops_bold
              [("You run ", "Firefox 121"); (" on ", "Windows")] "." 15
              eq_refl) as (Hbold & _ & Hshown & _).
  split; [exact Hbold|]. apply Hshown. discriminate.
Defined.

End TypewriterFacts.

(** ** The pixel ratio, continued *)

Module PixelRatioFixedPoint.
Import JSNumber PixelRatio.

(** X25. The base ratio that [analyzePixelRatio] reports is a fixed
    point: analysed again, it is matched directly, with high confidence,
    the same base ratio and 100 percent. *)
Theorem trueDPR_is_a_fixed_point (ratio : float) :
  let again := analyzePixelRatio (trueDPR (analyzePixelRatio ratio)) in
  trueDPR again = trueDPR (analyzePixelRatio ratio)
  /\ confidence again = high
  /\ isZoomed again = false
  /\ zoomPercent again = 100%float
  /\ matchedBucket again = matchedBucket (analyzePixelRatio ratio).
Proof.
  destruct (PixelRatioInvariants.analyzePixelRatio_cases ratio)
    as (_ & Hin & Hbucket & _).
  cbv zeta in Hin, Hbucket. rewrite Hbucket.
  set (base := trueDPR (analyzePixelRatio ratio)) in *.
  clearbody base.
  destruct Hin as [<-|[<-|[<-|[<-|[<-|[<-|[]]]]]]];
    vm_compute; repeat split.
Qed.

End PixelRatioFixedPoint.

(** ** Which row a value resolves to *)

Module RowFacts.

Lemma prefix_append (a b : string) : String.prefix a (a ++ b) = true.
Proof.
  induction a as [|c a IH]; simpl; [now destruct b|].
  destruct (ascii_dec c c) as [_|Hneq]; [exact IH|now contradiction Hneq].
Qed.

Lemma prefix_split (a s : string) :
  String.prefix a s = true -> exists b, s = a ++ b.
Proof.
  revert s. induction a as [|c a IH]; intros s H; [now exists s|].
  destruct s as [|d s]; [discriminate|]. simpl in H.
  destruct (ascii_dec c d) as [<-|_]; [|discriminate].
  destruct (IH s H) as [b ->]. now exists b.
Qed.

(** [s.includes(sub)] holds exactly when [sub] occurs in [s]. *)
Lemma includes_occurs (s sub : string) :
  includes s sub = true <-> exists front back, s = front ++ sub ++ back.
Proof.
  split.
  - induction s as [|c s IH]; cbn [includes]; intros H.
    + rewrite orb_false_r in H.
      destruct (prefix_split _ _ H) as [b Hb]. now exists "", b.
    + apply orb_prop in H as [H|H].
      * destruct (prefix_split _ _ H) as [b Hb]. now exists "", b.
      * destruct (IH H) as (front & back & ->).
        now exists (String c front), back.
  - intros (front & back & ->).
    induction front as [|c front IH].
    + cbn [append].
      destruct (sub ++ back) as [|c rest] eqn:Hs.
      * destruct sub; [reflexivity|discriminate].
      * cbn [includes]. rewrite <- Hs, prefix_append. reflexivity.
    + cbn [append includes]. rewrite IH. apply orb_true_r.
Qed.

Lemma includes_trans (s middle sub : string) :
  includes s middle = true -> includes middle sub = true ->
  includes s sub = true.
Proof.
  rewrite !includes_occurs.
  intros (a & b & ->) (c & d & ->).
  exists (a ++ c), (d ++ b).
  now rewrite !FingerprintFacts.append_assoc.
Qed.

Lemma includes_length (s sub : string) :
  includes s sub = true -> (String.length sub <= String.length s)%nat.
Proof.
  rewrite includes_occurs. intros (a & b & ->).
  rewrite !MD5Facts.length_append. lia.
Qed.

(** A name inherited from [Object.prototype] has at most twenty code
    units. *)
Lemma inherited_length (s : string) :
  inherited s = true -> (String.length s <= 20)%nat.
Proof.
  unfold inherited. intros H.
  apply existsb_exists in H as (name & Hin & Heq).
  apply String.eqb_eq in Heq. subst name.
  repeat (destruct Hin as [<-|Hin]; [cbn [String.length]; lia|]).
  destruct Hin.
Qed.

(** X26. Two rows of [GPU_DATA] are shadowed by the rows written before
    them. A renderer text that contains the name of the RTX 3060 Ti and
    is not itself a key resolves to the row of the plain RTX 3060, 8.32
    percent instead of 4.78, because that key comes first and is
    contained in the text; likewise a text that contains the name of
    the RTX 4060 Ti, and not that of the RTX 3060, resolves to the row
    of the plain RTX 4060, 7.92 percent instead of 5.26. *)
Theorem shadowed_GPU_rows (renderer : string) :
  get (data GPU_DATA) (trim renderer) = None ->
  (includes (trim renderer) "NVIDIA GeForce RTX 3060 Ti" = true ->
   percent (lookupMarketShare GPU_DATA renderer) = 8.32
   /\ estimated (lookupMarketShare GPU_DATA renderer) = false)
  /\ (includes (trim renderer) "NVIDIA GeForce RTX 4060 Ti" = true ->
      includes (trim renderer) "NVIDIA GeForce RTX 3060" = false ->
      percent (lookupMarketShare GPU_DATA renderer) = 7.92
      /\ estimated (lookupMarketShare GPU_DATA renderer) = false).
Proof.
  intros Hexact.
  assert (Hread : forall name,
             (String.length name = 26)%nat ->
             includes (trim renderer) name = true ->
             read (data GPU_DATA) (trim renderer) = None).
  { intros name Hlong Hin. apply read_undefined; [exact Hexact|].
    destruct (inherited (trim renderer)) eqn:Hname; [|reflexivity].
    apply inherited_length in Hname. apply includes_length in Hin. lia. }
  unfold lookupMarketShare; cbv zeta.
  assert (Hkeys : exists rest,
             Object_keys (data GPU_DATA)
             = "NVIDIA GeForce RTX 3060" :: "NVIDIA GeForce RTX 4060" :: rest)
    by (eexists; vm_compute; reflexivity).
  destruct Hkeys as [rest ->]. split.
  - intros Hti. rewrite (Hread "NVIDIA GeForce RTX 3060 Ti" eq_refl Hti).
    assert (Hplain : includes (trim renderer) "NVIDIA GeForce RTX 3060" = true)
      by (apply (includes_trans _ _ _ Hti); reflexivity).
    assert (Hfirst : partialMatch (trim renderer) "NVIDIA GeForce RTX 3060"
                     = true)
      by (unfold partialMatch; now rewrite Hplain).
    cbn [find]. rewrite Hfirst.
    cbn [percent estimated]. split; reflexivity.
  - intros Hti Hnot. rewrite (Hread "NVIDIA GeForce RTX 4060 Ti" eq_refl Hti).
    assert (Hplain : includes (trim renderer) "NVIDIA GeForce RTX 4060" = true)
      by (apply (includes_trans _ _ _ Hti); reflexivity).
    assert (Hlong : includes "NVIDIA GeForce RTX 3060" (trim renderer) = false).
    { destruct (includes "NVIDIA GeForce RTX 3060" (trim renderer)) eqn:H;
        [|reflexivity].
      apply includes_length in H. apply includes_length in Hti.
      cbn [String.length] in H, Hti. lia. }
    assert (Hfirst : partialMatch (trim renderer) "NVIDIA GeForce RTX 3060"
                     = false)
      by (unfold partialMatch; now rewrite Hnot, Hlong).
    assert (Hsecond : partialMatch (trim renderer) "NVIDIA GeForce RTX 4060"
                      = true)
      by (unfold partialMatch; now rewrite Hplain).
    cbn [find]. rewrite Hfirst, Hsecond.
    cbn [percent estimated]. split; reflexivity.
Qed.

Lemma shadowed_GPU_rows_witness :
  percent (lookupMarketShare GPU_DATA
             "ANGLE (NVIDIA, NVIDIA GeForce RTX 3060 Ti Direct3D11 vs_5_0 ps_5_0, D3D11)")
  = 8.32.
Proof.
  exact (proj1 (proj1 (shadowed_GPU_rows
           "ANGLE (NVIDIA, NVIDIA GeForce RTX 3060 Ti Direct3D11 vs_5_0 ps_5_0, D3D11)"
           eq_refl) eq_refl)).
Defined.

End RowFacts.

(** ** Where the figures come from *)

Module Traceability.
Import Tests.












End Traceability.
